(** * sdm-core: goal signing, the precondition engine, the fulfillment
      dispatcher, goal-set cancellation and the completion reactor

    A shallow embedding of the TypeScript handlers.  Goal events are records,
    the enums are inductive types, and every handler is a computation in a
    small writer/error monad: the trace lists, in program order, the calls the
    handler makes to its collaborators ([updateGoal], the progress log, the
    status endpoint, the message client), and the outcome says whether the
    returned promise resolves or rejects. *)

From Stdlib Require Import String Ascii List ZArith Bool Lia.
From Stdlib Require Import DecimalString DecimalZ.
Import ListNotations.
Local Open Scope string_scope.

(** ** Data model *)

(** [SdmGoalState] of typings/types. *)
Inductive SdmGoalState : Set :=
| success | pre_approved | requested | waiting_for_pre_approval
| approved | waiting_for_approval | failure | stopped
| planned | in_process | skipped | canceled.

Scheme Equality for SdmGoalState.

(** [SdmGoalFulfillmentMethod] of @atomist/sdm. *)
Inductive SdmGoalFulfillmentMethod : Set := Sdm | SideEffect | Other.

Scheme Equality for SdmGoalFulfillmentMethod.

(** Modelled from the spec: the string values of the two enums (typings/types
    and SdmGoalMessage are not among the sources); a state is written with
    the name the state set of the spec gives it, a method with the name of
    the data model. *)
Definition stateName (s : SdmGoalState) : string :=
  match s with
  | success => "success" | pre_approved => "pre_approved"
  | requested => "requested"
  | waiting_for_pre_approval => "waiting_for_pre_approval"
  | approved => "approved" | waiting_for_approval => "waiting_for_approval"
  | failure => "failure" | stopped => "stopped" | planned => "planned"
  | in_process => "in_process" | skipped => "skipped"
  | canceled => "canceled"
  end.

Definition methodName (m : SdmGoalFulfillmentMethod) : string :=
  match m with Sdm => "Sdm" | SideEffect => "SideEffect" | Other => "Other" end.

Record SdmGoalKey : Set := {
  key_environment : string;
  key_uniqueName : string }.

Record RepoCoordinates : Set := {
  owner : string;
  repo_name : string;
  providerId : string }.

Record SdmProvenance : Set := {
  p_registration : option string;
  p_version : option string;
  p_name : option string;
  p_userId : option string;
  p_channelId : option string;
  p_ts : Z }.

Record SdmExternalUrl : Set := {
  eu_label : option string;
  eu_url : string }.

Record SdmGoalFulfillment : Set := {
  method : SdmGoalFulfillmentMethod;
  f_name : string;
  f_registration : string }.

(** [SdmGoalEvent] (and [SdmGoalMessage], which has the same signed fields).
    A field the code guards with [!!] or [||] is optional; a boolean flag that
    is only ever tested for truthiness is [false] when absent. *)
Record SdmGoalEvent : Set := {
  uniqueName : string;
  environment : string;
  name : string;
  goalSet : string;
  goalSetId : string;
  state : SdmGoalState;
  description : option string;
  ts : Z;
  version : Z;
  repo : RepoCoordinates;
  push_repo : RepoCoordinates;
  sha : string;
  branch : string;
  fulfillment : SdmGoalFulfillment;
  preConditions : list SdmGoalKey;
  data : option string;
  url : option string;
  externalUrls : list SdmExternalUrl;
  provenance : list SdmProvenance;
  retryFeasible : bool;
  approvalRequired : bool;
  approval : option SdmProvenance;
  preApprovalRequired : bool;
  preApproval : option SdmProvenance;
  signature : option string;
  parameters : option string }.

Definition goalKey (g : SdmGoalEvent) : SdmGoalKey :=
  {| key_environment := environment g; key_uniqueName := uniqueName g |}.

(** The parameters object handed to [updateGoal]. *)
Record UpdateSdmGoalParams : Set := {
  u_state : SdmGoalState;
  u_description : option string;
  u_url : option string;
  u_externalUrls : option (list SdmExternalUrl);
  u_data : option string;
  u_phase : option string }.

Definition params (s : SdmGoalState) (d : string) : UpdateSdmGoalParams :=
  {| u_state := s; u_description := Some d; u_url := None;
     u_externalUrls := None; u_data := None; u_phase := None |}.

(** The commit status sent by [createStatus]. *)
Record Status : Set := {
  st_context : string;
  st_description : string;
  st_target_url : option string;
  st_state : string }.

(** The goal-set record of the [SdmGoalSetForId] query. *)
Record SdmGoalSet : Set := {
  gs_goalSet : string;
  gs_goalSetId : string;
  gs_sha : string;
  gs_branch : string;
  gs_repo : RepoCoordinates;
  gs_state : SdmGoalState }.

(** ** Handlers as computations with a trace *)

Inductive Effect : Set :=
| UpdateGoal (g : SdmGoalEvent) (p : UpdateSdmGoalParams)
| LogWrite (line : string)
| LogFlush
| LogClose
| CreateStatus (s : Status)
| SendGoalSet (gs : SdmGoalSet)
| Respond (title text : string).

Inductive Outcome (A : Type) : Type :=
| Returned (a : A)
| Threw (message : string).

Arguments Returned {A} a.
Arguments Threw {A} message.

Definition Handler (A : Type) : Type := (list Effect * Outcome A)%type.

Definition ret {A} (a : A) : Handler A := ([], Returned a).

Definition throw {A} (message : string) : Handler A := ([], Threw message).

Definition emit (e : Effect) : Handler unit := ([e], Returned tt).

Definition bind {A B} (m : Handler A) (k : A -> Handler B) : Handler B :=
  match m with
  | (t, Returned a) => let (t', o) := k a in ((t ++ t')%list, o)
  | (t, Threw e) => (t, Threw e)
  end.

(** [try { body } catch (e) { handler e }]. *)
Definition try_catch {A} (body : Handler A) (handler : string -> Handler A)
  : Handler A :=
  match body with
  | (t, Returned a) => (t, Returned a)
  | (t, Threw e) => let (t', o) := handler e in ((t ++ t')%list, o)
  end.

Notation "x <- m ;; k" := (bind m (fun x => k))
  (at level 61, m at next level, right associativity).
Notation "m ;;; k" := (bind m (fun _ => k))
  (at level 61, right associativity).

Definition trace {A} (m : Handler A) : list Effect := fst m.
Definition outcome {A} (m : Handler A) : Outcome A := snd m.

(** [for (const x of xs) { await body(x); }] *)
Fixpoint for_each {A} (xs : list A) (body : A -> Handler unit) : Handler unit :=
  match xs with
  | [] => ret tt
  | x :: xs' => body x ;;; for_each xs' body
  end.

Definition updateGoal (g : SdmGoalEvent) (p : UpdateSdmGoalParams)
  : Handler unit := emit (UpdateGoal g p).

(** ** Goal signing (internal/signing/goalSigning.ts) *)

(** A template literal prints a number in decimal: so it does the integers
    below 10^21 in absolute value, which timestamps in milliseconds and
    versions are; from there on JavaScript turns to exponent notation, and
    the model does not. *)
Definition numberToString (z : Z) : string :=
  NilEmpty.string_of_int (Z.to_int z).

(** [normalizeValue]: a falsy value (absent, the empty string, [false]) is
    written as the word undefined. *)
Definition normalizeValue (value : option string) : string :=
  match value with
  | Some (String c s) => String c s
  | _ => "undefined"
  end.

Definition normalizeFlag (value : bool) : string :=
  if value then "true" else "undefined".

Definition normalizeProvenance (p : option SdmProvenance) : string :=
  match p with
  | Some p =>
      normalizeValue (p_registration p) ++ ":" ++
      normalizeValue (p_version p) ++ "/" ++
      normalizeValue (p_name p) ++ "-" ++
      normalizeValue (p_userId p) ++ "-" ++
      normalizeValue (p_channelId p) ++ "-" ++
      numberToString (p_ts p)
  | None => "undefined"
  end.

(** The line break of the template literal, with the eight blanks that indent
    every line after the first. *)
Definition LF : ascii := "010"%char.
Definition NL : string := String LF "        ".

Definition normalizeGoal (goal : SdmGoalEvent) : string :=
  "uniqueName:" ++ uniqueName goal ++ NL ++
  "environment:" ++ environment goal ++ NL ++
  "goalSetId:" ++ goalSetId goal ++ NL ++
  "state:" ++ stateName (state goal) ++ NL ++
  "ts:" ++ numberToString (ts goal) ++ NL ++
  "version:" ++ numberToString (version goal) ++ NL ++
  "repo:" ++ owner (repo goal) ++ "/" ++ repo_name (repo goal) ++ "/"
          ++ providerId (repo goal) ++ NL ++
  "sha:" ++ sha goal ++ NL ++
  "branch:" ++ branch goal ++ NL ++
  "fulfillment:" ++ f_name (fulfillment goal) ++ "-"
          ++ methodName (method (fulfillment goal)) ++ NL ++
  "preConditions:" ++
     String.concat "," (map (fun p => key_environment p ++ "/" ++ key_uniqueName p)
                     (preConditions goal)) ++ NL ++
  "data:" ++ normalizeValue (data goal) ++ NL ++
  "url:" ++ normalizeValue (url goal) ++ NL ++
  "externalUrls:" ++ String.concat "," (map eu_url (externalUrls goal)) ++ NL ++
  "provenance:" ++
     String.concat "," (map (fun p => normalizeProvenance (Some p))
                     (provenance goal)) ++ NL ++
  "retry:" ++ normalizeFlag (retryFeasible goal) ++ NL ++
  "approvalRequired:" ++ normalizeFlag (approvalRequired goal) ++ NL ++
  "approval:" ++ normalizeProvenance (approval goal) ++ NL ++
  "preApprovalRequired:" ++ normalizeFlag (preApprovalRequired goal) ++ NL ++
  "preApproval:" ++ normalizeProvenance (preApproval goal).

Record GoalVerificationKey : Set := {
  vk_name : string;
  publicKey : string }.

Record GoalSigningKey : Set := {
  sk_name : string;
  sk_publicKey : string;
  privateKey : string;
  passphrase : option string }.

Record GoalSigningConfiguration : Set := {
  enabled : bool;
  signingKey : option GoalSigningKey;
  verificationKeys : list GoalVerificationKey }.

(** A signing key is also a verification key ([GoalSigningKey extends
    GoalVerificationKey]). *)
Definition asVerificationKey (k : GoalSigningKey) : GoalVerificationKey :=
  {| vk_name := sk_name k; publicKey := sk_publicKey k |}.

(** Node's [crypto] with algorithm RSA-SHA512, signatures in base64:
    [rsa_sign privateKey passphrase message] is
    [createSign(..).update(message).sign({key, passphrase}).toString("base64")],
    [rsa_verify publicKey message signature] is
    [createVerify(..).update(message).verify(publicKey, Buffer.from(signature, "base64"))]. *)
Record Crypto : Type := {
  rsa_sign : string -> option string -> string -> string;
  rsa_verify : string -> string -> string -> bool }.

Definition option_string_eqb (a b : option string) : bool :=
  match a, b with
  | Some x, Some y => String.eqb x y
  | None, None => true
  | _, _ => false
  end.

Definition isGoalRejected (sdmGoal : SdmGoalEvent) : bool :=
  SdmGoalState_beq (state sdmGoal) failure &&
  option_string_eqb (description sdmGoal) (Some ("Rejected: " ++ name sdmGoal)).

Definition rejectGoal (reason : string) (sdmGoal : SdmGoalEvent) : Handler unit :=
  updateGoal sdmGoal
    (params failure ("Rejected " ++ name sdmGoal ++ " because " ++ reason)).

Definition verifyGoal (crypto : Crypto) (goal : SdmGoalEvent)
    (gsc : option GoalSigningConfiguration) : Handler unit :=
  match gsc with
  | Some gsc =>
      if enabled gsc && negb (isGoalRejected goal) then
        match signature goal with
        | Some (String c s) =>
            let message := normalizeGoal goal in
            match find (fun vk => rsa_verify crypto (publicKey vk) message (String c s))
                       (verificationKeys gsc) with
            | Some verifiedWith => ret tt
            | None =>
                rejectGoal "signature was invalid" goal ;;;
                throw "SDM goal signature invalid. Rejecting goal!"
            end
        | _ =>
            rejectGoal "signature was missing" goal ;;;
            throw "SDM goal signature is missing. Rejecting goal!"
        end
      else ret tt
  | None => ret tt
  end.

Definition with_signature (goal : SdmGoalEvent) (s : option string) : SdmGoalEvent :=
  {| uniqueName := uniqueName goal; environment := environment goal;
     name := name goal; goalSet := goalSet goal; goalSetId := goalSetId goal;
     state := state goal; description := description goal; ts := ts goal;
     version := version goal; repo := repo goal; push_repo := push_repo goal;
     sha := sha goal; branch := branch goal; fulfillment := fulfillment goal;
     preConditions := preConditions goal; data := data goal; url := url goal;
     externalUrls := externalUrls goal; provenance := provenance goal;
     retryFeasible := retryFeasible goal;
     approvalRequired := approvalRequired goal; approval := approval goal;
     preApprovalRequired := preApprovalRequired goal;
     preApproval := preApproval goal; signature := s;
     parameters := parameters goal |}.

(** [signGoal] returns the goal with its [signature] set; when signing is not
    enabled or no signing key is configured the function falls off its end
    and the result is [undefined]. *)
Definition signGoal (crypto : Crypto) (goal : SdmGoalEvent)
    (gsc : option GoalSigningConfiguration) : option SdmGoalEvent :=
  match gsc with
  | Some gsc =>
      if enabled gsc then
        match signingKey gsc with
        | Some key =>
            Some (with_signature goal
                    (Some (rsa_sign crypto (privateKey key) (passphrase key)
                                    (normalizeGoal goal))))
        | None => None
        end
      else None
  | None => None
  end.

(** ** The precondition engine
       (handlers/events/delivery/goals/RequestDownstreamGoalsOnGoalSuccess.ts) *)

(** The [Goal] template, as far as the handlers read it. *)
Record Goal : Set := {
  waitingForPreApprovalDescription : string;
  requestedDescription : string }.

Definition goalKeyEquals (a b : SdmGoalKey) : bool :=
  String.eqb (key_environment a) (key_environment b) &&
  String.eqb (key_uniqueName a) (key_uniqueName b).

(** Modelled from the spec: [mapKeyToGoal] of @atomist/sdm is not among the
    sources; the spec has a key found in a list of keys by
    [(environment, uniqueName)], and the first such entry is the one
    [Array.find] returns. *)
Definition mapKeyToGoal {T : Type} (key : T -> SdmGoalKey) (goals : list T)
    (keyToFind : SdmGoalKey) : option T :=
  find (fun g => goalKeyEquals (key g) keyToFind) goals.

(** Modelled from the spec: the precondition rule in the words of the spec,
    every precondition matched, by [(environment, uniqueName)], by a goal in
    state success of the same set.  The handler itself calls
    [preconditionsAreMet] of @atomist/sdm, which is not among the sources and
    is taken as it comes (a field of [RequestDownstream]); the rule serves the
    sample data and the statement that compares the two. *)
Definition preconditionRule (goal : SdmGoalEvent)
    (goalsForCommit : list SdmGoalEvent) : bool :=
  forallb (fun p =>
             existsb (fun h => goalKeyEquals (goalKey h) p &&
                               SdmGoalState_beq (state h) success)
                     goalsForCommit)
          (preConditions goal).

Definition shouldBePlannedOrSkipped (dependentGoal : SdmGoalEvent) : bool :=
  if SdmGoalState_beq (state dependentGoal) planned then true
  else if SdmGoalState_beq (state dependentGoal) skipped then true
  else if SdmGoalState_beq (state dependentGoal) failure
          && retryFeasible dependentGoal then true
  else false.

(** The [default] branch of the switch is not reachable at the enum type. *)
Definition expectToBeFulfilledAfterRequest (dependentGoal : SdmGoalEvent)
    (name : string) : bool :=
  match method (fulfillment dependentGoal) with
  | Sdm => true
  | SideEffect => negb (String.eqb (f_name (fulfillment dependentGoal)) name)
  | Other => true
  end.

Definition isDirectlyDependentOn (successfulGoal : SdmGoalKey)
    (goal : SdmGoalEvent) : bool :=
  match preConditions goal with
  | [] => false
  | _ :: _ =>
      match mapKeyToGoal (fun k => k) (preConditions goal) successfulGoal with
      | Some _ => true
      | None => false
      end
  end.

(** What the handler is constructed with and what it imports: its [name],
    the signing configuration, and the collaborators whose code lives
    elsewhere.  A fulfillment callback is taken as a total function on goal
    events; the repo reference, credentials and preferences the handler
    resolves are only handed to the callbacks and are left out. *)
Record RequestDownstream : Type := {
  rd_name : string;
  rd_goalSigning : option GoalSigningConfiguration;
  rd_crypto : Crypto;
  rd_isGoalRelevant : SdmGoalEvent -> bool;
  fetchGoalsFromPush : SdmGoalEvent -> list SdmGoalEvent;
  preconditionsAreMet : SdmGoalEvent -> list SdmGoalEvent -> bool;
  findGoalBySdmGoal : SdmGoalEvent -> option Goal;
  findFulfillmentCallbackForGoal :
    SdmGoalEvent -> list (SdmGoalEvent -> SdmGoalEvent) }.

Definition goalsToRequest (this : RequestDownstream) (sdmGoal : SdmGoalEvent)
  : list SdmGoalEvent :=
  let goals := fetchGoalsFromPush this sdmGoal in
  filter (fun g => preconditionsAreMet this g goals)
    (filter shouldBePlannedOrSkipped
       (filter (fun g => expectToBeFulfilledAfterRequest g (rd_name this))
          (filter (fun g => isDirectlyDependentOn (goalKey sdmGoal) g) goals))).

(** The goal after its fulfillment-callback chain. *)
Definition runCallbacks (this : RequestDownstream) (sdmG : SdmGoalEvent)
  : SdmGoalEvent :=
  fold_left (fun g cb => cb g) (findFulfillmentCallbackForGoal this sdmG) sdmG.

(** The body mapped over [goalsToRequest]. *)
Definition advance (this : RequestDownstream) (sdmG : SdmGoalEvent) : Effect :=
  let goal := findGoalBySdmGoal this sdmG in
  if preApprovalRequired sdmG then
    UpdateGoal sdmG
      (params waiting_for_pre_approval
         match goal with
         | Some goal => waitingForPreApprovalDescription goal
         | None => "Start required: " ++ name sdmG
         end)
  else
    let g := runCallbacks this sdmG in
    UpdateGoal g
      {| u_state := requested;
         u_description :=
           Some match goal with
                | Some goal => requestedDescription goal
                | None => "Ready: " ++ name g
                end;
         u_url := None; u_externalUrls := None;
         u_data := data g; u_phase := None |}.

(** The handler result: [Success] is [{code: 0}]; the dispatcher spreads the
    executor's result into it. *)
Record ExecuteGoalResult : Set := {
  code : option Z;
  message : option string;
  r_state : option SdmGoalState;
  phase : option string;
  r_description : option string;
  r_externalUrls : option (list SdmExternalUrl) }.

Record HandlerResult : Set := {
  hr_code : Z;
  hr_spread : option ExecuteGoalResult }.

Definition Success : HandlerResult := {| hr_code := 0; hr_spread := None |}.

(** [RequestDownstreamGoalsOnGoalSuccess.handle].  The promises of
    [Promise.all] are taken in the order of [goalsToRequest]; as they run,
    the update of a goal whose callbacks are awaited comes after the updates
    of the goals that await nothing, so the trace gives which updates are
    written, not the order in which they reach the store. *)
Definition RequestDownstream_handle (this : RequestDownstream)
    (sdmGoal : SdmGoalEvent) : Handler HandlerResult :=
  if negb (rd_isGoalRelevant this sdmGoal) then ret Success
  else
    verifyGoal (rd_crypto this) sdmGoal (rd_goalSigning this) ;;;
    for_each (goalsToRequest this sdmGoal)
             (fun sdmG => emit (advance this sdmG)) ;;;
    ret Success.

(** ** The fulfillment dispatcher
       (handlers/events/delivery/goals/FulfillGoalOnRequested.ts) *)

Record GoalInvocation : Set := {
  gi_goalEvent : SdmGoalEvent;
  gi_goal : Goal;
  progressLog_url : option string;
  gi_parameters : string }.

Record GoalScheduler : Type := {
  supports : GoalInvocation -> bool;
  schedule : GoalInvocation -> Handler (option ExecuteGoalResult) }.

(** The configuration and the collaborators of the dispatcher.
    [goalInvocationFor] stands for lines 106 to 131 of the handler, which
    resolve credentials, implementation and progress log and parse the
    parameters, any of which may throw.  [goalSchedulers] is
    [configuration.sdm.goalScheduler] as a list (none, one or an array).
    [executeGoal] publishes goal states of its own and may throw. *)
Record Dispatcher : Type := {
  configuration_name : string;
  client_name : string;
  client_version : string;
  d_goalSigning : option GoalSigningConfiguration;
  d_crypto : Crypto;
  shouldFulfill : SdmGoalEvent -> bool;
  cancelableGoal : SdmGoalEvent -> bool;
  isGoalCanceled : SdmGoalEvent -> bool;
  goalInvocationFor : SdmGoalEvent -> Outcome GoalInvocation;
  goalSchedulers : list GoalScheduler;
  executeGoal : GoalInvocation -> Handler (option ExecuteGoalResult);
  descriptionFromState : Goal -> SdmGoalState -> SdmGoalEvent -> string;
  serializeResult : option ExecuteGoalResult -> string;
  hostname : string;
  startDate : string;
  finishDate : string;
  duration : string }.

Definition findGoalScheduler (gi : GoalInvocation) (this : Dispatcher)
  : option GoalScheduler :=
  find (fun gl => supports gl gi) (goalSchedulers this).

(** [s.slice(2)] *)
Definition slice2 (s : string) : string :=
  match s with
  | String _ (String _ r) => r
  | _ => ""
  end.

Definition reportStart (this : Dispatcher) (sdmGoal : SdmGoalEvent)
  : Handler unit :=
  emit (LogWrite "/--") ;;;
  emit (LogWrite ("Start: " ++ startDate this)) ;;;
  emit (LogWrite ("Repository: " ++ owner (push_repo sdmGoal) ++ "/"
                    ++ repo_name (push_repo sdmGoal) ++ "/" ++ branch sdmGoal)) ;;;
  emit (LogWrite ("Sha: " ++ sha sdmGoal)) ;;;
  emit (LogWrite ("Goal: " ++ name sdmGoal ++ " (" ++ uniqueName sdmGoal ++ ")")) ;;;
  emit (LogWrite ("Environment: " ++ slice2 (environment sdmGoal))) ;;;
  emit (LogWrite ("GoalSet: " ++ goalSet sdmGoal ++ " - " ++ goalSetId sdmGoal)) ;;;
  emit (LogWrite ("Host: " ++ hostname this)) ;;;
  emit (LogWrite ("SDM: " ++ client_name this ++ ":" ++ client_version this)) ;;;
  emit (LogWrite "\--") ;;;
  emit LogFlush.

Definition reportEndAndClose (this : Dispatcher)
    (result : option ExecuteGoalResult) : Handler unit :=
  emit (LogWrite "/--") ;;;
  emit (LogWrite ("Result: " ++ serializeResult this result)) ;;;
  emit (LogWrite ("Duration: " ++ duration this)) ;;;
  emit (LogWrite ("Finish: " ++ finishDate this)) ;;;
  emit (LogWrite "\--") ;;;
  emit LogClose.

Definition terminatingStates : list SdmGoalState :=
  [canceled; failure; skipped; stopped; success; waiting_for_approval].

Definition includes (l : list SdmGoalState) (s : SdmGoalState) : bool :=
  existsb (SdmGoalState_beq s) l.

(** [!!s ? s : d] on an optional string. *)
Definition orElse (s : option string) (d : string) : string :=
  match s with
  | Some (String c r) => String c r
  | _ => d
  end.

(** [!!result && result.code !== undefined && result.code !== 0] *)
Definition schedulingFailed (result : option ExecuteGoalResult) : bool :=
  match result with
  | Some r => match code r with
              | Some c => negb (Z.eqb c 0)
              | None => false
              end
  | None => false
  end.

(** [!result || !result.state || terminatingStates.includes(result.state)] *)
Definition endsExecution (result : option ExecuteGoalResult) : bool :=
  match result with
  | Some r => match r_state r with
              | Some s => includes terminatingStates s
              | None => true
              end
  | None => true
  end.

Definition lift {A} (o : Outcome A) : Handler A := ([], o).

(** The branch taken when a scheduler supports the invocation. *)
Definition scheduled (this : Dispatcher) (goalScheduler : GoalScheduler)
    (sdmGoal : SdmGoalEvent) (gi : GoalInvocation) : Handler HandlerResult :=
  result <- schedule goalScheduler gi ;;
  (if schedulingFailed result then
     updateGoal sdmGoal
       {| u_state := failure;
          u_description := Some "Failed to schedule goal";
          u_url := progressLog_url gi;
          u_externalUrls := None; u_data := None; u_phase := None |} ;;;
     reportEndAndClose this result
   else
     updateGoal sdmGoal
       {| u_state := match result with
                     | Some r => match r_state r with
                                 | Some s => s
                                 | None => in_process
                                 end
                     | None => in_process
                     end;
          u_description :=
            Some (orElse match result with
                         | Some r => r_description r
                         | None => None
                         end
                         (descriptionFromState this (gi_goal gi) in_process sdmGoal));
          u_url := progressLog_url gi;
          u_externalUrls := match result with
                            | Some r => r_externalUrls r
                            | None => None
                            end;
          u_data := None;
          u_phase := Some (orElse match result with
                                  | Some r => phase r
                                  | None => None
                                  end "scheduled") |}) ;;;
  ret {| hr_code := 0; hr_spread := result |}.

(** The branch without a scheduler.  [delete sdmGoal.id] has no counterpart:
    the record has no [id]. *)
Definition inProcess (this : Dispatcher) (sdmGoal : SdmGoalEvent)
    (gi : GoalInvocation) : Handler HandlerResult :=
  reportStart this sdmGoal ;;;
  try_catch
    (result <- executeGoal this gi ;;
     (if endsExecution result then reportEndAndClose this result else ret tt) ;;;
     ret {| hr_code := 0; hr_spread := result |})
    (fun e =>
       let e_message := "Goal executor threw exception: " ++ e in
       let egr := {| code := Some 1%Z; message := Some e_message;
                     r_state := Some failure; phase := None;
                     r_description := None; r_externalUrls := None |} in
       reportEndAndClose this (Some egr) ;;;
       throw e_message).

(** [FulfillGoalOnRequested.handle] *)
Definition FulfillGoalOnRequested_handle (this : Dispatcher)
    (sdmGoal : SdmGoalEvent) : Handler HandlerResult :=
  if negb (shouldFulfill this sdmGoal) then ret Success
  else
    verifyGoal (d_crypto this) sdmGoal (d_goalSigning this) ;;;
    if cancelableGoal this sdmGoal && isGoalCanceled this sdmGoal then ret Success
    else if SdmGoalFulfillmentMethod_beq (method (fulfillment sdmGoal)) SideEffect
            && negb (String.eqb (f_registration (fulfillment sdmGoal))
                                (configuration_name this))
    then ret Success
    else if SdmGoalFulfillmentMethod_beq (method (fulfillment sdmGoal)) Other
    then
      updateGoal sdmGoal
        (params failure ("No fulfillment for " ++ uniqueName sdmGoal)) ;;;
      ret Success
    else
      goalInvocation <- lift (goalInvocationFor this sdmGoal) ;;
      match findGoalScheduler goalInvocation this with
      | Some goalScheduler => scheduled this goalScheduler sdmGoal goalInvocation
      | None => inProcess this sdmGoal goalInvocation
      end.

(** ** Goal-set cancellation (pack/goal-state/cancelGoals.ts) *)

(** The graph client and the message formatting, as [cancelGoalSet] uses
    them. *)
Record CancelContext : Type := {
  query_SdmGoalSetForId : string -> list SdmGoalSet;
  fetchGoalsForCommit : SdmGoalSet -> string -> list SdmGoalEvent;
  italic : string -> string;
  codeLine : string -> string;
  bold : string -> string }.

(** The states in which [cancelGoalSet] leaves a goal alone. *)
Definition notCanceled : list SdmGoalState :=
  [success; canceled; stopped; skipped; failure].

(** [s.slice(0, 7)] *)
Definition slice07 (s : string) : string := substring 0 7 s.

Definition with_state (gs : SdmGoalSet) (s : SdmGoalState) : SdmGoalSet :=
  {| gs_goalSet := gs_goalSet gs; gs_goalSetId := gs_goalSetId gs;
     gs_sha := gs_sha gs; gs_branch := gs_branch gs; gs_repo := gs_repo gs;
     gs_state := s |}.

Definition cancelGoal (goal : SdmGoalEvent) : Handler unit :=
  if negb (includes notCanceled (state goal)) then
    updateGoal goal (params canceled ("Canceled " ++ name goal))
  else ret tt.

(** [cancelGoalSet]: reading [repo] of the first record throws when the query
    finds no goal set. *)
Definition cancelGoalSet (ctx : CancelContext) (goalSetId : string)
  : Handler unit :=
  let result := query_SdmGoalSetForId ctx goalSetId in
  match result with
  | [] => throw "TypeError: Cannot read property 'repo' of undefined"
  | goalSet :: _ =>
      let goals := fetchGoalsForCommit ctx goalSet goalSetId in
      for_each goals cancelGoal ;;;
      (if Nat.eqb (List.length result) 1 then
         emit (SendGoalSet (with_state goalSet canceled))
       else ret tt) ;;;
      emit (Respond "Cancel Goal Set"
              ("Canceled goal set " ++ italic ctx (gs_goalSet goalSet) ++ " "
                 ++ codeLine ctx (slice07 goalSetId) ++ " on "
                 ++ codeLine ctx (slice07 (gs_sha goalSet)) ++ " of "
                 ++ bold ctx (owner (gs_repo goalSet) ++ "/"
                                ++ repo_name (gs_repo goalSet) ++ "/"
                                ++ gs_branch goalSet)))
  end.

(** ** The completion reactor's status listener
       (setGitHubStatusOnGoalCompletion) *)

Record SoftwareDeliveryMachine : Set := {
  sdm_name : string;
  sdm_configuration_name : string }.

Record GoalCompletionListenerInvocation : Set := {
  completedGoal : SdmGoalEvent;
  allGoals : list SdmGoalEvent }.

(** [s.replace("@", "")]: the first at sign is dropped. *)
Fixpoint dropFirstAt (s : string) : string :=
  match s with
  | EmptyString => EmptyString
  | String c r => if Ascii.eqb c "@"%char then r else String c (dropFirstAt r)
  end.

Definition prefix (sdm : SoftwareDeliveryMachine) : string :=
  match sdm_name sdm with
  | String _ _ => sdm_name sdm ++ " goals"
  | EmptyString => "Atomist SDM goals"
  end.

Definition context (sdm : SoftwareDeliveryMachine) : string :=
  "sdm/" ++ dropFirstAt (sdm_configuration_name sdm).

(** An optional string inside a template literal. *)
Definition interpolate (s : option string) : string :=
  match s with Some s => s | None => "undefined" end.

Definition allSuccessful (goals : list SdmGoalEvent) : bool :=
  negb (existsb (fun g => negb (String.eqb (stateName (state g)) "success")) goals).

Definition failureStatus (sdm : SoftwareDeliveryMachine)
    (completedGoal : SdmGoalEvent) : Status :=
  {| st_context := context sdm;
     st_description := prefix sdm ++ ": " ++ interpolate (description completedGoal);
     st_target_url := url completedGoal;
     st_state := "failure" |}.

Definition successStatus (sdm : SoftwareDeliveryMachine) : Status :=
  {| st_context := context sdm;
     st_description := prefix sdm ++ ": all succeeded";
     st_target_url := Some "https://app.atomist.com";
     st_state := "success" |}.

Definition setGitHubStatusOnGoalCompletion (sdm : SoftwareDeliveryMachine)
    (inv : GoalCompletionListenerInvocation) : Handler unit :=
  if String.eqb (stateName (state (completedGoal inv))) "failure" then
    emit (CreateStatus (failureStatus sdm (completedGoal inv)))
  else if allSuccessful (allGoals inv) then
    emit (CreateStatus (successStatus sdm))
  else ret tt.

(** ** The rest of the status listeners (pending status, state mapping) *)

(** [GoalsSetListenerInvocation], as the pending-status listener reads it:
    the goal set may be absent, and [goals] absent is the empty list. *)
Record GoalsSetListenerInvocation : Set := {
  gsl_goalSetId : string;
  gsl_goalSet : option (list Goal) }.

Definition pendingStatus (sdm : SoftwareDeliveryMachine) : Status :=
  {| st_context := context sdm;
     st_description := prefix sdm ++ " in progress";
     st_target_url := Some "https://app.atomist.com";
     st_state := "pending" |}.

Definition createPendingGitHubStatusOnGoalSet (sdm : SoftwareDeliveryMachine)
    (inv : GoalsSetListenerInvocation) : Handler unit :=
  match gsl_goalSet inv with
  | Some (_ :: _) => emit (CreateStatus (pendingStatus sdm))
  | _ => ret tt
  end.

(** [sdmGoalStateToGitHubStatusState]; the [default] branch, which throws,
    is not reachable at the enum type. *)
Definition sdmGoalStateToGitHubStatusState (goalState : SdmGoalState) : string :=
  match goalState with
  | planned | requested | in_process | waiting_for_approval
  | waiting_for_pre_approval | approved | pre_approved => "pending"
  | success => "success"
  | failure | skipped | stopped | canceled => "failure"
  end.

(** ** The completion reactor
       (handlers/events/delivery/goals/RespondOnGoalCompletion.ts) *)

(** A completion listener is called with the invocation and returns a
    promise; the call itself may throw before any promise is returned (a
    listener written as an [async] function never does). *)
Definition GoalCompletionListener : Type :=
  GoalCompletionListenerInvocation -> Outcome (Handler unit).

Record RespondOnGoalCompletion : Type := {
  cr_isGoalRelevant : SdmGoalEvent -> bool;
  cr_fetchGoalsForCommit : SdmGoalEvent -> list SdmGoalEvent;
  goalCompletionListeners : list GoalCompletionListener }.

(** [listeners.map(l => l(gsi))]: the promises returned so far and, when a
    call throws, the error that ends the map. *)
Fixpoint callListeners (listeners : list GoalCompletionListener)
    (gsi : GoalCompletionListenerInvocation)
  : list (Handler unit) * option string :=
  match listeners with
  | [] => ([], None)
  | l :: rest =>
      match l gsi with
      | Threw e => ([], Some e)
      | Returned promise =>
          let (promises, thrown) := callListeners rest gsi in
          (promise :: promises, thrown)
      end
  end.

(** [await Promise.all(ps)] for promises already started: every one of them
    runs, whatever the others do; the result is rejected with the first
    rejection.  The promises are taken in the order of the list. *)
Fixpoint promise_all (ps : list (Handler unit)) : Handler unit :=
  match ps with
  | [] => ret tt
  | p :: ps' =>
      let rest := promise_all ps' in
      ((fst p ++ fst rest)%list,
       match snd p with
       | Returned _ => snd rest
       | Threw e => Threw e
       end)
  end.

(** [RespondOnGoalCompletion.handle].  When a call inside the map throws,
    [Promise.all] is never reached and the handler rejects with that error;
    the promises started before it run on, unawaited. *)
Definition RespondOnGoalCompletion_handle (this : RespondOnGoalCompletion)
    (sdmGoal : SdmGoalEvent) : Handler HandlerResult :=
  if negb (cr_isGoalRelevant this sdmGoal) then ret Success
  else
    let gsi := {| completedGoal := sdmGoal;
                  allGoals := cr_fetchGoalsForCommit this sdmGoal |} in
    match callListeners (goalCompletionListeners this) gsi with
    | (promises, Some e) => (trace (promise_all promises), Threw e)
    | (promises, None) => promise_all promises ;;; ret Success
    end.

(** ** The signing listener (GoalSigningAutomationEventListener) *)

(** The [verificationKeys] a configuration is written with: nothing, one
    key, or an array of keys. *)
Inductive VerificationKeys : Set :=
| NoKeys
| OneKey (k : GoalVerificationKey)
| KeyArray (ks : list GoalVerificationKey).

Record GoalSigningSettings : Set := {
  set_enabled : bool;
  set_signingKey : option GoalSigningKey;
  set_verificationKeys : VerificationKeys }.

(** [initVerificationKeys], the constructor's work; [atomistPublicKey] is the
    content of the file atomist-public.pem. *)
Definition initVerificationKeys (atomistPublicKey : string)
    (gsc : GoalSigningSettings) : GoalSigningConfiguration :=
  let keys := match set_verificationKeys gsc with
              | KeyArray ks => ks
              | OneKey k => [k]
              | NoKeys => []
              end in
  let keys := match set_signingKey gsc with
              | Some k => (keys ++ [asVerificationKey k])%list
              | None => keys
              end in
  {| enabled := set_enabled gsc;
     signingKey := set_signingKey gsc;
     verificationKeys :=
       (keys ++ [ {| vk_name := "atomist.com/sdm";
                     publicKey := atomistPublicKey |} ])%list |}.

Record Destination : Set := {
  userAgent : string;
  rootType : option string }.

Definition isGoalIngestion (d : Destination) : bool :=
  String.eqb (userAgent d) "ingester" &&
  option_string_eqb (rootType d) (Some "SdmGoal").

(** [messageSending] on a goal message: [signGoal] returns [undefined] when
    it does not sign, and the log line then reads [uniqueName] of
    [undefined]. *)
Definition messageSending (crypto : Crypto) (gsc : GoalSigningConfiguration)
    (message : SdmGoalEvent) (destinations : list Destination)
  : Outcome SdmGoalEvent :=
  if existsb isGoalIngestion destinations then
    match signGoal crypto message (Some gsc) with
    | Some goal => Returned goal
    | None => Threw "TypeError: Cannot read property 'uniqueName' of undefined"
    end
  else Returned message.

(** ** The cancel command (cancelGoalSetsCommand) *)

(** The body of the [for] loop over one answer of [pendingGoalSets]:
    [ctxAt n] is the graph client as the call of [cancelGoalSet] that follows
    [n] earlier ones finds it; the result is the new [count]. *)
Fixpoint cancelEach (ctxAt : nat -> CancelContext) (count : nat)
    (pgs : list SdmGoalSet) : Handler nat :=
  match pgs with
  | [] => ret count
  | pg :: rest =>
      cancelGoalSet (ctxAt count) (gs_goalSetId pg) ;;;
      cancelEach ctxAt (S count) rest
  end.

(** The [while (pgs.length > 0)] loop: [pending n] is the answer to the
    query [pendingGoalSets] number [n].  [None] when the fuel runs out. *)
Fixpoint cancelWhilePending (pending : nat -> list SdmGoalSet)
    (ctxAt : nat -> CancelContext) (fuel round count : nat)
  : option (Handler nat) :=
  match fuel with
  | O => None
  | S fuel' =>
      match pending round with
      | [] => Some (ret count)
      | pgs =>
          match cancelEach ctxAt count pgs with
          | (t, Returned count') =>
              match cancelWhilePending pending ctxAt fuel' (S round) count' with
              | Some (t', o) => Some ((t ++ t')%list, o)
              | None => None
              end
          | (t, Threw e) => Some (t, Threw e)
          end
      end
  end.

Definition canceledMessage (count : nat) : string :=
  "Successfully canceled " ++ numberToString (Z.of_nat count)
    ++ " pending goal " ++ (if Nat.ltb 1 count then "sets" else "set").

(** The listener of [cancelGoalSetsCommand]: an empty [goalSetId] parameter
    is as good as none. *)
Definition cancelGoalSetsCommand (pending : nat -> list SdmGoalSet)
    (ctxAt : nat -> CancelContext) (goalSetId : option string) (fuel : nat)
  : option (Handler unit) :=
  match goalSetId with
  | Some (String c s) => Some (cancelGoalSet (ctxAt 0) (String c s))
  | _ =>
      match cancelWhilePending pending ctxAt fuel 0 0 with
      | Some m =>
          Some (count <- m ;;
                emit (Respond "Cancel Goal Sets" (canceledMessage count)))
      | None => None
      end
  end.

(** ** The list command (listPendingGoalSetsCommand) *)

(** A button made by [buttonForCommand] and a Slack attachment, as far as
    the command writes them. *)
Record Action : Set := {
  act_text : string;
  act_command : string;
  act_goalSetId : string;
  act_msgId : string }.

Record Attachment : Set := {
  att_text : string;
  att_fallback : string;
  att_footer : option string;
  att_actions : list Action }.

Definition with_footer (a : Attachment) (f : option string) : Attachment :=
  {| att_text := att_text a; att_fallback := att_fallback a;
     att_footer := f; att_actions := att_actions a |}.

(** The attachment pushed for one pending goal set; [fmt] gives the
    formatting functions, [id] is the message id. *)
Definition pendingAttachment (fmt : CancelContext) (id : string)
    (pg : SdmGoalSet) : Attachment :=
  {| att_text :=
       "Pending goal set " ++ italic fmt (gs_goalSet pg) ++ " "
         ++ codeLine fmt (slice07 (gs_goalSetId pg)) ++ " on "
         ++ codeLine fmt (slice07 (gs_sha pg)) ++ " of "
         ++ bold fmt (owner (gs_repo pg) ++ "/" ++ repo_name (gs_repo pg)
                        ++ "/" ++ gs_branch pg)
         ++ " is " ++ italic fmt (stateName (gs_state pg));
     att_fallback := gs_goalSet pg;
     att_footer := None;
     att_actions :=
       [ {| act_text := "Cancel"; act_command := "CancelGoalSets";
            act_goalSetId := gs_goalSetId pg; act_msgId := id |} ] |}.

(** The [while (pgs.length > 0)] loop of the list command. *)
Fixpoint listWhilePending (pending : nat -> list SdmGoalSet)
    (fmt : CancelContext) (id : string) (fuel round : nat)
    (attachments : list Attachment) : option (list Attachment) :=
  match fuel with
  | O => None
  | S fuel' =>
      match pending round with
      | [] => Some attachments
      | pgs =>
          listWhilePending pending fmt id fuel' (S round)
            (attachments ++ map (pendingAttachment fmt id) pgs)%list
      end
  end.

(** The text of the first attachment, for [n = attachments.length - 1]. *)
Definition pendingHeader (n : Z) : string :=
  "Following " ++ numberToString n ++ " goal "
    ++ (if Z.eqb n 1 then "set is" else "sets are") ++ " pending:".

(** The message after the footer of its first attachment is removed, the
    attachments are pushed and the footer is set on the last one. *)
Definition assemble (slackFooter : string) (msg attachments : list Attachment)
  : Outcome (list Attachment) :=
  match msg with
  | [] => Threw "TypeError: Cannot set property 'footer' of undefined"
  | first :: rest =>
      let all := (with_footer first None :: rest ++ attachments)%list in
      Returned (removelast all
                  ++ [with_footer (last all first) (Some slackFooter)])%list
  end.

(** The listener of [listPendingGoalSetsCommand]; the result is the message
    it responds with.  [slackInfoMessage] and [slackFooter] are those of
    @atomist/sdm. *)
Definition listPendingGoalSetsCommand
    (slackInfoMessage : string -> string -> list Attachment)
    (slackFooter : string) (pending : nat -> list SdmGoalSet)
    (fmt : CancelContext) (id : string) (fuel : nat)
  : option (Outcome (list Attachment)) :=
  match listWhilePending pending fmt id fuel 0 [] with
  | Some attachments =>
      let msg := slackInfoMessage "Pending Goal Sets"
                   (pendingHeader (Z.of_nat (List.length attachments) - 1)) in
      Some (assemble slackFooter msg attachments)
  | None => None
  end.

(** ** The metadata filter of the isolated worker (FilteringMetadataProcessor) *)

(** Automation metadata: [md_event] and [md_command] say what the two type
    guards answer; [expose] may be absent. *)
Record AutomationMetadata : Set := {
  md_name : string;
  md_event : bool;
  md_command : bool;
  expose : option bool }.

Definition hide (metadata : AutomationMetadata) : AutomationMetadata :=
  {| md_name := md_name metadata; md_event := md_event metadata;
     md_command := md_command metadata; expose := Some false |}.

Definition names_include (l : list string) (n : string) : bool :=
  existsb (String.eqb n) l.

Definition FilteringMetadataProcessor_process
    (allowedCommands allowedEvents : list string)
    (metadata : AutomationMetadata) : AutomationMetadata :=
  if md_event metadata && negb (names_include allowedEvents (md_name metadata))
  then hide metadata
  else if md_command metadata
          && negb (names_include allowedCommands (md_name metadata))
  then hide metadata
  else metadata.

(** ** Sample data: a toy signature scheme, goals and collaborators *)

Definition keyTag (k : string) : ascii :=
  match k with String c _ => c | EmptyString => "0"%char end.

(** A signature is the message behind the first character of the key. *)
Definition toyCrypto : Crypto :=
  {| rsa_sign := fun sk _ m => String (keyTag sk) m;
     rsa_verify := fun pk m s => String.eqb s (String (keyTag pk) m) |}.

Definition toyKey : GoalSigningKey :=
  {| sk_name := "sdm"; sk_publicKey := "k1"; privateKey := "k1";
     passphrase := None |}.

Definition toySigning : GoalSigningConfiguration :=
  {| enabled := true; signingKey := Some toyKey;
     verificationKeys :=
       [ {| vk_name := "other"; publicKey := "z9" |}; asVerificationKey toyKey ] |}.

Definition sampleRepo : RepoCoordinates :=
  {| owner := "atomist"; repo_name := "sdm-core"; providerId := "gh" |}.

Definition sdmFulfillment : SdmGoalFulfillment :=
  {| method := Sdm; f_name := "builder"; f_registration := "my-sdm" |}.

Definition sampleGoal (uniqueName environment : string) (st : SdmGoalState)
    (pre : list SdmGoalKey) (f : SdmGoalFulfillment) : SdmGoalEvent :=
  {| uniqueName := uniqueName; environment := environment;
     name := uniqueName; goalSet := "build"; goalSetId := "set-1";
     state := st; description := None; ts := 1546300800000; version := 1;
     repo := sampleRepo; push_repo := sampleRepo; sha := "9f2c";
     branch := "master"; fulfillment := f; preConditions := pre;
     data := None; url := Some "https://log/1"; externalUrls := [];
     provenance := []; retryFeasible := false; approvalRequired := false;
     approval := None; preApprovalRequired := false; preApproval := None;
     signature := None; parameters := None |}.

Definition buildGoal : SdmGoalEvent :=
  sampleGoal "build" "0-code" success [] sdmFulfillment.

Definition buildKey : SdmGoalKey := goalKey buildGoal.

Definition testGoal : SdmGoalEvent :=
  sampleGoal "test" "0-code" planned [buildKey] sdmFulfillment.

Definition deployGoal : SdmGoalEvent :=
  sampleGoal "deploy" "1-staging" in_process [buildKey] sdmFulfillment.

(** A side-effect goal whose fulfillment carries the name the engine is
    constructed with. *)
Definition ownSideEffectGoal : SdmGoalEvent :=
  sampleGoal "publish" "0-code" planned [buildKey]
    {| method := SideEffect; f_name := "my-sdm"; f_registration := "my-sdm" |}.

Definition foreignSideEffectGoal : SdmGoalEvent :=
  sampleGoal "notify" "0-code" requested []
    {| method := SideEffect; f_name := "notifier"; f_registration := "other-sdm" |}.

Definition unfulfilledGoal : SdmGoalEvent :=
  sampleGoal "orphan" "0-code" requested []
    {| method := Other; f_name := "nobody"; f_registration := "my-sdm" |}.

Definition sampleEngine (goals : list SdmGoalEvent) : RequestDownstream :=
  {| rd_name := "my-sdm"; rd_goalSigning := None; rd_crypto := toyCrypto;
     rd_isGoalRelevant := fun _ => true;
     fetchGoalsFromPush := fun _ => goals;
     preconditionsAreMet := preconditionRule;
     findGoalBySdmGoal := fun _ => None;
     findFulfillmentCallbackForGoal := fun _ => [] |}.

Definition sampleTemplate : Goal :=
  {| waitingForPreApprovalDescription := "Start required";
     requestedDescription := "Ready" |}.

Definition sampleInvocation (g : SdmGoalEvent) : GoalInvocation :=
  {| gi_goalEvent := g; gi_goal := sampleTemplate;
     progressLog_url := Some "https://log/1"; gi_parameters := "{}" |}.

Definition resultOf (c : Z) (s : option SdmGoalState) : ExecuteGoalResult :=
  {| code := Some c; message := None; r_state := s; phase := None;
     r_description := None; r_externalUrls := None |}.

(** A dispatcher with the given schedulers and executor behaviour. *)
Definition sampleDispatcher (schedulers : list GoalScheduler)
    (run : GoalInvocation -> Handler (option ExecuteGoalResult)) : Dispatcher :=
  {| configuration_name := "my-sdm"; client_name := "my-sdm";
     client_version := "1.0.0"; d_goalSigning := None; d_crypto := toyCrypto;
     shouldFulfill := fun _ => true;
     cancelableGoal := fun _ => false;
     isGoalCanceled := fun _ => false;
     goalInvocationFor := fun g => Returned (sampleInvocation g);
     goalSchedulers := schedulers;
     executeGoal := run;
     descriptionFromState := fun _ _ g => "Working: " ++ name g;
     serializeResult := fun _ => "result";
     hostname := "host"; startDate := "t0"; finishDate := "t1";
     duration := "1s" |}.

Definition failingScheduler : GoalScheduler :=
  {| supports := fun _ => true;
     schedule := fun _ => ret (Some (resultOf 1 None)) |}.

Definition throwingExecutor (gi : GoalInvocation)
  : Handler (option ExecuteGoalResult) := throw "boom".

Definition succeedingExecutor (gi : GoalInvocation)
  : Handler (option ExecuteGoalResult) :=
  updateGoal (gi_goalEvent gi) (params success "Done") ;;;
  ret (Some (resultOf 0 None)).

Definition sampleSet : SdmGoalSet :=
  {| gs_goalSet := "build"; gs_goalSetId := "set-1"; gs_sha := "9f2c";
     gs_branch := "master"; gs_repo := sampleRepo; gs_state := in_process |}.

Definition sampleCancelContext : CancelContext :=
  {| query_SdmGoalSetForId := fun _ => [sampleSet];
     fetchGoalsForCommit := fun _ _ => [buildGoal; testGoal; deployGoal];
     italic := fun s => "_" ++ s ++ "_";
     codeLine := fun s => "`" ++ s ++ "`";
     bold := fun s => "*" ++ s ++ "*" |}.

Definition sampleSdm : SoftwareDeliveryMachine :=
  {| sdm_name := "my-sdm"; sdm_configuration_name := "@atomist/my-sdm" |}.

Definition requestedGoal : SdmGoalEvent :=
  sampleGoal "build" "0-code" requested [] sdmFulfillment.

Definition failedGoal : SdmGoalEvent :=
  {| uniqueName := "test"; environment := "0-code"; name := "test";
     goalSet := "build"; goalSetId := "set-1"; state := failure;
     description := Some "Tests failed"; ts := 1546300800000; version := 2;
     repo := sampleRepo; push_repo := sampleRepo; sha := "9f2c";
     branch := "master"; fulfillment := sdmFulfillment;
     preConditions := [buildKey]; data := None; url := Some "https://log/1";
     externalUrls := []; provenance := []; retryFeasible := false;
     approvalRequired := false; approval := None;
     preApprovalRequired := false; preApproval := None; signature := None;
     parameters := None |}.

(** ** Vocabulary of the statements *)

(** The lines [reportStart] writes before it flushes. *)
Definition startLines (this : Dispatcher) (sdmGoal : SdmGoalEvent) : list string :=
  [ "/--";
    "Start: " ++ startDate this;
    "Repository: " ++ owner (push_repo sdmGoal) ++ "/"
       ++ repo_name (push_repo sdmGoal) ++ "/" ++ branch sdmGoal;
    "Sha: " ++ sha sdmGoal;
    "Goal: " ++ name sdmGoal ++ " (" ++ uniqueName sdmGoal ++ ")";
    "Environment: " ++ slice2 (environment sdmGoal);
    "GoalSet: " ++ goalSet sdmGoal ++ " - " ++ goalSetId sdmGoal;
    "Host: " ++ hostname this;
    "SDM: " ++ client_name this ++ ":" ++ client_version this;
    "\--" ].

(** The lines [reportEndAndClose] writes before it closes the log. *)
Definition endLines (this : Dispatcher) (result : option ExecuteGoalResult)
  : list string :=
  [ "/--";
    "Result: " ++ serializeResult this result;
    "Duration: " ++ duration this;
    "Finish: " ++ finishDate this;
    "\--" ].

(** The result the [catch] block builds from the error it caught. *)
Definition capturedResult (e_message : string) : ExecuteGoalResult :=
  {| code := Some 1%Z;
     message := Some ("Goal executor threw exception: " ++ e_message);
     r_state := Some failure; phase := None; r_description := None;
     r_externalUrls := None |}.

(** The update the handler writes when scheduling failed. *)
Definition schedulingFailure (sdmGoal : SdmGoalEvent) (gi : GoalInvocation)
  : Effect :=
  UpdateGoal sdmGoal
    {| u_state := failure; u_description := Some "Failed to schedule goal";
       u_url := progressLog_url gi; u_externalUrls := None; u_data := None;
       u_phase := None |}.

(** The candidate of the precondition rule, in the words of the spec: the
    goal lists the succeeded goal among its preconditions, is in one of the
    states a candidacy is evaluated from, and has every precondition matched
    by a goal in state success of the same set. *)
Definition listsAsPrecondition (succeeded g : SdmGoalEvent) : Prop :=
  exists p, In p (preConditions g) /\
            key_environment p = environment succeeded /\
            key_uniqueName p = uniqueName succeeded.

Definition inCandidateState (g : SdmGoalEvent) : Prop :=
  state g = planned \/ state g = skipped \/
  (state g = failure /\ retryFeasible g = true).

Definition everyPreconditionSucceeded (goals : list SdmGoalEvent)
    (g : SdmGoalEvent) : Prop :=
  forall p, In p (preConditions g) ->
    exists h, In h goals /\ environment h = key_environment p /\
              uniqueName h = key_uniqueName p /\ state h = success.

Definition candidate (succeeded : SdmGoalEvent) (goals : list SdmGoalEvent)
    (g : SdmGoalEvent) : Prop :=
  listsAsPrecondition succeeded g /\ inCandidateState g /\
  everyPreconditionSucceeded goals g.

(** A side-effect goal whose fulfillment name is the engine's own name. *)
Definition ownSideEffect (name : string) (g : SdmGoalEvent) : Prop :=
  method (fulfillment g) = SideEffect /\ f_name (fulfillment g) = name.

(** The update by which the engine requests a goal. *)
Definition advancedToRequested (g : SdmGoalEvent) (d : string) : Effect :=
  UpdateGoal g
    {| u_state := requested; u_description := Some d; u_url := None;
       u_externalUrls := None; u_data := data g; u_phase := None |}.

(** Strings without a line break, and the two parts of a string around its
    first line break. *)
Fixpoint singleLine (s : string) : bool :=
  match s with
  | EmptyString => true
  | String c r => negb (Ascii.eqb c LF) && singleLine r
  end.

Fixpoint beforeLF (s : string) : string :=
  match s with
  | EmptyString => EmptyString
  | String c r => if Ascii.eqb c LF then EmptyString else String c (beforeLF r)
  end.

Fixpoint afterLF (s : string) : string :=
  match s with
  | EmptyString => EmptyString
  | String c r => if Ascii.eqb c LF then r else afterLF r
  end.

(** The fields the canonical form prints up to and including the sha are
    free of line breaks. *)
Definition singleLineHead (g : SdmGoalEvent) : bool :=
  singleLine (uniqueName g) && singleLine (environment g) &&
  singleLine (goalSetId g) && singleLine (owner (repo g)) &&
  singleLine (repo_name (repo g)) && singleLine (providerId (repo g)) &&
  singleLine (sha g).

(** Two goal events that differ in the minimal signed field set. *)
Definition differInSignedKey (g1 g2 : SdmGoalEvent) : Prop :=
  uniqueName g1 <> uniqueName g2 \/ goalSetId g1 <> goalSetId g2 \/
  state g1 <> state g2 \/ sha g1 <> sha g2 \/ ts g1 <> ts g2.

(** Two goal events whose unique names and environments contain the line
    break of the canonical form. *)
Definition splitNameGoal : SdmGoalEvent :=
  sampleGoal "a" ("b" ++ NL ++ "environment:c") planned [] sdmFulfillment.

Definition splitEnvironmentGoal : SdmGoalEvent :=
  {| uniqueName := "a" ++ NL ++ "environment:b"; environment := "c";
     name := "a"; goalSet := "build"; goalSetId := "set-1";
     state := planned; description := None; ts := 1546300800000; version := 1;
     repo := sampleRepo; push_repo := sampleRepo; sha := "9f2c";
     branch := "master"; fulfillment := sdmFulfillment; preConditions := [];
     data := None; url := Some "https://log/1"; externalUrls := [];
     provenance := []; retryFeasible := false; approvalRequired := false;
     approval := None; preApprovalRequired := false; preApproval := None;
     signature := None; parameters := None |}.

(** What the statements on signing take for granted of RSA-SHA512: a
    signature made with the private key of a pair verifies under its public
    key; a signature is never the empty string; and, the idealisation of
    unforgeability, a signature verifies for no other message than the one
    that was signed, under whatever key. *)
Definition keyPair (crypto : Crypto) (k : GoalSigningKey) : Prop :=
  forall m, rsa_verify crypto (sk_publicKey k) m
              (rsa_sign crypto (privateKey k) (passphrase k) m) = true.

Definition signaturesNonEmpty (crypto : Crypto) : Prop :=
  forall sk pp m, rsa_sign crypto sk pp m <> "".

Definition unforgeable (crypto : Crypto) : Prop :=
  forall pk sk pp m m',
    rsa_verify crypto pk m' (rsa_sign crypto sk pp m) = true -> m' = m.

(** Tampering with one field of a goal event. *)
Definition with_sha (goal : SdmGoalEvent) (s : string) : SdmGoalEvent :=
  {| uniqueName := uniqueName goal; environment := environment goal;
     name := name goal; goalSet := goalSet goal; goalSetId := goalSetId goal;
     state := state goal; description := description goal; ts := ts goal;
     version := version goal; repo := repo goal; push_repo := push_repo goal;
     sha := s; branch := branch goal; fulfillment := fulfillment goal;
     preConditions := preConditions goal; data := data goal; url := url goal;
     externalUrls := externalUrls goal; provenance := provenance goal;
     retryFeasible := retryFeasible goal;
     approvalRequired := approvalRequired goal; approval := approval goal;
     preApprovalRequired := preApprovalRequired goal;
     preApproval := preApproval goal; signature := signature goal;
     parameters := parameters goal |}.

Definition with_data (goal : SdmGoalEvent) (d : option string) : SdmGoalEvent :=
  {| uniqueName := uniqueName goal; environment := environment goal;
     name := name goal; goalSet := goalSet goal; goalSetId := goalSetId goal;
     state := state goal; description := description goal; ts := ts goal;
     version := version goal; repo := repo goal; push_repo := push_repo goal;
     sha := sha goal; branch := branch goal; fulfillment := fulfillment goal;
     preConditions := preConditions goal; data := d; url := url goal;
     externalUrls := externalUrls goal; provenance := provenance goal;
     retryFeasible := retryFeasible goal;
     approvalRequired := approvalRequired goal; approval := approval goal;
     preApprovalRequired := preApprovalRequired goal;
     preApproval := preApproval goal; signature := signature goal;
     parameters := parameters goal |}.

(** The requested goal signed with the toy key, and the same signed goal
    with its absent data replaced by the nine letters of the word
    undefined. *)
Definition signedGoal : SdmGoalEvent :=
  with_signature requestedGoal
    (Some (rsa_sign toyCrypto "k1" None (normalizeGoal requestedGoal))).

Definition tamperedData : SdmGoalEvent := with_data signedGoal (Some "undefined").

(** The terminal states of the state machine. *)
Definition terminal (s : SdmGoalState) : Prop :=
  s = success \/ s = failure \/ s = canceled \/ s = skipped \/ s = stopped.

Definition canceledUpdate (g : SdmGoalEvent) : Effect :=
  UpdateGoal g (params canceled ("Canceled " ++ name g)).

Definition isUpdateGoal (e : Effect) : bool :=
  match e with UpdateGoal _ _ => true | _ => false end.

Definition rejection (goal : SdmGoalEvent) (reason : string) : Effect :=
  UpdateGoal goal
    {| u_state := failure;
       u_description := Some ("Rejected " ++ name goal ++ " because " ++ reason);
       u_url := None; u_externalUrls := None; u_data := None; u_phase := None |}.

(** A requested goal is admitted when this registration is to fulfill it, its
    signature is accepted and it has not been canceled since. *)
Definition admitted (this : Dispatcher) (sdmGoal : SdmGoalEvent) : Prop :=
  shouldFulfill this sdmGoal = true /\
  outcome (verifyGoal (d_crypto this) sdmGoal (d_goalSigning this)) = Returned tt /\
  cancelableGoal this sdmGoal && isGoalCanceled this sdmGoal = false.

(** An admitted goal is dispatched when its fulfillment is neither a foreign
    side effect nor of method Other and its invocation could be built. *)
Definition dispatched (this : Dispatcher) (sdmGoal : SdmGoalEvent)
    (gi : GoalInvocation) : Prop :=
  admitted this sdmGoal /\
  (method (fulfillment sdmGoal) = SideEffect ->
   f_registration (fulfillment sdmGoal) = configuration_name this) /\
  method (fulfillment sdmGoal) <> Other /\
  goalInvocationFor this sdmGoal = Returned gi.

(** Strings without at sign. *)
Fixpoint hasNoAt (s : string) : bool :=
  match s with
  | EmptyString => true
  | String c r => negb (Ascii.eqb c "@"%char) && hasNoAt r
  end.

Definition canceledGoal : SdmGoalEvent :=
  sampleGoal "deploy" "1-staging" canceled [buildKey] sdmFulfillment.

(** A listener written as an [async] function: calling it never throws. *)
Definition asyncListener
    (body : GoalCompletionListenerInvocation -> Handler unit)
  : GoalCompletionListener :=
  fun inv => Returned (body inv).

(** A reactor whose first listener returns a promise that rejects and whose
    second publishes the commit status; and one whose middle listener throws
    when it is called. *)
Definition sampleReactor : RespondOnGoalCompletion :=
  {| cr_isGoalRelevant := fun _ => true;
     cr_fetchGoalsForCommit := fun _ => [buildGoal; failedGoal];
     goalCompletionListeners :=
       [ asyncListener (fun _ => throw "listener failed");
         asyncListener (setGitHubStatusOnGoalCompletion sampleSdm) ] |}.

Definition abortingReactor : RespondOnGoalCompletion :=
  {| cr_isGoalRelevant := fun _ => true;
     cr_fetchGoalsForCommit := fun _ => [buildGoal; failedGoal];
     goalCompletionListeners :=
       [ asyncListener (fun _ => emit (LogWrite "first"));
         (fun _ => Threw "not a promise");
         asyncListener (setGitHubStatusOnGoalCompletion sampleSdm) ] |}.

Definition acceptingScheduler : GoalScheduler :=
  {| supports := fun _ => true; schedule := fun _ => ret None |}.

Definition decliningScheduler : GoalScheduler :=
  {| supports := fun _ => false; schedule := fun _ => throw "not mine" |}.

(** An executor that reports the goal as still in process. *)
Definition pausingExecutor (gi : GoalInvocation)
  : Handler (option ExecuteGoalResult) :=
  updateGoal (gi_goalEvent gi) (params in_process "Working") ;;;
  ret (Some (resultOf 0 (Some in_process))).


(** A goal as [rejectGoal] leaves it: in state failure, described by the
    rejection. *)
Definition rejectedGoal : SdmGoalEvent :=
  {| uniqueName := "test"; environment := "0-code"; name := "test";
     goalSet := "build"; goalSetId := "set-1"; state := failure;
     description := Some "Rejected test because signature was missing";
     ts := 1546300800000; version := 2;
     repo := sampleRepo; push_repo := sampleRepo; sha := "9f2c";
     branch := "master"; fulfillment := sdmFulfillment;
     preConditions := [buildKey]; data := None; url := None;
     externalUrls := []; provenance := []; retryFeasible := false;
     approvalRequired := false; approval := None;
     preApprovalRequired := false; preApproval := None; signature := None;
     parameters := None |}.

Definition toySettings : GoalSigningSettings :=
  {| set_enabled := true; set_signingKey := Some toyKey;
     set_verificationKeys := OneKey {| vk_name := "other"; publicKey := "z9" |} |}.

Definition goalIngester : Destination :=
  {| userAgent := "ingester"; rootType := Some "SdmGoal" |}.

(** The fields the canonical form prints up to and including the branch are
    free of line breaks. *)
Definition singleLineToBranch (g : SdmGoalEvent) : bool :=
  singleLineHead g && singleLine (branch g).

(** An unsigned goal put in the form [isGoalRejected] looks for. *)
Definition forgedRejection : SdmGoalEvent :=
  {| uniqueName := "deploy"; environment := "2-prod"; name := "deploy";
     goalSet := "build"; goalSetId := "set-1"; state := failure;
     description := Some "Rejected: deploy";
     ts := 1546300800000; version := 2;
     repo := sampleRepo; push_repo := sampleRepo; sha := "9f2c";
     branch := "master"; fulfillment := sdmFulfillment;
     preConditions := []; data := None; url := None;
     externalUrls := []; provenance := []; retryFeasible := false;
     approvalRequired := false; approval := None;
     preApprovalRequired := false; preApproval := None; signature := None;
     parameters := None |}.

(** The number of goal sets listed by the queries [round], [round + 1], ...
    up to [round + d - 1]. *)
Fixpoint listedFrom (pending : nat -> list SdmGoalSet) (round d : nat) : nat :=
  match d with
  | O => O
  | S d' => List.length (pending round) + listedFrom pending (S round) d'
  end.

(** Two queries that list pending goal sets, and a third that lists none. *)
Definition samplePending (n : nat) : list SdmGoalSet :=
  match n with
  | 0 => [sampleSet; sampleSet]
  | 1 => [sampleSet]
  | _ => []
  end.

(** A metadata is exposed unless its [expose] is [false]. *)
Definition exposed (metadata : AutomationMetadata) : Prop :=
  expose metadata <> Some false.

(** A goal set all of whose goals are terminal. *)
Definition finishedCancelContext : CancelContext :=
  {| query_SdmGoalSetForId := fun _ => [sampleSet];
     fetchGoalsForCommit := fun _ _ => [buildGoal; canceledGoal];
     italic := fun s => "_" ++ s ++ "_";
     codeLine := fun s => "`" ++ s ++ "`";
     bold := fun s => "*" ++ s ++ "*" |}.

(** The goal sets listed by the queries [round] to [round + d - 1], in
    order. *)
Fixpoint listedSets (pending : nat -> list SdmGoalSet) (round d : nat)
  : list SdmGoalSet :=
  match d with
  | O => []
  | S d' => (pending round ++ listedSets pending (S round) d')%list
  end.

(** A [slackInfoMessage] with one attachment. *)
Definition sampleInfoMessage (title text : string) : list Attachment :=
  [ {| att_text := text; att_fallback := text; att_footer := Some "footer";
       att_actions := [] |} ].

(** A goal that requires pre-approval, two callbacks that each add to the
    data of a goal, and an engine that runs both for the goal test. *)
Definition preApprovalGoal : SdmGoalEvent :=
  {| uniqueName := "release"; environment := "2-prod"; name := "release";
     goalSet := "build"; goalSetId := "set-1"; state := planned;
     description := None; ts := 1546300800000; version := 1;
     repo := sampleRepo; push_repo := sampleRepo; sha := "9f2c";
     branch := "master"; fulfillment := sdmFulfillment;
     preConditions := [buildKey]; data := None; url := None;
     externalUrls := []; provenance := []; retryFeasible := false;
     approvalRequired := false; approval := None;
     preApprovalRequired := true; preApproval := None; signature := None;
     parameters := None |}.

Definition addData (text : string) (g : SdmGoalEvent) : SdmGoalEvent :=
  with_data g (Some (match data g with Some d => d | None => "" end ++ text)).

Definition callbackEngine : RequestDownstream :=
  {| rd_name := "my-sdm"; rd_goalSigning := None; rd_crypto := toyCrypto;
     rd_isGoalRelevant := fun _ => true;
     fetchGoalsFromPush :=
       fun _ => [buildGoal; testGoal; deployGoal; preApprovalGoal;
                 ownSideEffectGoal];
     preconditionsAreMet := preconditionRule;
     findGoalBySdmGoal := fun _ => None;
     findFulfillmentCallbackForGoal := fun _ => [addData "{a}"; addData "{b}"] |}.

(** ** Properties *)

(** *** The handler monad *)

Lemma bind_ret {A B} (a : A) (k : A -> Handler B) :
  bind ([], Returned a) k = k a.
Proof. unfold bind. destruct (k a) as [t o]. reflexivity. Qed.

Lemma bind_emit {B} (e : Effect) (k : unit -> Handler B) :
  bind (emit e) k = (e :: trace (k tt), outcome (k tt)).
Proof. unfold bind, emit. destruct (k tt) as [t o]. reflexivity. Qed.

Lemma bind_returned {A B} (t : list Effect) (a : A) (k : A -> Handler B) :
  bind (t, Returned a) k = ((t ++ trace (k a))%list, outcome (k a)).
Proof. unfold bind. destruct (k a) as [t' o]. reflexivity. Qed.

Lemma bind_threw {A B} (t : list Effect) (e : string) (k : A -> Handler B) :
  bind (t, Threw e) k = (t, Threw e).
Proof. reflexivity. Qed.

Lemma outcome_bind {A B} (m : Handler A) (k : A -> Handler B) :
  outcome (bind m k) =
    match outcome m with
    | Returned a => outcome (k a)
    | Threw e => Threw e
    end.
Proof.
  destruct m as [t [a|e]]; simpl; [|reflexivity].
  destruct (k a) as [t' o]. reflexivity.
Qed.

Lemma trace_bind {A B} (m : Handler A) (k : A -> Handler B) :
  trace (bind m k) =
    (trace m ++ match outcome m with
                | Returned a => trace (k a)
                | Threw _ => []
                end)%list.
Proof.
  destruct m as [t [a|e]]; simpl.
  - destruct (k a) as [t' o]. reflexivity.
  - rewrite app_nil_r. reflexivity.
Qed.

Lemma for_each_emit {A} (f : A -> Effect) (xs : list A) :
  for_each xs (fun x => emit (f x)) = (map f xs, Returned tt).
Proof.
  induction xs as [|x xs IH]; simpl; [reflexivity|].
  rewrite IH. reflexivity.
Qed.

(** *** The model on the sample data *)

Example normalizeGoal_requestedGoal :
  normalizeGoal requestedGoal =
"uniqueName:build
        environment:0-code
        goalSetId:set-1
        state:requested
        ts:1546300800000
        version:1
        repo:atomist/sdm-core/gh
        sha:9f2c
        branch:master
        fulfillment:builder-Sdm
        preConditions:
        data:undefined
        url:https://log/1
        externalUrls:
        provenance:
        retry:undefined
        approvalRequired:undefined
        approval:undefined
        preApprovalRequired:undefined
        preApproval:undefined".
Proof. reflexivity. Qed.

Example numberToString_samples :
  numberToString 0 = "0" /\ numberToString 1546300800000 = "1546300800000"
  /\ numberToString (-12) = "-12".
Proof. repeat split; reflexivity. Qed.

Example goalsToRequest_sample :
  goalsToRequest (sampleEngine [buildGoal; testGoal; deployGoal; ownSideEffectGoal])
                 buildGoal = [testGoal].
Proof. reflexivity. Qed.

Example context_sample : context sampleSdm = "sdm/atomist/my-sdm".
Proof. reflexivity. Qed.

Example cancelGoalSet_sample :
  cancelGoalSet sampleCancelContext "set-1" =
    ([canceledUpdate testGoal; canceledUpdate deployGoal;
      SendGoalSet (with_state sampleSet canceled);
      Respond "Cancel Goal Set"
        "Canceled goal set _build_ `set-1` on `9f2c` of *atomist/sdm-core/master*"],
     Returned tt).
Proof. reflexivity. Qed.

Example cancelGoalSet_unknown_set :
  cancelGoalSet
    {| query_SdmGoalSetForId := fun _ => [];
       fetchGoalsForCommit := fun _ _ => [testGoal];
       italic := fun s => s; codeLine := fun s => s; bold := fun s => s |}
    "set-9"
  = ([], Threw "TypeError: Cannot read property 'repo' of undefined").
Proof. reflexivity. Qed.

(** *** Goal-set cancellation *)

Lemma includes_notCanceled (s : SdmGoalState) :
  includes notCanceled s = true <-> terminal s.
Proof.
  unfold terminal. destruct s; simpl; split; intros H;
    try reflexivity; try discriminate; try tauto;
    repeat (destruct H as [H|H]; try discriminate H).
Qed.

Lemma cancelGoal_trace (g : SdmGoalEvent) :
  cancelGoal g =
  ((if includes notCanceled (state g) then [] else [canceledUpdate g]),
   Returned tt).
Proof.
  unfold cancelGoal. destruct (includes notCanceled (state g)); reflexivity.
Qed.

Lemma cancel_all_trace (goals : list SdmGoalEvent) :
  for_each goals cancelGoal =
  (map canceledUpdate
       (filter (fun g => negb (includes notCanceled (state g))) goals),
   Returned tt).
Proof.
  induction goals as [|g goals IH]; [reflexivity|].
  cbn [for_each filter]. rewrite IH, cancelGoal_trace.
  destruct (includes notCanceled (state g)); reflexivity.
Qed.

Lemma filter_isUpdateGoal_canceled (gs : list SdmGoalEvent) :
  filter isUpdateGoal (map canceledUpdate gs) = map canceledUpdate gs.
Proof.
  induction gs as [|g gs IH]; simpl; [reflexivity|]. rewrite IH. reflexivity.
Qed.

(** C6: cancelling an existing goal set sends, in the order of the set, one
    update to state canceled for every goal that is not terminal and no
    update for a goal that already is: the updates of the trace are exactly
    the canceled-updates of the non-terminal goals. *)
Theorem cancelGoalSet_cancels_non_terminal
    (ctx : CancelContext) (goalSetId : string) (goalSet : SdmGoalSet)
    (others : list SdmGoalSet) :
  query_SdmGoalSetForId ctx goalSetId = goalSet :: others ->
  let goals := fetchGoalsForCommit ctx goalSet goalSetId in
  let t := trace (cancelGoalSet ctx goalSetId) in
  outcome (cancelGoalSet ctx goalSetId) = Returned tt /\
  filter isUpdateGoal t =
    map canceledUpdate
        (filter (fun g => negb (includes notCanceled (state g))) goals) /\
  (forall g, In g goals -> ~ terminal (state g) ->
             In (UpdateGoal g (params canceled ("Canceled " ++ name g))) t) /\
  (forall g p, In (UpdateGoal g p) t ->
               In g goals /\ ~ terminal (state g) /\ u_state p = canceled).
Proof.
  intros Hq goals t.
  assert (Ht : filter isUpdateGoal t =
               map canceledUpdate
                 (filter (fun g => negb (includes notCanceled (state g))) goals)
               /\ outcome (cancelGoalSet ctx goalSetId) = Returned tt).
  { subst t. unfold cancelGoalSet. rewrite Hq. fold goals.
    unfold bind at 1. rewrite cancel_all_trace.
    destruct (Nat.eqb _ 1); simpl; rewrite filter_app; simpl;
      rewrite filter_isUpdateGoal_canceled, app_nil_r; split; reflexivity. }
  destruct Ht as [Ht Ho].
  split; [exact Ho|]. split; [exact Ht|]. split.
  - intros g Hg Hnt.
    assert (Hin : In (canceledUpdate g) (filter isUpdateGoal t)).
    { rewrite Ht. apply in_map. apply filter_In. split; [exact Hg|].
      destruct (includes notCanceled (state g)) eqn:E; [|reflexivity].
      exfalso. apply Hnt. apply includes_notCanceled. exact E. }
    apply filter_In in Hin. exact (proj1 Hin).
  - intros g p Hin.
    assert (Hf : In (UpdateGoal g p) (filter isUpdateGoal t))
      by (apply filter_In; split; [exact Hin|reflexivity]).
    rewrite Ht in Hf. apply in_map_iff in Hf.
    destruct Hf as [g' [Heq Hg']]. unfold canceledUpdate in Heq.
    injection Heq as -> <-. apply filter_In in Hg'. destruct Hg' as [Hg' Hs].
    split; [exact Hg'|]. split; [|reflexivity].
    intros Hterm. apply includes_notCanceled in Hterm.
    rewrite Hterm in Hs. discriminate Hs.
Qed.

Lemma cancelGoalSet_cancels_non_terminal_witness :
  query_SdmGoalSetForId sampleCancelContext "set-1" = [sampleSet] /\
  filter isUpdateGoal (trace (cancelGoalSet sampleCancelContext "set-1")) =
    [canceledUpdate testGoal; canceledUpdate deployGoal].
Proof.
  split; [reflexivity|].
  exact (proj1 (proj2 (cancelGoalSet_cancels_non_terminal
                         sampleCancelContext "set-1" sampleSet [] eq_refl))).
Defined.

(** *** The status listener of the completion reactor *)

Lemma stateName_success (s : SdmGoalState) :
  String.eqb (stateName s) "success" = true <-> s = success.
Proof. destruct s; simpl; split; intros H; try reflexivity; discriminate H. Qed.

Lemma stateName_failure (s : SdmGoalState) :
  String.eqb (stateName s) "failure" = true <-> s = failure.
Proof. destruct s; simpl; split; intros H; try reflexivity; discriminate H. Qed.

Lemma allSuccessful_spec (goals : list SdmGoalEvent) :
  allSuccessful goals = true <-> forall g, In g goals -> state g = success.
Proof.
  unfold allSuccessful. rewrite negb_true_iff. split.
  - intros H g Hg. apply stateName_success.
    destruct (String.eqb (stateName (state g)) "success") eqn:E; [reflexivity|].
    assert (Hex : existsb (fun g => negb (String.eqb (stateName (state g)) "success"))
                          goals = true).
    { apply existsb_exists. exists g. split; [exact Hg|]. rewrite E. reflexivity. }
    rewrite Hex in H. discriminate H.
  - intros H.
    destruct (existsb _ goals) eqn:E; [|reflexivity].
    apply existsb_exists in E. destruct E as [g [Hg Hn]].
    apply negb_true_iff in Hn.
    rewrite (proj2 (stateName_success (state g)) (H g Hg)) in Hn. discriminate Hn.
Qed.

(** C9: when the completed goal is in state failure the listener publishes
    one failure status whose target is the url of the completed goal (the link
    to its log); and, the completed goal being one of the goals of its set,
    a success status is published exactly when no goal of the set is in a
    state other than success.  The status published then is the one success
    status, and it is published as soon as the completed goal is not a
    failure and every goal handed over is in state success. *)
Theorem setGitHubStatusOnGoalCompletion_publishes
    (sdm : SoftwareDeliveryMachine) (inv : GoalCompletionListenerInvocation) :
  (state (completedGoal inv) = failure ->
   trace (setGitHubStatusOnGoalCompletion sdm inv) =
     [CreateStatus {| st_context := context sdm;
                      st_description :=
                        prefix sdm ++ ": " ++ interpolate (description (completedGoal inv));
                      st_target_url := url (completedGoal inv);
                      st_state := "failure" |}]) /\
  (In (completedGoal inv) (allGoals inv) ->
   ((exists s, In (CreateStatus s) (trace (setGitHubStatusOnGoalCompletion sdm inv))
               /\ st_state s = "success")
    <-> forall g, In g (allGoals inv) -> state g = success)) /\
  (state (completedGoal inv) <> failure ->
   (forall g, In g (allGoals inv) -> state g = success) ->
   trace (setGitHubStatusOnGoalCompletion sdm inv) =
     [CreateStatus (successStatus sdm)]).
Proof.
  unfold setGitHubStatusOnGoalCompletion. split; [|split].
  - intros Hf. rewrite (proj2 (stateName_failure _) Hf). reflexivity.
  - intros Hin. split.
    + intros [s [Hs Hst]].
      destruct (String.eqb (stateName (state (completedGoal inv))) "failure").
      * simpl in Hs. destruct Hs as [Hs|[]]. injection Hs as <-.
        discriminate Hst.
      * destruct (allSuccessful (allGoals inv)) eqn:E.
        -- apply allSuccessful_spec. exact E.
        -- simpl in Hs. destruct Hs.
    + intros Hall.
      destruct (String.eqb (stateName (state (completedGoal inv))) "failure") eqn:Ef.
      * apply stateName_failure in Ef. rewrite (Hall _ Hin) in Ef. discriminate Ef.
      * rewrite (proj2 (allSuccessful_spec _) Hall).
        exists (successStatus sdm). split; [left; reflexivity|reflexivity].
  - intros Hnf Hall.
    destruct (String.eqb (stateName (state (completedGoal inv))) "failure") eqn:Ef.
    + apply stateName_failure in Ef. contradiction (Hnf Ef).
    + rewrite (proj2 (allSuccessful_spec _) Hall). reflexivity.
Qed.

Lemma setGitHubStatusOnGoalCompletion_publishes_witness :
  trace (setGitHubStatusOnGoalCompletion sampleSdm
           {| completedGoal := failedGoal; allGoals := [buildGoal; failedGoal] |})
    = [CreateStatus {| st_context := "sdm/atomist/my-sdm";
                       st_description := "my-sdm goals: Tests failed";
                       st_target_url := Some "https://log/1";
                       st_state := "failure" |}]
  /\ ((exists s,
         In (CreateStatus s)
            (trace (setGitHubStatusOnGoalCompletion sampleSdm
                      {| completedGoal := buildGoal; allGoals := [buildGoal] |}))
         /\ st_state s = "success")
      <-> forall g, In g [buildGoal] -> state g = success).
Proof.
  split.
  - apply (proj1 (setGitHubStatusOnGoalCompletion_publishes sampleSdm
                    {| completedGoal := failedGoal;
                       allGoals := [buildGoal; failedGoal] |})).
    reflexivity.
  - apply (proj1 (proj2 (setGitHubStatusOnGoalCompletion_publishes sampleSdm
                    {| completedGoal := buildGoal; allGoals := [buildGoal] |}))).
    simpl. left. reflexivity.
Defined.

(** *** Signature verification *)

Lemma verifyGoal_returns_silently (crypto : Crypto) (goal : SdmGoalEvent)
    (gsc : option GoalSigningConfiguration) (r : unit) :
  outcome (verifyGoal crypto goal gsc) = Returned r ->
  verifyGoal crypto goal gsc = ([], Returned tt).
Proof.
  unfold verifyGoal. destruct gsc as [gsc|]; [|reflexivity].
  destruct (enabled gsc && negb (isGoalRejected goal)); [|reflexivity].
  destruct (signature goal) as [[|c s]|]; simpl; try discriminate.
  destruct (find _ (verificationKeys gsc)); simpl; [reflexivity|discriminate].
Qed.

Lemma verifyGoal_missing (crypto : Crypto) (goal : SdmGoalEvent)
    (gsc : GoalSigningConfiguration) :
  enabled gsc = true -> isGoalRejected goal = false ->
  signature goal = None \/ signature goal = Some "" ->
  verifyGoal crypto goal (Some gsc) =
    ([rejection goal "signature was missing"],
     Threw "SDM goal signature is missing. Rejecting goal!").
Proof.
  intros He Hr H. unfold verifyGoal. rewrite He, Hr. simpl.
  destruct H as [H|H]; rewrite H; reflexivity.
Qed.

Lemma verifyGoal_invalid (crypto : Crypto) (goal : SdmGoalEvent)
    (gsc : GoalSigningConfiguration) (sig : string) :
  enabled gsc = true -> isGoalRejected goal = false ->
  signature goal = Some sig -> sig <> "" ->
  (forall vk, In vk (verificationKeys gsc) ->
              rsa_verify crypto (publicKey vk) (normalizeGoal goal) sig = false) ->
  verifyGoal crypto goal (Some gsc) =
    ([rejection goal "signature was invalid"],
     Threw "SDM goal signature invalid. Rejecting goal!").
Proof.
  intros He Hr Hs Hne Hall. unfold verifyGoal. rewrite He, Hr, Hs. simpl.
  destruct sig as [|c s]; [contradiction Hne; reflexivity|].
  destruct (find _ (verificationKeys gsc)) as [vk|] eqn:E; [|reflexivity].
  apply find_some in E. destruct E as [Hin Hv].
  rewrite (Hall vk Hin) in Hv. discriminate Hv.
Qed.

Lemma handlers_abort (goal : SdmGoalEvent) (t : list Effect) (m : string) :
  (forall this : Dispatcher,
     shouldFulfill this goal = true ->
     verifyGoal (d_crypto this) goal (d_goalSigning this) = (t, Threw m) ->
     FulfillGoalOnRequested_handle this goal = (t, Threw m)) /\
  (forall this : RequestDownstream,
     rd_isGoalRelevant this goal = true ->
     verifyGoal (rd_crypto this) goal (rd_goalSigning this) = (t, Threw m) ->
     RequestDownstream_handle this goal = (t, Threw m)).
Proof.
  split; intros this Hs Hv.
  - unfold FulfillGoalOnRequested_handle. rewrite Hs, Hv. reflexivity.
  - unfold RequestDownstream_handle. rewrite Hs, Hv. reflexivity.
Qed.

(** C4, as the code has it: with signing enabled, a goal that is not already
    in state failure with description [Rejected: <name>] is, when its
    signature is absent or empty, or when no configured key verifies it,
    updated to state failure with description
    [Rejected <name> because signature was missing] (respectively
    [... was invalid]), and the verification throws; a handler that verifies
    the goal does nothing more than that update and rejects with the error. *)
Theorem verifyGoal_rejects
    (crypto : Crypto) (goal : SdmGoalEvent) (gsc : GoalSigningConfiguration) :
  enabled gsc = true ->
  isGoalRejected goal = false ->
  ((signature goal = None \/ signature goal = Some "") ->
   verifyGoal crypto goal (Some gsc) =
     ([rejection goal "signature was missing"],
      Threw "SDM goal signature is missing. Rejecting goal!")) /\
  (forall sig,
     signature goal = Some sig -> sig <> "" ->
     (forall vk, In vk (verificationKeys gsc) ->
                 rsa_verify crypto (publicKey vk) (normalizeGoal goal) sig = false) ->
     verifyGoal crypto goal (Some gsc) =
       ([rejection goal "signature was invalid"],
        Threw "SDM goal signature invalid. Rejecting goal!")) /\
  (forall t m,
     verifyGoal crypto goal (Some gsc) = (t, Threw m) ->
     (forall this : Dispatcher,
        d_crypto this = crypto -> d_goalSigning this = Some gsc ->
        shouldFulfill this goal = true ->
        FulfillGoalOnRequested_handle this goal = (t, Threw m)) /\
     (forall this : RequestDownstream,
        rd_crypto this = crypto -> rd_goalSigning this = Some gsc ->
        rd_isGoalRelevant this goal = true ->
        RequestDownstream_handle this goal = (t, Threw m))).
Proof.
  intros He Hr. split; [|split].
  - apply verifyGoal_missing; assumption.
  - intros sig. apply verifyGoal_invalid; assumption.
  - intros t m Hv. split; intros this Hc Hg Hs.
    + apply (proj1 (handlers_abort goal t m)); [exact Hs|].
      rewrite Hc, Hg. exact Hv.
    + apply (proj2 (handlers_abort goal t m)); [exact Hs|].
      rewrite Hc, Hg. exact Hv.
Qed.

Lemma verifyGoal_rejects_witness :
  enabled toySigning = true /\ isGoalRejected testGoal = false /\
  verifyGoal toyCrypto testGoal (Some toySigning) =
    ([rejection testGoal "signature was missing"],
     Threw "SDM goal signature is missing. Rejecting goal!").
Proof.
  split; [reflexivity|]. split; [reflexivity|].
  apply (proj1 (verifyGoal_rejects toyCrypto testGoal toySigning eq_refl eq_refl)).
  left. reflexivity.
Defined.

(** C4 as the specification words it fails: the description written for the goal
    named test with no signature is neither of the two texts of the specification,
    since the code puts the name of the goal after the first word. *)
Lemma rejection_description_names_goal :
  exists p,
    trace (verifyGoal toyCrypto testGoal (Some toySigning)) = [UpdateGoal testGoal p]
    /\ u_state p = failure
    /\ u_description p = Some "Rejected test because signature was missing"
    /\ u_description p <> Some "Rejected because signature was missing"
    /\ u_description p <> Some "Rejected because signature was invalid".
Proof.
  eexists. split; [reflexivity|]. simpl.
  repeat split; discriminate.
Qed.

(** *** Admission to the dispatcher *)

Lemma handle_admitted (this : Dispatcher) (sdmGoal : SdmGoalEvent) :
  admitted this sdmGoal ->
  FulfillGoalOnRequested_handle this sdmGoal =
    if SdmGoalFulfillmentMethod_beq (method (fulfillment sdmGoal)) SideEffect
       && negb (String.eqb (f_registration (fulfillment sdmGoal))
                           (configuration_name this))
    then ret Success
    else if SdmGoalFulfillmentMethod_beq (method (fulfillment sdmGoal)) Other
    then
      updateGoal sdmGoal
        (params failure ("No fulfillment for " ++ uniqueName sdmGoal)) ;;;
      ret Success
    else
      goalInvocation <- lift (goalInvocationFor this sdmGoal) ;;
      match findGoalScheduler goalInvocation this with
      | Some goalScheduler => scheduled this goalScheduler sdmGoal goalInvocation
      | None => inProcess this sdmGoal goalInvocation
      end.
Proof.
  intros [Hs [Hv Hc]]. unfold FulfillGoalOnRequested_handle.
  rewrite Hs. cbn [negb].
  rewrite (verifyGoal_returns_silently _ _ _ tt Hv).
  rewrite (bind_ret tt). rewrite Hc. reflexivity.
Qed.

(** C2: for an admitted goal, a side-effect fulfillment registered by
    another SDM makes the handler return success with an empty trace, and a
    fulfillment of method Other makes it write the one update to state
    failure, described as [No fulfillment for <uniqueName>], and return
    success. *)
Theorem FulfillGoalOnRequested_foreign_or_unfulfilled
    (this : Dispatcher) (sdmGoal : SdmGoalEvent) :
  admitted this sdmGoal ->
  (method (fulfillment sdmGoal) = SideEffect ->
   f_registration (fulfillment sdmGoal) <> configuration_name this ->
   FulfillGoalOnRequested_handle this sdmGoal =
     ([], Returned {| hr_code := 0; hr_spread := None |})) /\
  (method (fulfillment sdmGoal) = Other ->
   FulfillGoalOnRequested_handle this sdmGoal =
     ([UpdateGoal sdmGoal
         {| u_state := failure;
            u_description := Some ("No fulfillment for " ++ uniqueName sdmGoal);
            u_url := None; u_externalUrls := None; u_data := None;
            u_phase := None |}],
      Returned {| hr_code := 0; hr_spread := None |})).
Proof.
  intros Ha. rewrite (handle_admitted _ _ Ha). split.
  - intros Hm Hn. rewrite Hm. cbn [SdmGoalFulfillmentMethod_beq andb].
    apply String.eqb_neq in Hn. rewrite Hn. reflexivity.
  - intros Hm. rewrite Hm. reflexivity.
Qed.

Lemma FulfillGoalOnRequested_foreign_or_unfulfilled_witness :
  admitted (sampleDispatcher [] succeedingExecutor) foreignSideEffectGoal /\
  FulfillGoalOnRequested_handle (sampleDispatcher [] succeedingExecutor)
    foreignSideEffectGoal = ([], Returned {| hr_code := 0; hr_spread := None |}) /\
  admitted (sampleDispatcher [] succeedingExecutor) unfulfilledGoal /\
  FulfillGoalOnRequested_handle (sampleDispatcher [] succeedingExecutor)
    unfulfilledGoal =
    ([UpdateGoal unfulfilledGoal
        {| u_state := failure;
           u_description := Some "No fulfillment for orphan";
           u_url := None; u_externalUrls := None; u_data := None;
           u_phase := None |}],
     Returned {| hr_code := 0; hr_spread := None |}).
Proof.
  assert (Ha : forall g, admitted (sampleDispatcher [] succeedingExecutor) g)
    by (intros g; repeat split; reflexivity).
  split; [apply Ha|]. split.
  - apply (proj1 (FulfillGoalOnRequested_foreign_or_unfulfilled
                    (sampleDispatcher [] succeedingExecutor)
                    foreignSideEffectGoal (Ha _))).
    + reflexivity.
    + discriminate.
  - split; [apply Ha|].
    apply (proj2 (FulfillGoalOnRequested_foreign_or_unfulfilled
                    (sampleDispatcher [] succeedingExecutor)
                    unfulfilledGoal (Ha _))).
    reflexivity.
Defined.

(** *** Dispatching an admitted goal *)

Lemma handle_dispatched (this : Dispatcher) (sdmGoal : SdmGoalEvent)
    (gi : GoalInvocation) :
  dispatched this sdmGoal gi ->
  FulfillGoalOnRequested_handle this sdmGoal =
    match findGoalScheduler gi this with
    | Some goalScheduler => scheduled this goalScheduler sdmGoal gi
    | None => inProcess this sdmGoal gi
    end.
Proof.
  intros [Ha [Hside [Hother Hgi]]]. rewrite (handle_admitted _ _ Ha).
  rewrite Hgi. unfold lift. rewrite bind_ret.
  destruct (method (fulfillment sdmGoal)) eqn:Em.
  - reflexivity.
  - rewrite (Hside eq_refl), String.eqb_refl. reflexivity.
  - contradiction Hother. reflexivity.
Qed.

Lemma reportStart_trace (this : Dispatcher) (sdmGoal : SdmGoalEvent) :
  reportStart this sdmGoal =
    ((map LogWrite (startLines this sdmGoal) ++ [LogFlush])%list, Returned tt).
Proof. reflexivity. Qed.

Lemma reportEndAndClose_trace (this : Dispatcher)
    (result : option ExecuteGoalResult) :
  reportEndAndClose this result =
    ((map LogWrite (endLines this result) ++ [LogClose])%list, Returned tt).
Proof. reflexivity. Qed.

Lemma inProcess_threw (this : Dispatcher) (sdmGoal : SdmGoalEvent)
    (gi : GoalInvocation) (t : list Effect) (e : string) :
  executeGoal this gi = (t, Threw e) ->
  inProcess this sdmGoal gi =
    ((map LogWrite (startLines this sdmGoal) ++ [LogFlush] ++ t
        ++ map LogWrite (endLines this (Some (capturedResult e)))
        ++ [LogClose])%list,
     Threw ("Goal executor threw exception: " ++ e)).
Proof.
  intros He. unfold inProcess. rewrite He, reportStart_trace.
  rewrite bind_threw. unfold try_catch.
  rewrite reportEndAndClose_trace, bind_returned, bind_returned.
  cbn [trace outcome fst snd throw].
  fold (capturedResult e).
  rewrite app_nil_r, <- !app_assoc. reflexivity.
Qed.

Lemma inProcess_returned (this : Dispatcher) (sdmGoal : SdmGoalEvent)
    (gi : GoalInvocation) (t : list Effect) (r : option ExecuteGoalResult) :
  executeGoal this gi = (t, Returned r) ->
  inProcess this sdmGoal gi =
    ((map LogWrite (startLines this sdmGoal) ++ [LogFlush] ++ t
        ++ (if endsExecution r
            then map LogWrite (endLines this r) ++ [LogClose] else []))%list,
     Returned {| hr_code := 0; hr_spread := r |}).
Proof.
  intros He. unfold inProcess. rewrite He, reportStart_trace.
  rewrite (bind_returned t). unfold try_catch.
  destruct (endsExecution r).
  - rewrite reportEndAndClose_trace, !bind_returned.
    cbn [trace outcome fst snd ret].
    rewrite app_nil_r, <- !app_assoc. reflexivity.
  - unfold ret. rewrite !bind_returned.
    cbn [trace outcome fst snd app].
    rewrite <- !app_assoc. reflexivity.
Qed.

Lemma scheduled_failed (this : Dispatcher) (s : GoalScheduler)
    (sdmGoal : SdmGoalEvent) (gi : GoalInvocation) (t : list Effect)
    (r : option ExecuteGoalResult) :
  schedule s gi = (t, Returned r) ->
  schedulingFailed r = true ->
  scheduled this s sdmGoal gi =
    ((t ++ schedulingFailure sdmGoal gi
        :: map LogWrite (endLines this r) ++ [LogClose])%list,
     Returned {| hr_code := 0; hr_spread := r |}).
Proof.
  intros Hs Hf. unfold scheduled. rewrite Hs.
  rewrite (bind_returned t). cbv beta. rewrite Hf.
  rewrite reportEndAndClose_trace. unfold updateGoal.
  rewrite (bind_emit (UpdateGoal _ _)). cbn [trace outcome fst snd].
  rewrite bind_returned. cbn [trace outcome fst snd ret].
  rewrite app_nil_r. reflexivity.
Qed.

(** C7, as the code has it: when [executeGoal] throws for a goal executed in
    process, the [catch] block builds the result
    [{code: 1, message: "Goal executor threw exception: " + message, state: failure}],
    writes it to the progress log, closes the log and throws the error again:
    the handler's promise rejects, it does not resolve to a success. *)
Theorem FulfillGoalOnRequested_rethrows
    (this : Dispatcher) (sdmGoal : SdmGoalEvent) (gi : GoalInvocation)
    (t : list Effect) (e : string) :
  dispatched this sdmGoal gi ->
  findGoalScheduler gi this = None ->
  executeGoal this gi = (t, Threw e) ->
  FulfillGoalOnRequested_handle this sdmGoal =
    ((map LogWrite (startLines this sdmGoal) ++ [LogFlush] ++ t
        ++ map LogWrite (endLines this (Some (capturedResult e)))
        ++ [LogClose])%list,
     Threw ("Goal executor threw exception: " ++ e)) /\
  In (LogWrite ("Result: " ++ serializeResult this (Some (capturedResult e))))
     (trace (FulfillGoalOnRequested_handle this sdmGoal)) /\
  code (capturedResult e) = Some 1%Z /\
  r_state (capturedResult e) = Some failure.
Proof.
  intros Hd Hn He.
  assert (Hh := handle_dispatched _ _ _ Hd). rewrite Hn in Hh.
  rewrite (inProcess_threw _ _ _ _ _ He) in Hh.
  split; [exact Hh|]. split; [|split; reflexivity].
  rewrite Hh. cbn [trace fst].
  apply in_or_app. right. apply in_or_app. right. apply in_or_app. right.
  apply in_or_app. left. simpl. right. left. reflexivity.
Qed.

Lemma sample_dispatched (schedulers : list GoalScheduler)
    (run : GoalInvocation -> Handler (option ExecuteGoalResult)) :
  dispatched (sampleDispatcher schedulers run) requestedGoal
             (sampleInvocation requestedGoal).
Proof.
  repeat split; try reflexivity; simpl; discriminate.
Defined.

Lemma FulfillGoalOnRequested_rethrows_witness :
  outcome (FulfillGoalOnRequested_handle
             (sampleDispatcher [] throwingExecutor) requestedGoal)
  = Threw "Goal executor threw exception: boom".
Proof.
  rewrite (proj1 (FulfillGoalOnRequested_rethrows
                    (sampleDispatcher [] throwingExecutor) requestedGoal
                    (sampleInvocation requestedGoal) [] "boom"
                    (sample_dispatched [] throwingExecutor) eq_refl eq_refl)).
  reflexivity.
Defined.

(** C7 as the specification words it fails: with an executor that throws, the
    handler's promise rejects with the error; it resolves to no result at
    all, in particular not to [Success]. *)
Lemma executor_error_is_rethrown :
  outcome (FulfillGoalOnRequested_handle
             (sampleDispatcher [] throwingExecutor) requestedGoal)
    = Threw "Goal executor threw exception: boom"
  /\ forall r : HandlerResult,
       outcome (FulfillGoalOnRequested_handle
                  (sampleDispatcher [] throwingExecutor) requestedGoal)
       <> Returned r.
Proof.
  split; [reflexivity|]. intros r. discriminate.
Qed.

(** C8, as the code has it: on each exit path (the scheduler reports a
    non-zero code; the executor returns a result with no state or with a
    terminating state; the executor throws) the handler closes the progress
    log, and the close is the last thing it does: the failure written for a
    scheduling failure and every goal state [executeGoal] publishes come
    before the close. *)
Theorem FulfillGoalOnRequested_closes_log_last
    (this : Dispatcher) (sdmGoal : SdmGoalEvent) (gi : GoalInvocation) :
  dispatched this sdmGoal gi ->
  (forall s t r,
     findGoalScheduler gi this = Some s ->
     schedule s gi = (t, Returned r) -> schedulingFailed r = true ->
     trace (FulfillGoalOnRequested_handle this sdmGoal) =
       (t ++ schedulingFailure sdmGoal gi
          :: map LogWrite (endLines this r) ++ [LogClose])%list) /\
  (forall t r,
     findGoalScheduler gi this = None ->
     executeGoal this gi = (t, Returned r) -> endsExecution r = true ->
     trace (FulfillGoalOnRequested_handle this sdmGoal) =
       (map LogWrite (startLines this sdmGoal) ++ [LogFlush] ++ t
          ++ map LogWrite (endLines this r) ++ [LogClose])%list) /\
  (forall t e,
     findGoalScheduler gi this = None ->
     executeGoal this gi = (t, Threw e) ->
     trace (FulfillGoalOnRequested_handle this sdmGoal) =
       (map LogWrite (startLines this sdmGoal) ++ [LogFlush] ++ t
          ++ map LogWrite (endLines this (Some (capturedResult e)))
          ++ [LogClose])%list) /\
  (forall r,
     r_state r = None \/ r_state r = Some success \/ r_state r = Some failure ->
     endsExecution (Some r) = true).
Proof.
  intros Hd. rewrite (handle_dispatched _ _ _ Hd). split; [|split; [|split]].
  - intros s t r Hs Hsch Hf. rewrite Hs.
    rewrite (scheduled_failed _ _ _ _ _ _ Hsch Hf). reflexivity.
  - intros t r Hs He Hend. rewrite Hs.
    rewrite (inProcess_returned _ _ _ _ _ He), Hend. reflexivity.
  - intros t e Hs He. rewrite Hs.
    rewrite (inProcess_threw _ _ _ _ _ He). reflexivity.
  - intros r [H|[H|H]]; unfold endsExecution; rewrite H; reflexivity.
Qed.

Lemma FulfillGoalOnRequested_closes_log_last_witness :
  trace (FulfillGoalOnRequested_handle
           (sampleDispatcher [] succeedingExecutor) requestedGoal) =
    (map LogWrite (startLines (sampleDispatcher [] succeedingExecutor) requestedGoal)
       ++ [LogFlush]
       ++ [UpdateGoal requestedGoal (params success "Done")]
       ++ map LogWrite (endLines (sampleDispatcher [] succeedingExecutor)
                                 (Some (resultOf 0 None)))
       ++ [LogClose])%list
  /\ trace (FulfillGoalOnRequested_handle
              (sampleDispatcher [failingScheduler] succeedingExecutor)
              requestedGoal) =
     ([] ++ schedulingFailure requestedGoal (sampleInvocation requestedGoal)
         :: map LogWrite
              (endLines (sampleDispatcher [failingScheduler] succeedingExecutor)
                        (Some (resultOf 1 None)))
         ++ [LogClose])%list.
Proof.
  split.
  - apply (proj1 (proj2 (FulfillGoalOnRequested_closes_log_last
                           (sampleDispatcher [] succeedingExecutor) requestedGoal
                           (sampleInvocation requestedGoal)
                           (sample_dispatched [] succeedingExecutor)))
             [UpdateGoal requestedGoal (params success "Done")]
             (Some (resultOf 0 None)));
      reflexivity.
  - apply (proj1 (FulfillGoalOnRequested_closes_log_last
                    (sampleDispatcher [failingScheduler] succeedingExecutor)
                    requestedGoal (sampleInvocation requestedGoal)
                    (sample_dispatched [failingScheduler] succeedingExecutor))
             failingScheduler [] (Some (resultOf 1 None)));
      reflexivity.
Defined.

(** C8 as the specification words it fails: when the scheduler reports a failure, the
    first thing the handler does is to publish state failure; the log is
    closed after that. *)
Lemma scheduling_failure_published_before_close :
  exists p rest,
    trace (FulfillGoalOnRequested_handle
             (sampleDispatcher [failingScheduler] succeedingExecutor)
             requestedGoal)
      = UpdateGoal requestedGoal p :: rest
    /\ u_state p = failure
    /\ In LogClose rest.
Proof.
  eexists. eexists. split; [reflexivity|]. split; [reflexivity|].
  simpl. tauto.
Qed.

(** *** The precondition engine *)

Lemma goalKeyEquals_spec (a b : SdmGoalKey) :
  goalKeyEquals a b = true <->
  key_environment a = key_environment b /\ key_uniqueName a = key_uniqueName b.
Proof.
  unfold goalKeyEquals. rewrite andb_true_iff, !String.eqb_eq. reflexivity.
Qed.

Lemma isDirectlyDependentOn_spec (succeeded g : SdmGoalEvent) :
  isDirectlyDependentOn (goalKey succeeded) g = true <->
  listsAsPrecondition succeeded g.
Proof.
  unfold isDirectlyDependentOn, listsAsPrecondition, mapKeyToGoal.
  destruct (preConditions g) as [|p0 ps] eqn:Ep.
  - split; [discriminate|]. intros [p [[] _]].
  - destruct (find _ (p0 :: ps)) as [p|] eqn:Ef; split.
    + intros _. apply find_some in Ef. destruct Ef as [Hin Hk].
      apply goalKeyEquals_spec in Hk. exists p. simpl in Hk. tauto.
    + reflexivity.
    + discriminate.
    + intros [p [Hin [He Hu]]].
      assert (Hk : goalKeyEquals p (goalKey succeeded) = true)
        by (apply goalKeyEquals_spec; simpl; tauto).
      rewrite (find_none _ _ Ef p Hin) in Hk. discriminate Hk.
Qed.

Lemma SdmGoalState_beq_eq (a b : SdmGoalState) :
  SdmGoalState_beq a b = true <-> a = b.
Proof.
  split; [apply internal_SdmGoalState_dec_bl|apply internal_SdmGoalState_dec_lb].
Qed.

Lemma shouldBePlannedOrSkipped_spec (g : SdmGoalEvent) :
  shouldBePlannedOrSkipped g = true <-> inCandidateState g.
Proof.
  unfold shouldBePlannedOrSkipped, inCandidateState.
  destruct (state g), (retryFeasible g); simpl; split; intros H;
    try reflexivity; try discriminate H; try tauto;
    repeat (destruct H as [H|H]; try discriminate H);
    destruct H as [H1 H2]; discriminate.
Qed.

Lemma expectToBeFulfilledAfterRequest_spec (g : SdmGoalEvent) (name : string) :
  expectToBeFulfilledAfterRequest g name = true <-> ~ ownSideEffect name g.
Proof.
  unfold expectToBeFulfilledAfterRequest, ownSideEffect.
  destruct (method (fulfillment g)).
  - split; [intros _ [H _]; discriminate H|reflexivity].
  - rewrite negb_true_iff, String.eqb_neq. tauto.
  - split; [intros _ [H _]; discriminate H|reflexivity].
Qed.

Lemma preconditionRule_spec (g : SdmGoalEvent) (goals : list SdmGoalEvent) :
  preconditionRule g goals = true <-> everyPreconditionSucceeded goals g.
Proof.
  unfold preconditionRule, everyPreconditionSucceeded.
  rewrite forallb_forall. split; intros H p Hp.
  - specialize (H p Hp). apply existsb_exists in H.
    destruct H as [h [Hh Hm]]. apply andb_true_iff in Hm.
    destruct Hm as [Hk Hs]. apply goalKeyEquals_spec in Hk.
    apply SdmGoalState_beq_eq in Hs. exists h. simpl in Hk. tauto.
  - destruct (H p Hp) as [h [Hh [He [Hu Hs]]]].
    apply existsb_exists. exists h. split; [exact Hh|].
    apply andb_true_iff. split.
    + apply goalKeyEquals_spec. simpl. tauto.
    + apply SdmGoalState_beq_eq. exact Hs.
Qed.

Lemma goalsToRequest_spec (this : RequestDownstream) (sdmGoal g : SdmGoalEvent) :
  In g (goalsToRequest this sdmGoal) <->
  In g (fetchGoalsFromPush this sdmGoal) /\
  listsAsPrecondition sdmGoal g /\ inCandidateState g /\
  preconditionsAreMet this g (fetchGoalsFromPush this sdmGoal) = true /\
  ~ ownSideEffect (rd_name this) g.
Proof.
  unfold goalsToRequest. rewrite !filter_In.
  rewrite shouldBePlannedOrSkipped_spec,
    expectToBeFulfilledAfterRequest_spec, isDirectlyDependentOn_spec.
  tauto.
Qed.

Lemma RequestDownstream_handle_trace (this : RequestDownstream)
    (sdmGoal : SdmGoalEvent) :
  rd_isGoalRelevant this sdmGoal = true ->
  outcome (verifyGoal (rd_crypto this) sdmGoal (rd_goalSigning this)) = Returned tt ->
  RequestDownstream_handle this sdmGoal =
    (map (advance this) (goalsToRequest this sdmGoal), Returned Success).
Proof.
  intros Hr Hv. unfold RequestDownstream_handle. rewrite Hr. cbn [negb].
  rewrite (verifyGoal_returns_silently _ _ _ tt Hv), bind_ret.
  rewrite for_each_emit, bind_returned. cbn [trace outcome fst snd ret].
  rewrite app_nil_r. reflexivity.
Qed.

Lemma verifyGoal_cases (crypto : Crypto) (goal : SdmGoalEvent)
    (gsc : option GoalSigningConfiguration) :
  verifyGoal crypto goal gsc = ([], Returned tt) \/
  exists reason message,
    verifyGoal crypto goal gsc = ([rejection goal reason], Threw message).
Proof.
  unfold verifyGoal. destruct gsc as [gsc|]; [|left; reflexivity].
  destruct (enabled gsc && negb (isGoalRejected goal)); [|left; reflexivity].
  destruct (signature goal) as [[|c s]|];
    try (right; eexists; eexists; reflexivity).
  destruct (find _ (verificationKeys gsc));
    [left; reflexivity|right; eexists; eexists; reflexivity].
Qed.

Lemma RequestDownstream_handle_effects (this : RequestDownstream)
    (sdmGoal : SdmGoalEvent) (e : Effect) :
  In e (trace (RequestDownstream_handle this sdmGoal)) ->
  (exists sdmG, In sdmG (goalsToRequest this sdmGoal) /\ e = advance this sdmG)
  \/ (exists reason, e = rejection sdmGoal reason).
Proof.
  unfold RequestDownstream_handle.
  destruct (rd_isGoalRelevant this sdmGoal); cbn [negb]; [|intros []].
  destruct (verifyGoal_cases (rd_crypto this) sdmGoal (rd_goalSigning this))
    as [Hv|[reason [message Hv]]]; rewrite Hv.
  - rewrite bind_ret, for_each_emit, bind_returned.
    cbn [trace outcome fst snd ret]. rewrite app_nil_r.
    intros Hin. apply in_map_iff in Hin. destruct Hin as [g [He Hg]].
    left. exists g. split; [exact Hg|symmetry; exact He].
  - rewrite bind_threw. cbn [trace fst]. intros [Hin|[]].
    right. exists reason. symmetry. exact Hin.
Qed.

(** C1, as the code has it: when the succeeded goal is relevant to this SDM
    and its signature is accepted, the handler writes one update for each
    goal it selects, and it selects exactly the goals of the same set that
    list the succeeded goal among their preconditions, are in state planned,
    skipped, or failure with retryFeasible set, for which
    [preconditionsAreMet] answers true on the goals of the set, and that are
    not side-effect goals whose fulfillment name is the engine's own name;
    where [preconditionsAreMet] is the precondition rule of the spec, these
    are the candidates of the spec that are not such side-effect goals.  A
    selected goal that requires pre-approval is moved to
    waiting_for_pre_approval, with the description of its goal template or
    [Start required: <name>], and its callbacks do not run; any other
    selected goal is passed through its fulfillment callbacks, first to last,
    and the goal they return is moved to requested, with the description of
    the template or [Ready: <name>] and with the data the callbacks left on
    it. *)
Theorem RequestDownstream_advances_candidates
    (this : RequestDownstream) (sdmGoal : SdmGoalEvent) :
  rd_isGoalRelevant this sdmGoal = true ->
  outcome (verifyGoal (rd_crypto this) sdmGoal (rd_goalSigning this)) = Returned tt ->
  let goals := fetchGoalsFromPush this sdmGoal in
  RequestDownstream_handle this sdmGoal =
    (map (advance this) (goalsToRequest this sdmGoal), Returned Success) /\
  (forall g, In g (goalsToRequest this sdmGoal) <->
             In g goals /\ listsAsPrecondition sdmGoal g /\
             inCandidateState g /\ preconditionsAreMet this g goals = true /\
             ~ ownSideEffect (rd_name this) g) /\
  ((forall g' goals', preconditionsAreMet this g' goals' = true <->
                      everyPreconditionSucceeded goals' g') ->
   forall g, In g (goalsToRequest this sdmGoal) <->
             In g goals /\ candidate sdmGoal goals g /\
             ~ ownSideEffect (rd_name this) g) /\
  (forall g, preApprovalRequired g = true ->
     advance this g =
       UpdateGoal g
         {| u_state := waiting_for_pre_approval;
            u_description :=
              Some match findGoalBySdmGoal this g with
                   | Some goal => waitingForPreApprovalDescription goal
                   | None => "Start required: " ++ name g
                   end;
            u_url := None; u_externalUrls := None; u_data := None;
            u_phase := None |}) /\
  (forall g, preApprovalRequired g = false ->
     let enriched :=
       fold_left (fun g cb => cb g) (findFulfillmentCallbackForGoal this g) g in
     advance this g =
       UpdateGoal enriched
         {| u_state := requested;
            u_description :=
              Some match findGoalBySdmGoal this g with
                   | Some goal => requestedDescription goal
                   | None => "Ready: " ++ name enriched
                   end;
            u_url := None; u_externalUrls := None; u_data := data enriched;
            u_phase := None |}).
Proof.
  intros Hr Hv goals.
  split; [apply RequestDownstream_handle_trace; assumption|].
  split; [intros g; apply goalsToRequest_spec|]. split; [|split].
  - intros Hrule g. unfold candidate. rewrite goalsToRequest_spec.
    fold goals. rewrite (Hrule g goals). tauto.
  - intros g Hp. unfold advance. rewrite Hp. reflexivity.
  - intros g Hp. unfold advance, runCallbacks. rewrite Hp. reflexivity.
Qed.

Lemma RequestDownstream_advances_candidates_witness :
  RequestDownstream_handle callbackEngine buildGoal
  = ([ UpdateGoal (with_data testGoal (Some "{a}{b}"))
         {| u_state := requested; u_description := Some "Ready: test";
            u_url := None; u_externalUrls := None;
            u_data := Some "{a}{b}"; u_phase := None |};
       UpdateGoal preApprovalGoal
         {| u_state := waiting_for_pre_approval;
            u_description := Some "Start required: release";
            u_url := None; u_externalUrls := None; u_data := None;
            u_phase := None |} ],
     Returned Success)
  /\ forall g,
       In g (goalsToRequest callbackEngine buildGoal) <->
       In g (fetchGoalsFromPush callbackEngine buildGoal) /\
       candidate buildGoal (fetchGoalsFromPush callbackEngine buildGoal) g /\
       ~ ownSideEffect "my-sdm" g.
Proof.
  destruct (RequestDownstream_advances_candidates callbackEngine buildGoal
              eq_refl eq_refl) as [Hh [_ [Hrule [Hpre Hreq]]]].
  split.
  - rewrite Hh.
    change (goalsToRequest callbackEngine buildGoal)
      with [testGoal; preApprovalGoal].
    cbn [map].
    rewrite (Hreq testGoal eq_refl), (Hpre preApprovalGoal eq_refl).
    reflexivity.
  - apply Hrule. intros g' goals'. apply preconditionRule_spec.
Defined.

(** C1 as the specification words it fails: the goal publish lists the
    succeeded build goal as its precondition, is planned, and its one
    precondition is matched by a goal in state success, yet the engine writes
    nothing, whatever [preconditionsAreMet] answers: the goal is a side effect
    carrying the engine's own name. *)
Lemma own_side_effect_candidate_not_advanced :
  In ownSideEffectGoal [buildGoal; ownSideEffectGoal] /\
  candidate buildGoal [buildGoal; ownSideEffectGoal] ownSideEffectGoal /\
  forall met : SdmGoalEvent -> list SdmGoalEvent -> bool,
    RequestDownstream_handle
      {| rd_name := "my-sdm"; rd_goalSigning := None; rd_crypto := toyCrypto;
         rd_isGoalRelevant := fun _ => true;
         fetchGoalsFromPush := fun _ => [buildGoal; ownSideEffectGoal];
         preconditionsAreMet := met;
         findGoalBySdmGoal := fun _ => None;
         findFulfillmentCallbackForGoal := fun _ => [] |}
      buildGoal
    = ([], Returned Success).
Proof.
  split; [right; left; reflexivity|]. split; [|reflexivity].
  split; [|split].
  - exists buildKey. repeat split. left. reflexivity.
  - left. reflexivity.
  - intros p [<-|[]]. exists buildGoal. repeat split. left. reflexivity.
Qed.

(** C10: a side-effect goal whose fulfillment name is the name the engine is
    constructed with is never among the goals the engine selects, whatever
    the state of its preconditions; and every update to requested or to
    waiting_for_pre_approval the handler writes advances one of the selected
    goals, hence another goal. *)
Theorem RequestDownstream_skips_own_side_effect
    (this : RequestDownstream) (sdmGoal g : SdmGoalEvent) :
  method (fulfillment g) = SideEffect ->
  f_name (fulfillment g) = rd_name this ->
  ~ In g (goalsToRequest this sdmGoal) /\
  (forall g' p,
     In (UpdateGoal g' p) (trace (RequestDownstream_handle this sdmGoal)) ->
     u_state p = requested \/ u_state p = waiting_for_pre_approval ->
     exists sdmG, In sdmG (goalsToRequest this sdmGoal) /\ sdmG <> g /\
                  UpdateGoal g' p = advance this sdmG).
Proof.
  intros Hm Hn.
  assert (Hnot : ~ In g (goalsToRequest this sdmGoal)).
  { intros Hin. apply goalsToRequest_spec in Hin.
    destruct Hin as [_ [_ [_ [_ Hown]]]]. apply Hown. split; assumption. }
  split; [exact Hnot|].
  intros g' p Hin Hst.
  destruct (RequestDownstream_handle_effects _ _ _ Hin)
    as [[sdmG [Hg He]]|[reason He]].
  - exists sdmG. split; [exact Hg|]. split; [|exact He].
    intros ->. exact (Hnot Hg).
  - unfold rejection in He. injection He as _ ->.
    destruct Hst as [H|H]; discriminate H.
Qed.

Lemma RequestDownstream_skips_own_side_effect_witness :
  ~ In ownSideEffectGoal
       (goalsToRequest (sampleEngine [buildGoal; testGoal; ownSideEffectGoal])
                       buildGoal)
  /\ trace (RequestDownstream_handle
              (sampleEngine [buildGoal; testGoal; ownSideEffectGoal]) buildGoal)
     = [advancedToRequested testGoal "Ready: test"].
Proof.
  split; [|reflexivity].
  exact (proj1 (RequestDownstream_skips_own_side_effect
                  (sampleEngine [buildGoal; testGoal; ownSideEffectGoal])
                  buildGoal ownSideEffectGoal eq_refl eq_refl)).
Defined.

(** *** The canonical form *)

Lemma beforeLF_app (a r : string) :
  singleLine a = true -> beforeLF (a ++ String LF r) = a.
Proof.
  induction a as [|c a IH]; simpl; intros H; [reflexivity|].
  apply andb_true_iff in H. destruct H as [Hc Ha].
  apply negb_true_iff in Hc. rewrite Hc, (IH Ha). reflexivity.
Qed.

Lemma afterLF_app (a x : string) :
  singleLine a = true -> afterLF (a ++ x) = afterLF x.
Proof.
  induction a as [|c a IH]; simpl; intros H; [reflexivity|].
  apply andb_true_iff in H. destruct H as [Hc Ha].
  apply negb_true_iff in Hc. rewrite Hc. exact (IH Ha).
Qed.

Lemma afterLF_app_LF (a r : string) :
  singleLine a = true -> afterLF (a ++ String LF r) = r.
Proof. intros H. rewrite (afterLF_app _ _ H). reflexivity. Qed.

Lemma line_inj (a a' r r' : string) :
  singleLine a = true -> singleLine a' = true ->
  a ++ String LF r = a' ++ String LF r' -> a = a' /\ r = r'.
Proof.
  intros Ha Ha' H. split.
  - apply (f_equal beforeLF) in H. rewrite !beforeLF_app in H; assumption.
  - apply (f_equal afterLF) in H. rewrite !afterLF_app_LF in H; assumption.
Qed.

Lemma singleLine_stateName (s : SdmGoalState) : singleLine (stateName s) = true.
Proof. destruct s; reflexivity. Qed.

Lemma singleLine_uint (d : Decimal.uint) :
  singleLine (NilEmpty.string_of_uint d) = true.
Proof. induction d; simpl; auto. Qed.

Lemma singleLine_numberToString (z : Z) : singleLine (numberToString z) = true.
Proof.
  unfold numberToString. destruct (Z.to_int z) as [d|d]; simpl;
    apply singleLine_uint.
Qed.

Lemma stateName_inj (s s' : SdmGoalState) : stateName s = stateName s' -> s = s'.
Proof. destruct s, s'; simpl; intros H; try reflexivity; discriminate H. Qed.

Lemma numberToString_inj (z z' : Z) :
  numberToString z = numberToString z' -> z = z'.
Proof.
  unfold numberToString. intros H.
  apply DecimalZ.to_int_inj.
  assert (Hs : Some (Z.to_int z) = Some (Z.to_int z')).
  { rewrite <- !NilEmpty.isi. rewrite H. reflexivity. }
  injection Hs as Hs. exact Hs.
Qed.

Lemma repo_line_inj (o n p r o' n' p' r' : string) :
  singleLine o = true -> singleLine n = true -> singleLine p = true ->
  singleLine o' = true -> singleLine n' = true -> singleLine p' = true ->
  o ++ String "/" (n ++ String "/" (p ++ String LF r)) =
  o' ++ String "/" (n' ++ String "/" (p' ++ String LF r')) ->
  r = r'.
Proof.
  intros Ho Hn Hp Ho' Hn' Hp' H. apply (f_equal afterLF) in H.
  rewrite (afterLF_app o), (afterLF_app o') in H by assumption.
  cbn [afterLF Ascii.eqb Bool.eqb LF] in H.
  rewrite (afterLF_app n), (afterLF_app n') in H by assumption.
  cbn [afterLF Ascii.eqb Bool.eqb LF] in H.
  rewrite !afterLF_app_LF in H by assumption. exact H.
Qed.

Lemma normalizeGoal_head (g1 g2 : SdmGoalEvent) :
  singleLineHead g1 = true -> singleLineHead g2 = true ->
  normalizeGoal g1 = normalizeGoal g2 ->
  uniqueName g1 = uniqueName g2 /\ goalSetId g1 = goalSetId g2 /\
  state g1 = state g2 /\ sha g1 = sha g2 /\ ts g1 = ts g2.
Proof.
  unfold singleLineHead. rewrite !andb_true_iff.
  intros [[[[[[Hu1 He1] Hi1] Ho1] Hn1] Hp1] Hh1]
         [[[[[[Hu2 He2] Hi2] Ho2] Hn2] Hp2] Hh2] H.
  pose proof (singleLine_stateName (state g1)) as Hs1.
  pose proof (singleLine_stateName (state g2)) as Hs2.
  pose proof (singleLine_numberToString (ts g1)) as Ht1.
  pose proof (singleLine_numberToString (ts g2)) as Ht2.
  pose proof (singleLine_numberToString (version g1)) as Hv1.
  pose proof (singleLine_numberToString (version g2)) as Hv2.
  unfold normalizeGoal, NL in H. cbn [append] in H.
  injection H as H. apply line_inj in H; [|assumption|assumption].
  destruct H as [HU H].
  injection H as H. apply line_inj in H; [|assumption|assumption].
  destruct H as [_ H].
  injection H as H. apply line_inj in H; [|assumption|assumption].
  destruct H as [HI H].
  injection H as H. apply line_inj in H; [|assumption|assumption].
  destruct H as [HS H].
  injection H as H. apply line_inj in H; [|assumption|assumption].
  destruct H as [HT H].
  injection H as H. apply line_inj in H; [|assumption|assumption].
  destruct H as [_ H].
  injection H as H. apply repo_line_inj in H; try assumption.
  injection H as H. apply line_inj in H; [|assumption|assumption].
  destruct H as [HH _].
  repeat split; try assumption.
  - apply stateName_inj. exact HS.
  - apply numberToString_inj. exact HT.
Qed.

(** C5, as the code has it: for goal events whose uniqueName, environment,
    goalSetId, repo coordinates and sha contain no line break, a difference
    in uniqueName, goalSetId, state, sha or ts gives different canonical
    forms. *)
Theorem normalizeGoal_injective_on_signed_key (g1 g2 : SdmGoalEvent) :
  singleLineHead g1 = true -> singleLineHead g2 = true ->
  differInSignedKey g1 g2 ->
  normalizeGoal g1 <> normalizeGoal g2.
Proof.
  intros H1 H2 Hd Heq.
  destruct (normalizeGoal_head g1 g2 H1 H2 Heq) as [Hu [Hi [Hs [Hh Ht]]]].
  unfold differInSignedKey in Hd. tauto.
Qed.

Lemma normalizeGoal_injective_on_signed_key_witness :
  normalizeGoal buildGoal <> normalizeGoal testGoal.
Proof.
  apply normalizeGoal_injective_on_signed_key.
  - reflexivity.
  - reflexivity.
  - left. discriminate.
Defined.

(** C5 as the specification words it fails: the two goal events differ in their
    uniqueName, and the canonical form of both is the same string, because a
    line break inside a field reads as the end of its line. *)
Lemma normalizeGoal_collision :
  uniqueName splitNameGoal <> uniqueName splitEnvironmentGoal /\
  differInSignedKey splitNameGoal splitEnvironmentGoal /\
  normalizeGoal splitNameGoal = normalizeGoal splitEnvironmentGoal.
Proof.
  assert (H : uniqueName splitNameGoal <> uniqueName splitEnvironmentGoal)
    by discriminate.
  split; [exact H|]. split; [left; exact H|]. reflexivity.
Qed.

(** *** Signing and verifying *)

Lemma normalizeGoal_with_signature (goal : SdmGoalEvent) (s : option string) :
  normalizeGoal (with_signature goal s) = normalizeGoal goal.
Proof. reflexivity. Qed.

Lemma length_append (a b : string) :
  String.length (a ++ b) = String.length a + String.length b.
Proof. induction a as [|c a IH]; simpl; [reflexivity|]. rewrite IH. reflexivity. Qed.

Lemma append_cancel_l (p x y : string) : p ++ x = p ++ y -> x = y.
Proof.
  induction p as [|c p IH]; simpl; intros H; [exact H|].
  injection H as H. exact (IH H).
Qed.

Lemma append_cancel_r (x y s : string) : x ++ s = y ++ s -> x = y.
Proof.
  revert y. induction x as [|c x IH]; intros [|d y] H; simpl in H.
  - reflexivity.
  - apply (f_equal String.length) in H. simpl in H.
    rewrite length_append in H. lia.
  - apply (f_equal String.length) in H. simpl in H.
    rewrite length_append in H. lia.
  - injection H as -> H. rewrite (IH y H). reflexivity.
Qed.

Lemma normalizeGoal_with_sha (goal : SdmGoalEvent) (s : string) :
  normalizeGoal (with_sha goal s) = normalizeGoal goal -> s = sha goal.
Proof.
  unfold normalizeGoal, with_sha.
  cbn [uniqueName environment goalSetId state ts version repo sha branch
       fulfillment preConditions data url externalUrls provenance
       retryFeasible approvalRequired approval preApprovalRequired
       preApproval].
  intros H. repeat (apply append_cancel_l in H).
  apply append_cancel_r in H. exact H.
Qed.

Lemma verifyGoal_accepts (crypto : Crypto) (goal : SdmGoalEvent)
    (gsc : GoalSigningConfiguration) (vk : GoalVerificationKey) (sig : string) :
  signature goal = Some sig -> sig <> "" ->
  In vk (verificationKeys gsc) ->
  rsa_verify crypto (publicKey vk) (normalizeGoal goal) sig = true ->
  verifyGoal crypto goal (Some gsc) = ([], Returned tt).
Proof.
  intros Hs Hne Hin Hv. unfold verifyGoal.
  destruct (enabled gsc && negb (isGoalRejected goal)); [|reflexivity].
  rewrite Hs. destruct sig as [|c s]; [contradiction Hne; reflexivity|].
  destruct (find _ (verificationKeys gsc)) as [k|] eqn:E; [reflexivity|].
  rewrite (find_none _ _ E vk Hin) in Hv. discriminate Hv.
Qed.

(** C3, as the code has it, for a signature scheme whose key pair signs
    correctly and whose signatures are never empty: a goal signed with the
    key verifies, silently, against every enabled configuration whose
    verification keys include the public key; if moreover signatures are
    unforgeable, a signed goal altered so that its canonical form changes, and
    not put in state failure with description [Rejected: <name>], is
    rejected as invalid whatever the configured keys; and a change of the sha
    alone always changes the canonical form. *)
Theorem signGoal_verifyGoal
    (crypto : Crypto) (goal : SdmGoalEvent) (k : GoalSigningKey)
    (signing verifying : GoalSigningConfiguration) (vk : GoalVerificationKey) :
  keyPair crypto k -> signaturesNonEmpty crypto ->
  enabled signing = true -> signingKey signing = Some k ->
  enabled verifying = true ->
  In vk (verificationKeys verifying) -> publicKey vk = sk_publicKey k ->
  exists signed,
    signGoal crypto goal (Some signing) = Some signed /\
    verifyGoal crypto signed (Some verifying) = ([], Returned tt) /\
    (unforgeable crypto ->
     forall tampered,
       signature tampered = signature signed ->
       normalizeGoal tampered <> normalizeGoal signed ->
       isGoalRejected tampered = false ->
       verifyGoal crypto tampered (Some verifying) =
         ([rejection tampered "signature was invalid"],
          Threw "SDM goal signature invalid. Rejecting goal!")) /\
    (forall s, s <> sha signed ->
               signature (with_sha signed s) = signature signed /\
               normalizeGoal (with_sha signed s) <> normalizeGoal signed).
Proof.
  intros Hk Hne Hes Hsk Hev Hin Hpk.
  unfold signGoal. rewrite Hes, Hsk.
  set (sig := rsa_sign crypto (privateKey k) (passphrase k) (normalizeGoal goal)).
  exists (with_signature goal (Some sig)).
  split; [reflexivity|]. split; [|split].
  - apply (verifyGoal_accepts crypto (with_signature goal (Some sig)) verifying
             vk sig eq_refl (Hne _ _ _) Hin).
    rewrite normalizeGoal_with_signature, Hpk. apply Hk.
  - intros Hu tampered Hsig Hnorm Hrej.
    apply (verifyGoal_invalid crypto tampered verifying sig Hev Hrej Hsig
             (Hne _ _ _)).
    intros vk' _.
    destruct (rsa_verify crypto (publicKey vk') (normalizeGoal tampered) _) eqn:E;
      [|reflexivity].
    apply Hu in E. rewrite normalizeGoal_with_signature in Hnorm.
    contradiction (Hnorm E).
  - intros s Hs. split; [reflexivity|].
    intros H. apply normalizeGoal_with_sha in H. contradiction (Hs H).
Qed.

Lemma toyCrypto_keyPair : keyPair toyCrypto toyKey.
Proof. intros m. simpl. apply String.eqb_refl. Defined.

Lemma toyCrypto_signaturesNonEmpty : signaturesNonEmpty toyCrypto.
Proof. intros sk pp m. simpl. discriminate. Defined.

Lemma toyCrypto_unforgeable : unforgeable toyCrypto.
Proof.
  intros pk sk pp m m'. cbn [toyCrypto rsa_sign rsa_verify]. intros H.
  apply String.eqb_eq in H. injection H as _ H. symmetry. exact H.
Defined.

Lemma signGoal_verifyGoal_witness :
  keyPair toyCrypto toyKey /\ signaturesNonEmpty toyCrypto /\
  unforgeable toyCrypto /\
  exists signed,
    signGoal toyCrypto requestedGoal (Some toySigning) = Some signed /\
    verifyGoal toyCrypto signed (Some toySigning) = ([], Returned tt) /\
    verifyGoal toyCrypto (with_sha signed "0000") (Some toySigning) =
      ([rejection (with_sha signed "0000") "signature was invalid"],
       Threw "SDM goal signature invalid. Rejecting goal!").
Proof.
  split; [exact toyCrypto_keyPair|]. split; [exact toyCrypto_signaturesNonEmpty|].
  split; [exact toyCrypto_unforgeable|].
  destruct (signGoal_verifyGoal toyCrypto requestedGoal toyKey toySigning
              toySigning (asVerificationKey toyKey)
              toyCrypto_keyPair toyCrypto_signaturesNonEmpty
              eq_refl eq_refl eq_refl (or_intror (or_introl eq_refl)) eq_refl)
    as [signed [Hs [Hv [Ht Hsha]]]].
  exists signed. split; [exact Hs|]. split; [exact Hv|].
  injection Hs as <-.
  apply (Ht toyCrypto_unforgeable).
  - reflexivity.
  - apply Hsha. discriminate.
  - reflexivity.
Defined.

(** C3 as the specification words it fails: the data of the signed goal, a signed
    field, is altered from absent to the word undefined, and the altered
    goal still verifies, since both are written the same way in the canonical
    form. *)
Lemma tampered_data_still_verifies :
  signGoal toyCrypto requestedGoal (Some toySigning) = Some signedGoal /\
  data tamperedData <> data signedGoal /\
  signature tamperedData = signature signedGoal /\
  normalizeGoal tamperedData = normalizeGoal signedGoal /\
  verifyGoal toyCrypto tamperedData (Some toySigning) = ([], Returned tt).
Proof.
  split; [reflexivity|]. split; [discriminate|]. split; [reflexivity|].
  split; reflexivity.
Qed.

(** The same holds of a list field: one precondition whose uniqueName holds
    a comma and a slash is written like two preconditions. *)
Example normalizeGoal_preConditions_collision :
  normalizeGoal
    (sampleGoal "deploy" "1-staging" planned
       [ {| key_environment := "0-code"; key_uniqueName := "build,0-code/test" |} ]
       sdmFulfillment)
  = normalizeGoal
      (sampleGoal "deploy" "1-staging" planned
         [ {| key_environment := "0-code"; key_uniqueName := "build" |};
           {| key_environment := "0-code"; key_uniqueName := "test" |} ]
         sdmFulfillment).
Proof. reflexivity. Qed.

(** ** Further properties of the code *)

(** *** Commit statuses *)

(** The status of a goal state is pending exactly for the states that are
    not terminal, success for success alone, and failure for the other
    terminal states. *)
Theorem sdmGoalStateToGitHubStatusState_terminal (s : SdmGoalState) :
  (sdmGoalStateToGitHubStatusState s = "pending" <-> ~ terminal s) /\
  (sdmGoalStateToGitHubStatusState s = "success" <-> s = success) /\
  (sdmGoalStateToGitHubStatusState s = "failure" <->
   terminal s /\ s <> success).
Proof.
  unfold terminal.
  destruct s; simpl; (split; [|split]); split; intros H;
    try reflexivity; try discriminate H; intuition congruence.
Qed.

(** A pending status is published when, and only when, the goal set holds at
    least one goal; it carries the same context as the failure and success
    statuses published on completion. *)
Theorem createPendingGitHubStatusOnGoalSet_publishes
    (sdm : SoftwareDeliveryMachine) (inv : GoalsSetListenerInvocation) :
  ((exists g gs, gsl_goalSet inv = Some (g :: gs)) ->
   createPendingGitHubStatusOnGoalSet sdm inv =
     ([CreateStatus (pendingStatus sdm)], Returned tt)) /\
  ((gsl_goalSet inv = None \/ gsl_goalSet inv = Some []) ->
   createPendingGitHubStatusOnGoalSet sdm inv = ([], Returned tt)) /\
  st_state (pendingStatus sdm) = "pending" /\
  (forall g, st_context (pendingStatus sdm) = st_context (failureStatus sdm g)) /\
  st_context (pendingStatus sdm) = st_context (successStatus sdm).
Proof.
  unfold createPendingGitHubStatusOnGoalSet. split; [|split].
  - intros [g [gs H]]. rewrite H. reflexivity.
  - intros [H|H]; rewrite H; reflexivity.
  - repeat split.
Qed.

Lemma createPendingGitHubStatusOnGoalSet_publishes_witness :
  createPendingGitHubStatusOnGoalSet sampleSdm
    {| gsl_goalSetId := "set-1"; gsl_goalSet := Some [sampleTemplate] |}
  = ([CreateStatus {| st_context := "sdm/atomist/my-sdm";
                      st_description := "my-sdm goals in progress";
                      st_target_url := Some "https://app.atomist.com";
                      st_state := "pending" |}], Returned tt)
  /\ createPendingGitHubStatusOnGoalSet sampleSdm
       {| gsl_goalSetId := "set-1"; gsl_goalSet := Some [] |}
     = ([], Returned tt).
Proof.
  split.
  - apply (proj1 (createPendingGitHubStatusOnGoalSet_publishes sampleSdm
                    {| gsl_goalSetId := "set-1";
                       gsl_goalSet := Some [sampleTemplate] |})).
    exists sampleTemplate, []. reflexivity.
  - apply (proj1 (proj2 (createPendingGitHubStatusOnGoalSet_publishes sampleSdm
                    {| gsl_goalSetId := "set-1"; gsl_goalSet := Some [] |}))).
    right. reflexivity.
Defined.

Lemma dropFirstAt_none (s : string) :
  hasNoAt s = true -> dropFirstAt s = s.
Proof.
  induction s as [|c s IH]; simpl; [reflexivity|].
  intros H. apply andb_true_iff in H. destruct H as [Hc Hs].
  apply negb_true_iff in Hc. rewrite Hc, (IH Hs). reflexivity.
Qed.

(** The status context drops the first at sign of the configuration name and
    nothing else: what stands before it and all that follows it, further at
    signs included, is kept; a name without at sign is kept whole. *)
Theorem context_drops_first_at (sdm : SoftwareDeliveryMachine) (a b : string) :
  hasNoAt a = true ->
  (sdm_configuration_name sdm = a ++ String "@" b -> context sdm = "sdm/" ++ a ++ b) /\
  (sdm_configuration_name sdm = a -> context sdm = "sdm/" ++ a).
Proof.
  intros Ha. unfold context. split; intros ->.
  - f_equal. clear sdm. induction a as [|c a IH]; simpl; [reflexivity|].
    simpl in Ha. apply andb_true_iff in Ha. destruct Ha as [Hc Ha].
    apply negb_true_iff in Hc. rewrite Hc, (IH Ha). reflexivity.
  - rewrite (dropFirstAt_none _ Ha). reflexivity.
Qed.

Lemma context_drops_first_at_witness :
  context {| sdm_name := "x"; sdm_configuration_name := "my@scope/sdm@2" |}
  = "sdm/myscope/sdm@2".
Proof.
  apply (proj1 (context_drops_first_at
                  {| sdm_name := "x"; sdm_configuration_name := "my@scope/sdm@2" |}
                  "my" "scope/sdm@2" eq_refl)).
  reflexivity.
Defined.

(** On a completion the listener publishes at most one status, and none at
    all when the completed goal is not a failure while some goal of the set
    is not yet in state success.  In particular a completed goal of the set
    that was skipped, stopped or canceled publishes nothing, although the
    state mapping gives failure for these states. *)
Theorem setGitHubStatusOnGoalCompletion_quiet
    (sdm : SoftwareDeliveryMachine) (inv : GoalCompletionListenerInvocation) :
  (List.length (trace (setGitHubStatusOnGoalCompletion sdm inv)) <= 1)%nat /\
  outcome (setGitHubStatusOnGoalCompletion sdm inv) = Returned tt /\
  (trace (setGitHubStatusOnGoalCompletion sdm inv) = [] <->
   state (completedGoal inv) <> failure /\
   exists g, In g (allGoals inv) /\ state g <> success) /\
  (In (completedGoal inv) (allGoals inv) ->
   state (completedGoal inv) = skipped \/ state (completedGoal inv) = stopped \/
   state (completedGoal inv) = canceled ->
   trace (setGitHubStatusOnGoalCompletion sdm inv) = [] /\
   sdmGoalStateToGitHubStatusState (state (completedGoal inv)) = "failure").
Proof.
  assert (Hdec : forall l, allSuccessful l = false <->
                           exists g, In g l /\ state g <> success).
  { intros l. unfold allSuccessful. rewrite negb_false_iff, existsb_exists.
    split; intros [g [Hg Hs]]; exists g; (split; [exact Hg|]).
    - intros E. apply stateName_success in E. rewrite E in Hs. discriminate Hs.
    - apply negb_true_iff.
      destruct (String.eqb (stateName (state g)) "success") eqn:E; [|reflexivity].
      apply stateName_success in E. contradiction (Hs E). }
  assert (Hempty : trace (setGitHubStatusOnGoalCompletion sdm inv) = [] <->
                   state (completedGoal inv) <> failure /\
                   exists g, In g (allGoals inv) /\ state g <> success).
  { unfold setGitHubStatusOnGoalCompletion.
    destruct (String.eqb (stateName (state (completedGoal inv))) "failure") eqn:Ef.
    - apply stateName_failure in Ef. split; [discriminate|].
      intros [H _]. contradiction (H Ef).
    - destruct (allSuccessful (allGoals inv)) eqn:Ea.
      + split; [discriminate|]. intros [_ H]. apply Hdec in H.
        rewrite H in Ea. discriminate Ea.
      + split; [|reflexivity]. intros _. split.
        * intros E. apply stateName_failure in E. rewrite E in Ef. discriminate Ef.
        * apply Hdec. exact Ea. }
  split; [|split; [|split; [exact Hempty|]]].
  - unfold setGitHubStatusOnGoalCompletion.
    destruct (String.eqb _ "failure"); [simpl; lia|].
    destruct (allSuccessful _); simpl; lia.
  - unfold setGitHubStatusOnGoalCompletion.
    destruct (String.eqb _ "failure"); [reflexivity|].
    destruct (allSuccessful _); reflexivity.
  - intros Hin Hs. split.
    + apply Hempty. split.
      * intros E. rewrite E in Hs. destruct Hs as [H|[H|H]]; discriminate H.
      * exists (completedGoal inv). split; [exact Hin|].
        intros E. rewrite E in Hs. destruct Hs as [H|[H|H]]; discriminate H.
    + destruct Hs as [H|[H|H]]; rewrite H; reflexivity.
Qed.

Lemma setGitHubStatusOnGoalCompletion_quiet_witness :
  trace (setGitHubStatusOnGoalCompletion sampleSdm
           {| completedGoal := canceledGoal;
              allGoals := [buildGoal; canceledGoal] |}) = []
  /\ sdmGoalStateToGitHubStatusState (state canceledGoal) = "failure".
Proof.
  apply (proj2 (proj2 (proj2 (setGitHubStatusOnGoalCompletion_quiet sampleSdm
           {| completedGoal := canceledGoal;
              allGoals := [buildGoal; canceledGoal] |})))).
  - simpl. right. left. reflexivity.
  - right. right. reflexivity.
Defined.

(** *** The completion reactor *)

Lemma promise_all_trace (ps : list (Handler unit)) :
  trace (promise_all ps) = flat_map (fun p => trace p) ps.
Proof.
  induction ps as [|p ps IH]; simpl; [reflexivity|].
  unfold trace in *. simpl. rewrite IH. reflexivity.
Qed.

Lemma promise_all_outcome (ps : list (Handler unit)) :
  outcome (promise_all ps) = Returned tt <->
  forall p, In p ps -> outcome p = Returned tt.
Proof.
  induction ps as [|p ps IH]; simpl.
  - split; [intros _ p []|reflexivity].
  - unfold outcome in *. simpl. destruct p as [t [[]|e]]; simpl.
    + rewrite IH. split.
      * intros H q [<-|Hq]; [reflexivity|apply H; exact Hq].
      * intros H q Hq. apply H. right. exact Hq.
    + split; [discriminate|]. intros H.
      specialize (H (t, Threw e) (or_introl eq_refl)). discriminate H.
Qed.

Lemma callListeners_all_return (listeners : list GoalCompletionListener)
    (gsi : GoalCompletionListenerInvocation)
    (body : GoalCompletionListener -> Handler unit) :
  (forall l, In l listeners -> l gsi = Returned (body l)) ->
  callListeners listeners gsi = (map body listeners, None).
Proof.
  induction listeners as [|l rest IH]; intros H; cbn [callListeners map];
    [reflexivity|].
  rewrite (H l (or_introl eq_refl)).
  rewrite IH by (intros l' Hl; apply H; right; exact Hl). reflexivity.
Qed.

Lemma callListeners_throws (before after : list GoalCompletionListener)
    (l : GoalCompletionListener) (gsi : GoalCompletionListenerInvocation)
    (body : GoalCompletionListener -> Handler unit) (e : string) :
  (forall l', In l' before -> l' gsi = Returned (body l')) ->
  l gsi = Threw e ->
  callListeners (before ++ l :: after) gsi = (map body before, Some e).
Proof.
  induction before as [|b before IH]; intros H He; cbn [callListeners map app].
  - rewrite He. reflexivity.
  - rewrite (H b (or_introl eq_refl)).
    rewrite IH; [reflexivity| |exact He].
    intros l' Hl. apply H. right. exact Hl.
Qed.

(** For a completed goal that is not relevant the reactor calls no listener.
    For a relevant one it calls the listeners in order on the completed goal
    and the goals fetched for its set.  When every call returns its promise,
    all the promises run, also when one of them rejects, and the handler
    returns success exactly when none rejects; so a status listener written
    as an async function publishes the failure of a failed goal whatever the
    promises of the other listeners do.  When the call of a listener throws,
    the listeners after it are never called, whatever they are: the handler
    rejects with that error, and the only effects are those of the promises
    the listeners before it returned. *)
Theorem RespondOnGoalCompletion_runs_all_listeners
    (this : RespondOnGoalCompletion) (sdmGoal : SdmGoalEvent) :
  let gsi := {| completedGoal := sdmGoal;
                allGoals := cr_fetchGoalsForCommit this sdmGoal |} in
  (cr_isGoalRelevant this sdmGoal = false ->
   RespondOnGoalCompletion_handle this sdmGoal =
     ([], Returned {| hr_code := 0; hr_spread := None |})) /\
  (cr_isGoalRelevant this sdmGoal = true ->
   forall body : GoalCompletionListener -> Handler unit,
     (forall l, In l (goalCompletionListeners this) -> l gsi = Returned (body l)) ->
     trace (RespondOnGoalCompletion_handle this sdmGoal) =
       flat_map (fun l => trace (body l)) (goalCompletionListeners this) /\
     (outcome (RespondOnGoalCompletion_handle this sdmGoal)
        = Returned {| hr_code := 0; hr_spread := None |} <->
      forall l, In l (goalCompletionListeners this) ->
                outcome (body l) = Returned tt) /\
     (forall sdm,
        In (fun inv => Returned (setGitHubStatusOnGoalCompletion sdm inv))
           (goalCompletionListeners this) ->
        state sdmGoal = failure ->
        In (CreateStatus
              {| st_context := context sdm;
                 st_description :=
                   prefix sdm ++ ": " ++ interpolate (description sdmGoal);
                 st_target_url := url sdmGoal;
                 st_state := "failure" |})
           (trace (RespondOnGoalCompletion_handle this sdmGoal)))) /\
  (cr_isGoalRelevant this sdmGoal = true ->
   forall before l after e (body : GoalCompletionListener -> Handler unit),
     goalCompletionListeners this = (before ++ l :: after)%list ->
     (forall l', In l' before -> l' gsi = Returned (body l')) ->
     l gsi = Threw e ->
     RespondOnGoalCompletion_handle this sdmGoal =
       (flat_map (fun l' => trace (body l')) before, Threw e)).
Proof.
  intros gsi. unfold RespondOnGoalCompletion_handle. fold gsi.
  split; [|split].
  - intros H. rewrite H. reflexivity.
  - intros H body Hall. rewrite H. cbn [negb].
    rewrite (callListeners_all_return _ gsi body Hall).
    set (ps := map body (goalCompletionListeners this)).
    assert (Ht : trace (promise_all ps ;;; ret Success) =
                 flat_map (fun l => trace (body l)) (goalCompletionListeners this)).
    { rewrite trace_bind, promise_all_trace.
      assert (Hnil : match outcome (promise_all ps) with
                     | Returned _ => trace (ret Success)
                     | Threw _ => []
                     end = @nil Effect)
        by (destruct (outcome (promise_all ps)); reflexivity).
      rewrite Hnil, app_nil_r. unfold ps.
      rewrite flat_map_concat_map, map_map, <- flat_map_concat_map.
      reflexivity. }
    split; [exact Ht|]. split.
    + rewrite outcome_bind.
      pose proof (promise_all_outcome ps) as Hp.
      destruct (outcome (promise_all ps)) as [[]|e] eqn:E.
      * split; [|reflexivity]. intros _ l Hl.
        apply (proj1 Hp eq_refl). unfold ps. apply in_map. exact Hl.
      * split; [discriminate|]. intros Hok.
        assert (K : Threw e = Returned tt :> Outcome unit).
        { apply Hp. intros p Hp'. unfold ps in Hp'. apply in_map_iff in Hp'.
          destruct Hp' as [l [<- Hl]]. apply Hok. exact Hl. }
        discriminate K.
    + intros sdm Hin Hf. rewrite Ht. apply in_flat_map.
      exists (fun inv => Returned (setGitHubStatusOnGoalCompletion sdm inv)).
      split; [exact Hin|].
      pose proof (Hall _ Hin) as Hb. cbv beta in Hb. injection Hb as Hb.
      rewrite <- Hb. unfold setGitHubStatusOnGoalCompletion, gsi.
      cbn [completedGoal].
      rewrite (proj2 (stateName_failure _) Hf). left. reflexivity.
  - intros H before l after e body Hl Hbefore He. rewrite H, Hl. cbn [negb].
    rewrite (callListeners_throws before after l gsi body e Hbefore He).
    rewrite promise_all_trace.
    rewrite flat_map_concat_map, map_map, <- flat_map_concat_map.
    reflexivity.
Qed.

Lemma RespondOnGoalCompletion_runs_all_listeners_witness :
  RespondOnGoalCompletion_handle abortingReactor failedGoal =
    ([LogWrite "first"], Threw "not a promise")
  /\ trace (RespondOnGoalCompletion_handle sampleReactor failedGoal) =
       [CreateStatus {| st_context := "sdm/atomist/my-sdm";
                        st_description := "my-sdm goals: Tests failed";
                        st_target_url := Some "https://log/1";
                        st_state := "failure" |}]
  /\ outcome (RespondOnGoalCompletion_handle sampleReactor failedGoal)
     <> Returned {| hr_code := 0; hr_spread := None |}.
Proof.
  pose (gsi := {| completedGoal := failedGoal;
                  allGoals := [buildGoal; failedGoal] |}).
  pose (body := fun l : GoalCompletionListener =>
                  match l gsi with
                  | Returned p => p
                  | Threw e => throw e
                  end).
  destruct (RespondOnGoalCompletion_runs_all_listeners abortingReactor failedGoal)
    as [_ [_ Hthrow]].
  destruct (RespondOnGoalCompletion_runs_all_listeners sampleReactor failedGoal)
    as [_ [Hall _]].
  split; [|split].
  - rewrite (Hthrow eq_refl
               [asyncListener (fun _ => emit (LogWrite "first"))]
               (fun _ => Threw "not a promise")
               [asyncListener (setGitHubStatusOnGoalCompletion sampleSdm)]
               "not a promise" body eq_refl).
    + reflexivity.
    + intros l' [<-|[]]. reflexivity.
    + reflexivity.
  - destruct (Hall eq_refl body) as [Ht _].
    + intros l [<-|[<-|[]]]; reflexivity.
    + rewrite Ht. reflexivity.
  - destruct (Hall eq_refl body) as [_ [Ho _]].
    + intros l [<-|[<-|[]]]; reflexivity.
    + intros K.
      pose proof (proj1 Ho K
                    (asyncListener (fun _ => throw "listener failed"))
                    (or_introl eq_refl)) as K'.
      discriminate K'.
Defined.

(** *** The dispatcher beyond its exit paths *)

Lemma inProcess_outcome (this : Dispatcher) (sdmGoal : SdmGoalEvent)
    (gi : GoalInvocation) (r : HandlerResult) :
  outcome (inProcess this sdmGoal gi) = Returned r -> hr_code r = 0%Z.
Proof.
  destruct (executeGoal this gi) as [t [res|e]] eqn:E.
  - rewrite (inProcess_returned _ _ _ _ _ E). simpl.
    intros H. injection H as <-. reflexivity.
  - rewrite (inProcess_threw _ _ _ _ _ E). discriminate.
Qed.

Lemma scheduled_outcome (this : Dispatcher) (s : GoalScheduler)
    (sdmGoal : SdmGoalEvent) (gi : GoalInvocation) (r : HandlerResult) :
  outcome (scheduled this s sdmGoal gi) = Returned r -> hr_code r = 0%Z.
Proof.
  unfold scheduled. rewrite outcome_bind.
  destruct (outcome (schedule s gi)) as [res|e]; [|discriminate].
  rewrite outcome_bind.
  destruct (outcome _) as [[]|e]; [|discriminate].
  simpl. intros H. injection H as <-. reflexivity.
Qed.

(** Whatever the goal, the collaborators and the path taken, a handler that
    returns, returns code 0: the dispatcher, the precondition engine and the
    completion reactor report a failure to the bus only by throwing. *)
Theorem handlers_return_code_zero (r : HandlerResult) (sdmGoal : SdmGoalEvent) :
  (forall this : Dispatcher,
     outcome (FulfillGoalOnRequested_handle this sdmGoal) = Returned r ->
     hr_code r = 0%Z) /\
  (forall this : RequestDownstream,
     outcome (RequestDownstream_handle this sdmGoal) = Returned r ->
     r = Success) /\
  (forall this : RespondOnGoalCompletion,
     outcome (RespondOnGoalCompletion_handle this sdmGoal) = Returned r ->
     r = Success).
Proof.
  split; [|split]; intros this.
  - unfold FulfillGoalOnRequested_handle.
    destruct (negb (shouldFulfill this sdmGoal));
      [intros H; injection H as <-; reflexivity|].
    rewrite outcome_bind.
    destruct (outcome (verifyGoal _ _ _)) as [[]|e]; [|discriminate].
    destruct (cancelableGoal this sdmGoal && isGoalCanceled this sdmGoal);
      [intros H; injection H as <-; reflexivity|].
    destruct (_ && negb _); [intros H; injection H as <-; reflexivity|].
    destruct (SdmGoalFulfillmentMethod_beq _ Other);
      [intros H; injection H as <-; reflexivity|].
    rewrite outcome_bind. unfold lift. cbn [outcome snd].
    destruct (goalInvocationFor this sdmGoal) as [gi|e]; [|discriminate].
    destruct (findGoalScheduler gi this) as [s|].
    + apply scheduled_outcome.
    + apply inProcess_outcome.
  - unfold RequestDownstream_handle.
    destruct (negb (rd_isGoalRelevant this sdmGoal));
      [intros H; injection H as <-; reflexivity|].
    rewrite outcome_bind.
    destruct (outcome (verifyGoal _ _ _)) as [[]|e]; [|discriminate].
    rewrite outcome_bind.
    destruct (outcome (for_each _ _)) as [[]|e]; [|discriminate].
    intros H. injection H as <-. reflexivity.
  - unfold RespondOnGoalCompletion_handle.
    destruct (negb (cr_isGoalRelevant this sdmGoal));
      [intros H; injection H as <-; reflexivity|].
    destruct (callListeners _ _) as [promises [e|]]; [discriminate|].
    rewrite outcome_bind.
    destruct (outcome (promise_all _)) as [[]|e]; [|discriminate].
    intros H. injection H as <-. reflexivity.
Qed.

Lemma handlers_return_code_zero_witness :
  hr_code {| hr_code := 0; hr_spread := Some (resultOf 1 None) |} = 0%Z.
Proof.
  apply (proj1 (handlers_return_code_zero
                  {| hr_code := 0; hr_spread := Some (resultOf 1 None) |}
                  requestedGoal)
           (sampleDispatcher [failingScheduler] succeedingExecutor)).
  reflexivity.
Defined.

(** When a scheduler takes a dispatched goal and does not report a non-zero
    code, the handler writes the one update that marks the goal as scheduled
    (the state the scheduler names, in_process without one; the phase it
    names, scheduled without one; the url of the progress log), touches the
    progress log no more and never runs the executor.  When the scheduler
    throws, the handler throws with it and records nothing for the goal. *)
Theorem FulfillGoalOnRequested_scheduled
    (this : Dispatcher) (sdmGoal : SdmGoalEvent) (gi : GoalInvocation)
    (s : GoalScheduler) (t : list Effect) :
  dispatched this sdmGoal gi ->
  findGoalScheduler gi this = Some s ->
  (forall r,
     schedule s gi = (t, Returned r) -> schedulingFailed r = false ->
     exists p,
       FulfillGoalOnRequested_handle this sdmGoal =
         ((t ++ [UpdateGoal sdmGoal p])%list,
          Returned {| hr_code := 0; hr_spread := r |}) /\
       u_url p = progressLog_url gi /\
       (r = None -> u_state p = in_process /\ u_phase p = Some "scheduled") /\
       (forall r', r = Some r' ->
          (forall st, r_state r' = Some st -> u_state p = st) /\
          (r_state r' = None -> u_state p = in_process) /\
          (forall c ph, phase r' = Some (String c ph) ->
                        u_phase p = Some (String c ph)) /\
          (phase r' = None \/ phase r' = Some "" -> u_phase p = Some "scheduled"))) /\
  (forall e,
     schedule s gi = (t, Threw e) ->
     FulfillGoalOnRequested_handle this sdmGoal = (t, Threw e)).
Proof.
  intros Hd Hs. rewrite (handle_dispatched _ _ _ Hd), Hs. split.
  - intros r Hsch Hf. unfold scheduled. rewrite Hsch.
    rewrite (bind_returned t). cbv beta. rewrite Hf. unfold updateGoal.
    rewrite (bind_emit (UpdateGoal _ _)). cbn [trace outcome fst snd ret].
    eexists. split; [reflexivity|]. cbn [u_url u_state u_phase].
    split; [reflexivity|]. split.
    + intros ->. split; reflexivity.
    + intros r' ->. split; [|split; [|split]].
      * intros st ->. reflexivity.
      * intros ->. reflexivity.
      * intros c ph ->. reflexivity.
      * intros [H|H]; rewrite H; reflexivity.
  - intros e Hsch. unfold scheduled. rewrite Hsch. reflexivity.
Qed.

Lemma FulfillGoalOnRequested_scheduled_witness :
  exists p,
    FulfillGoalOnRequested_handle
      (sampleDispatcher [acceptingScheduler] throwingExecutor) requestedGoal
    = ([UpdateGoal requestedGoal p],
       Returned {| hr_code := 0; hr_spread := None |})
    /\ u_state p = in_process /\ u_phase p = Some "scheduled".
Proof.
  destruct (proj1 (FulfillGoalOnRequested_scheduled
                     (sampleDispatcher [acceptingScheduler] throwingExecutor)
                     requestedGoal (sampleInvocation requestedGoal)
                     acceptingScheduler []
                     (sample_dispatched [acceptingScheduler] throwingExecutor)
                     eq_refl) None eq_refl eq_refl)
    as [p [Hh [_ [Hnone _]]]].
  exists p. split; [exact Hh|]. exact (Hnone eq_refl).
Defined.

(** The schedulers are consulted in the order of the configuration: the one
    chosen supports the invocation and none before it does; none is chosen
    exactly when no scheduler supports the invocation. *)
Theorem findGoalScheduler_first_supporting
    (gi : GoalInvocation) (this : Dispatcher) :
  (forall s, findGoalScheduler gi this = Some s ->
     supports s gi = true /\
     exists before after,
       goalSchedulers this = (before ++ s :: after)%list /\
       forall s', In s' before -> supports s' gi = false) /\
  (findGoalScheduler gi this = None <->
   forall s, In s (goalSchedulers this) -> supports s gi = false).
Proof.
  unfold findGoalScheduler.
  induction (goalSchedulers this) as [|x l IH]; simpl.
  - split; [discriminate|]. split; [intros _ s []|reflexivity].
  - destruct (supports x gi) eqn:Ex.
    + split.
      * intros s H. injection H as <-. split; [exact Ex|].
        exists [], l. split; [reflexivity|intros s' []].
      * split; [discriminate|]. intros H.
        rewrite (H x (or_introl eq_refl)) in Ex. discriminate Ex.
    + destruct IH as [IH1 IH2]. split.
      * intros s H. destruct (IH1 s H) as [Hs [b [a [Hl Hb]]]].
        split; [exact Hs|]. exists (x :: b), a. split.
        -- rewrite Hl. reflexivity.
        -- intros s' [<-|Hin]; [exact Ex|apply Hb; exact Hin].
      * rewrite IH2. split.
        -- intros H s [<-|Hin]; [exact Ex|apply H; exact Hin].
        -- intros H s Hin. apply H. right. exact Hin.
Qed.

Lemma findGoalScheduler_first_supporting_witness :
  supports failingScheduler (sampleInvocation requestedGoal) = true /\
  exists before after,
    [decliningScheduler; failingScheduler; acceptingScheduler]
      = (before ++ failingScheduler :: after)%list /\
    forall s', In s' before -> supports s' (sampleInvocation requestedGoal) = false.
Proof.
  apply (proj1 (findGoalScheduler_first_supporting
                  (sampleInvocation requestedGoal)
                  (sampleDispatcher
                     [decliningScheduler; failingScheduler; acceptingScheduler]
                     throwingExecutor))
               failingScheduler).
  reflexivity.
Defined.

(** The states with which an executor's result leaves the execution open. *)
Lemma endsExecution_false (r : ExecuteGoalResult) (st : SdmGoalState) :
  r_state r = Some st ->
  (endsExecution (Some r) = false <->
   st = planned \/ st = requested \/ st = in_process \/ st = approved \/
   st = pre_approved \/ st = waiting_for_pre_approval).
Proof.
  intros H. unfold endsExecution. rewrite H.
  destruct st; simpl; split; intros K; try reflexivity; try discriminate K;
    intuition congruence.
Qed.

(** When the executor of a goal run in process returns a result whose state
    is planned, requested, in_process, approved, pre_approved or
    waiting_for_pre_approval, the handler writes no end report and leaves the
    progress log open: unless the executor closed it, it is not closed. *)
Theorem FulfillGoalOnRequested_leaves_log_open
    (this : Dispatcher) (sdmGoal : SdmGoalEvent) (gi : GoalInvocation)
    (t : list Effect) (r : ExecuteGoalResult) (st : SdmGoalState) :
  dispatched this sdmGoal gi ->
  findGoalScheduler gi this = None ->
  executeGoal this gi = (t, Returned (Some r)) ->
  r_state r = Some st ->
  st = planned \/ st = requested \/ st = in_process \/ st = approved \/
  st = pre_approved \/ st = waiting_for_pre_approval ->
  FulfillGoalOnRequested_handle this sdmGoal =
    ((map LogWrite (startLines this sdmGoal) ++ [LogFlush] ++ t)%list,
     Returned {| hr_code := 0; hr_spread := Some r |}) /\
  (~ In LogClose t ->
   ~ In LogClose (trace (FulfillGoalOnRequested_handle this sdmGoal))).
Proof.
  intros Hd Hs He Hst Hopen.
  assert (Hh : FulfillGoalOnRequested_handle this sdmGoal =
               ((map LogWrite (startLines this sdmGoal) ++ [LogFlush] ++ t)%list,
                Returned {| hr_code := 0; hr_spread := Some r |})).
  { rewrite (handle_dispatched _ _ _ Hd), Hs.
    rewrite (inProcess_returned _ _ _ _ _ He).
    rewrite (proj2 (endsExecution_false r st Hst) Hopen).
    rewrite app_nil_r. reflexivity. }
  split; [exact Hh|].
  intros Hn Hin. rewrite Hh in Hin. cbn [trace fst] in Hin.
  apply in_app_or in Hin. destruct Hin as [Hin|Hin].
  - apply in_map_iff in Hin. destruct Hin as [l [K _]]. discriminate K.
  - apply in_app_or in Hin. destruct Hin as [[K|[]]|Hin]; [discriminate K|].
    exact (Hn Hin).
Qed.

Lemma FulfillGoalOnRequested_leaves_log_open_witness :
  ~ In LogClose
       (trace (FulfillGoalOnRequested_handle
                 (sampleDispatcher [] pausingExecutor) requestedGoal)).
Proof.
  apply (proj2 (FulfillGoalOnRequested_leaves_log_open
                  (sampleDispatcher [] pausingExecutor) requestedGoal
                  (sampleInvocation requestedGoal)
                  [UpdateGoal requestedGoal (params in_process "Working")]
                  (resultOf 0 (Some in_process)) in_process
                  (sample_dispatched [] pausingExecutor)
                  eq_refl eq_refl eq_refl (or_intror (or_intror (or_introl eq_refl))))).
  intros [K|[]]. discriminate K.
Defined.

(** For a goal run in process the handler itself publishes no goal state:
    every update in its trace is one the executor made. *)
Theorem FulfillGoalOnRequested_in_process_publishes_nothing
    (this : Dispatcher) (sdmGoal : SdmGoalEvent) (gi : GoalInvocation) :
  dispatched this sdmGoal gi ->
  findGoalScheduler gi this = None ->
  forall g p,
    In (UpdateGoal g p) (trace (FulfillGoalOnRequested_handle this sdmGoal)) ->
    In (UpdateGoal g p) (trace (executeGoal this gi)).
Proof.
  intros Hd Hs g p. rewrite (handle_dispatched _ _ _ Hd), Hs.
  assert (Hlog : forall ls, ~ In (UpdateGoal g p) (map LogWrite ls)).
  { intros ls Hin. apply in_map_iff in Hin. destruct Hin as [l [K _]].
    discriminate K. }
  destruct (executeGoal this gi) as [t [r|e]] eqn:E.
  - rewrite (inProcess_returned _ _ _ _ _ E). cbn [trace fst]. intros Hin.
    apply in_app_or in Hin. destruct Hin as [Hin|Hin]; [contradiction (Hlog _ Hin)|].
    apply in_app_or in Hin. destruct Hin as [[K|[]]|Hin]; [discriminate K|].
    apply in_app_or in Hin. destruct Hin as [Hin|Hin]; [exact Hin|].
    destruct (endsExecution r); [|destruct Hin].
    apply in_app_or in Hin. destruct Hin as [Hin|[K|[]]];
      [contradiction (Hlog _ Hin)|discriminate K].
  - rewrite (inProcess_threw _ _ _ _ _ E). cbn [trace fst]. intros Hin.
    apply in_app_or in Hin. destruct Hin as [Hin|Hin]; [contradiction (Hlog _ Hin)|].
    apply in_app_or in Hin. destruct Hin as [[K|[]]|Hin]; [discriminate K|].
    apply in_app_or in Hin. destruct Hin as [Hin|Hin]; [exact Hin|].
    apply in_app_or in Hin. destruct Hin as [Hin|[K|[]]];
      [contradiction (Hlog _ Hin)|discriminate K].
Qed.

Lemma FulfillGoalOnRequested_in_process_publishes_nothing_witness :
  In (UpdateGoal requestedGoal (params success "Done"))
     (trace (executeGoal (sampleDispatcher [] succeedingExecutor)
                         (sampleInvocation requestedGoal))).
Proof.
  apply (FulfillGoalOnRequested_in_process_publishes_nothing
           (sampleDispatcher [] succeedingExecutor) requestedGoal
           (sampleInvocation requestedGoal)
           (sample_dispatched [] succeedingExecutor) eq_refl).
  vm_compute. tauto.
Defined.



(** *** Signing beyond the round trip *)

Lemma isGoalRejected_after_rejectGoal (g : SdmGoalEvent) (reason : string) :
  description g = Some ("Rejected " ++ name g ++ " because " ++ reason) ->
  isGoalRejected g = false.
Proof.
  intros H. unfold isGoalRejected. rewrite H. simpl.
  apply andb_false_r.
Qed.

(** The guard of [verifyGoal] does not recognise the goals [rejectGoal]
    writes: a goal in state failure whose description is the one of a
    rejection, for whatever reason, is not taken as rejected, so with signing
    enabled and no signature it is rejected once more. *)
Theorem rejected_goal_is_verified_again
    (crypto : Crypto) (gsc : GoalSigningConfiguration) (g : SdmGoalEvent)
    (reason : string) :
  state g = failure ->
  description g = Some ("Rejected " ++ name g ++ " because " ++ reason) ->
  isGoalRejected g = false /\
  (enabled gsc = true -> signature g = None ->
   verifyGoal crypto g (Some gsc) =
     ([rejection g "signature was missing"],
      Threw "SDM goal signature is missing. Rejecting goal!")).
Proof.
  intros Hs Hd.
  pose proof (isGoalRejected_after_rejectGoal g reason Hd) as Hr.
  split; [exact Hr|]. intros He Hsig.
  apply verifyGoal_missing; [exact He|exact Hr|left; exact Hsig].
Qed.

Lemma rejected_goal_is_verified_again_witness :
  isGoalRejected rejectedGoal = false /\
  verifyGoal toyCrypto rejectedGoal (Some toySigning) =
    ([rejection rejectedGoal "signature was missing"],
     Threw "SDM goal signature is missing. Rejecting goal!").
Proof.
  destruct (rejected_goal_is_verified_again toyCrypto toySigning rejectedGoal
              "signature was missing" eq_refl eq_refl) as [Hr Hv].
  split; [exact Hr|]. apply Hv; reflexivity.
Defined.

(** With signing enabled, a goal not in the rejected form is accepted exactly
    when it carries a non-empty signature that one of the configured keys
    verifies against its canonical form.  A goal in state failure described
    as [Rejected: <name>] is accepted by every configuration, whatever its
    signature, and so is every goal when signing is not enabled. *)
Theorem verifyGoal_accepts_exactly
    (crypto : Crypto) (goal : SdmGoalEvent) (gsc : GoalSigningConfiguration) :
  (enabled gsc = true -> isGoalRejected goal = false ->
   (outcome (verifyGoal crypto goal (Some gsc)) = Returned tt <->
    exists sig vk,
      signature goal = Some sig /\ sig <> "" /\
      In vk (verificationKeys gsc) /\
      rsa_verify crypto (publicKey vk) (normalizeGoal goal) sig = true)) /\
  (enabled gsc = false \/ isGoalRejected goal = true ->
   verifyGoal crypto goal (Some gsc) = ([], Returned tt)).
Proof.
  split.
  - intros He Hr. split.
    + unfold verifyGoal. rewrite He, Hr. simpl.
      destruct (signature goal) as [[|c s]|]; try discriminate.
      destruct (find _ (verificationKeys gsc)) as [vk|] eqn:E; [|discriminate].
      intros _. apply find_some in E. destruct E as [Hin Hv].
      exists (String c s), vk. repeat split; try assumption. discriminate.
    + intros [sig [vk [Hs [Hne [Hin Hv]]]]].
      rewrite (verifyGoal_accepts crypto goal gsc vk sig Hs Hne Hin Hv).
      reflexivity.
  - intros [H|H]; unfold verifyGoal; rewrite H;
      [reflexivity|rewrite andb_false_r; reflexivity].
Qed.

Lemma verifyGoal_accepts_exactly_witness :
  outcome (verifyGoal toyCrypto signedGoal (Some toySigning)) = Returned tt /\
  verifyGoal toyCrypto forgedRejection (Some toySigning) = ([], Returned tt).
Proof.
  split.
  - apply (proj1 (verifyGoal_accepts_exactly toyCrypto signedGoal toySigning)
             eq_refl eq_refl).
    exists (rsa_sign toyCrypto "k1" None (normalizeGoal requestedGoal)),
           (asVerificationKey toyKey).
    split; [reflexivity|]. split; [discriminate|].
    split; [right; left; reflexivity|reflexivity].
  - apply (proj2 (verifyGoal_accepts_exactly toyCrypto forgedRejection toySigning)).
    right. reflexivity.
Defined.

Lemma initVerificationKeys_signingKey (atomistPublicKey : string)
    (settings : GoalSigningSettings) (k : GoalSigningKey) :
  set_signingKey settings = Some k ->
  In (asVerificationKey k)
     (verificationKeys (initVerificationKeys atomistPublicKey settings)).
Proof.
  intros H. unfold initVerificationKeys. rewrite H. cbn [verificationKeys].
  apply in_or_app. left. apply in_or_app. right. left. reflexivity.
Qed.

(** The listener signs what it can verify: however the verification keys of
    the settings were written (none, one, an array), after the constructor
    has run a goal message sent to the goal ingester comes back signed, and
    [verifyGoal] accepts the signed goal under the listener's configuration.
    The Atomist public key is always the last verification key. *)
Theorem listener_signs_what_it_verifies
    (crypto : Crypto) (atomistPublicKey : string)
    (settings : GoalSigningSettings) (k : GoalSigningKey)
    (message : SdmGoalEvent) (destinations : list Destination) :
  keyPair crypto k -> signaturesNonEmpty crypto ->
  set_enabled settings = true -> set_signingKey settings = Some k ->
  existsb isGoalIngestion destinations = true ->
  let gsc := initVerificationKeys atomistPublicKey settings in
  (exists signed,
     messageSending crypto gsc message destinations = Returned signed /\
     normalizeGoal signed = normalizeGoal message /\
     verifyGoal crypto signed (Some gsc) = ([], Returned tt)) /\
  (exists keys,
     verificationKeys gsc =
       (keys ++ [ {| vk_name := "atomist.com/sdm";
                     publicKey := atomistPublicKey |} ])%list).
Proof.
  intros Hk Hne He Hs Hd gsc. split.
  - unfold messageSending, signGoal. rewrite Hd.
    unfold gsc at 1 2. cbn [initVerificationKeys enabled signingKey].
    rewrite He, Hs.
    set (sig := rsa_sign crypto (privateKey k) (passphrase k) (normalizeGoal message)).
    exists (with_signature message (Some sig)).
    split; [reflexivity|]. split; [reflexivity|].
    apply (verifyGoal_accepts crypto (with_signature message (Some sig)) gsc
             (asVerificationKey k) sig eq_refl (Hne _ _ _)).
    + apply initVerificationKeys_signingKey. exact Hs.
    + rewrite normalizeGoal_with_signature. apply Hk.
  - unfold gsc, initVerificationKeys. cbn [verificationKeys].
    eexists. reflexivity.
Qed.

Lemma listener_signs_what_it_verifies_witness :
  exists signed,
    messageSending toyCrypto (initVerificationKeys "atomist-pem" toySettings)
                   requestedGoal [goalIngester] = Returned signed /\
    verifyGoal toyCrypto signed
               (Some (initVerificationKeys "atomist-pem" toySettings))
      = ([], Returned tt).
Proof.
  destruct (proj1 (listener_signs_what_it_verifies toyCrypto "atomist-pem"
                     toySettings toyKey requestedGoal [goalIngester]
                     toyCrypto_keyPair toyCrypto_signaturesNonEmpty
                     eq_refl eq_refl eq_refl))
    as [signed [Hm [_ Hv]]].
  exists signed. split; assumption.
Defined.

(** A message that does not go to the goal ingester leaves the listener as it
    came.  A goal message for the ingester is never sent unsigned: when
    signing is not enabled or no signing key is configured, sending it throws
    a type error. *)
Theorem messageSending_unsigned
    (crypto : Crypto) (gsc : GoalSigningConfiguration)
    (message : SdmGoalEvent) (destinations : list Destination) :
  (existsb isGoalIngestion destinations = false ->
   messageSending crypto gsc message destinations = Returned message) /\
  (existsb isGoalIngestion destinations = true ->
   enabled gsc = false \/ signingKey gsc = None ->
   messageSending crypto gsc message destinations =
     Threw "TypeError: Cannot read property 'uniqueName' of undefined") /\
  (forall sent,
     existsb isGoalIngestion destinations = true ->
     messageSending crypto gsc message destinations = Returned sent ->
     exists sig, signature sent = Some sig /\ sent = with_signature message (Some sig)).
Proof.
  unfold messageSending, signGoal. split; [|split].
  - intros H. rewrite H. reflexivity.
  - intros H [K|K]; rewrite H, K; [reflexivity|].
    destruct (enabled gsc); reflexivity.
  - intros sent H. rewrite H.
    destruct (enabled gsc); [|discriminate].
    destruct (signingKey gsc) as [k|]; [|discriminate].
    intros E. injection E as <-. eexists. split; reflexivity.
Qed.

Lemma messageSending_unsigned_witness :
  messageSending toyCrypto
    {| enabled := false; signingKey := Some toyKey; verificationKeys := [] |}
    requestedGoal [goalIngester]
  = Threw "TypeError: Cannot read property 'uniqueName' of undefined"
  /\ messageSending toyCrypto toySigning requestedGoal
       [ {| userAgent := "slack"; rootType := None |} ]
     = Returned requestedGoal.
Proof.
  split.
  - apply (proj1 (proj2 (messageSending_unsigned toyCrypto
                    {| enabled := false; signingKey := Some toyKey;
                       verificationKeys := [] |}
                    requestedGoal [goalIngester]))).
    + reflexivity.
    + left. reflexivity.
  - apply (proj1 (messageSending_unsigned toyCrypto toySigning requestedGoal
                    [ {| userAgent := "slack"; rootType := None |} ])).
    reflexivity.
Defined.

(** Signing touches the signature alone and does not depend on an earlier
    signature: the signed goal has the canonical form of the goal, signing a
    signed goal again changes nothing, and a goal signs the same whatever
    signature it carried before. *)
Theorem signGoal_idempotent
    (crypto : Crypto) (goal signed : SdmGoalEvent)
    (gsc : option GoalSigningConfiguration) :
  signGoal crypto goal gsc = Some signed ->
  signed = with_signature goal (signature signed) /\
  normalizeGoal signed = normalizeGoal goal /\
  signGoal crypto signed gsc = Some signed /\
  (forall s, signGoal crypto (with_signature goal s) gsc = Some signed).
Proof.
  unfold signGoal. destruct gsc as [gsc|]; [|discriminate].
  destruct (enabled gsc); [|discriminate].
  destruct (signingKey gsc) as [k|]; [|discriminate].
  intros H. injection H as <-.
  split; [reflexivity|]. split; [reflexivity|]. split; reflexivity.
Qed.

Lemma signGoal_idempotent_witness :
  signGoal toyCrypto signedGoal (Some toySigning) = Some signedGoal.
Proof.
  apply (proj1 (proj2 (proj2 (signGoal_idempotent toyCrypto requestedGoal
                                signedGoal (Some toySigning) eq_refl)))).
Defined.

(** The canonical form also fixes the environment, the version and the
    branch of goal events whose fields up to the branch contain no line
    break. *)
Theorem normalizeGoal_fixes_environment_version_branch (g1 g2 : SdmGoalEvent) :
  singleLineToBranch g1 = true -> singleLineToBranch g2 = true ->
  normalizeGoal g1 = normalizeGoal g2 ->
  environment g1 = environment g2 /\ version g1 = version g2 /\
  branch g1 = branch g2.
Proof.
  unfold singleLineToBranch, singleLineHead. rewrite !andb_true_iff.
  intros [[[[[[[Hu1 He1] Hi1] Ho1] Hn1] Hp1] Hh1] Hb1]
         [[[[[[[Hu2 He2] Hi2] Ho2] Hn2] Hp2] Hh2] Hb2] H.
  pose proof (singleLine_stateName (state g1)) as Hs1.
  pose proof (singleLine_stateName (state g2)) as Hs2.
  pose proof (singleLine_numberToString (ts g1)) as Ht1.
  pose proof (singleLine_numberToString (ts g2)) as Ht2.
  pose proof (singleLine_numberToString (version g1)) as Hv1.
  pose proof (singleLine_numberToString (version g2)) as Hv2.
  unfold normalizeGoal, NL in H. cbn [append] in H.
  injection H as H. apply line_inj in H; [|assumption|assumption].
  destruct H as [_ H].
  injection H as H. apply line_inj in H; [|assumption|assumption].
  destruct H as [HE H].
  injection H as H. apply line_inj in H; [|assumption|assumption].
  destruct H as [_ H].
  injection H as H. apply line_inj in H; [|assumption|assumption].
  destruct H as [_ H].
  injection H as H. apply line_inj in H; [|assumption|assumption].
  destruct H as [_ H].
  injection H as H. apply line_inj in H; [|assumption|assumption].
  destruct H as [HV H].
  injection H as H. apply repo_line_inj in H; try assumption.
  injection H as H. apply line_inj in H; [|assumption|assumption].
  destruct H as [_ H].
  injection H as H. apply line_inj in H; [|assumption|assumption].
  destruct H as [HB _].
  split; [exact HE|]. split; [|exact HB].
  apply numberToString_inj. exact HV.
Qed.

Lemma normalizeGoal_fixes_environment_version_branch_witness :
  normalizeGoal buildGoal <> normalizeGoal canceledGoal.
Proof.
  intros H.
  destruct (normalizeGoal_fixes_environment_version_branch buildGoal canceledGoal
              eq_refl eq_refl H) as [He _].
  discriminate He.
Defined.

(** *** Cancelling beyond one goal set *)

Lemma cancelGoalSet_cases (ctx : CancelContext) (goalSetId : string) :
  (query_SdmGoalSetForId ctx goalSetId = [] /\
   cancelGoalSet ctx goalSetId =
     ([], Threw "TypeError: Cannot read property 'repo' of undefined")) \/
  (exists goalSet others rest,
     query_SdmGoalSetForId ctx goalSetId = goalSet :: others /\
     cancelGoalSet ctx goalSetId =
       ((map canceledUpdate
             (filter (fun g => negb (includes notCanceled (state g)))
                     (fetchGoalsForCommit ctx goalSet goalSetId))
           ++ rest)%list, Returned tt) /\
     (forall g p, ~ In (UpdateGoal g p) rest) /\
     (others = [] -> In (SendGoalSet (with_state goalSet canceled)) rest) /\
     (others <> [] -> forall gs, ~ In (SendGoalSet gs) rest) /\
     (forall gs, In (SendGoalSet gs) rest -> gs = with_state goalSet canceled)).
Proof.
  unfold cancelGoalSet.
  destruct (query_SdmGoalSetForId ctx goalSetId) as [|goalSet others] eqn:Eq;
    [left; split; reflexivity|].
  right. exists goalSet, others.
  rewrite cancel_all_trace.
  destruct others as [|o os].
  - eexists. split; [reflexivity|]. split; [reflexivity|].
    split; [|split; [|split]].
    + intros g p [K|[K|[]]]; discriminate K.
    + intros _. left. reflexivity.
    + intros K. contradiction K. reflexivity.
    + intros gs [K|[K|[]]]; [|discriminate K].
      injection K as <-. reflexivity.
  - eexists. split; [reflexivity|]. split; [reflexivity|].
    split; [|split; [|split]].
    + intros g p [K|[]]. discriminate K.
    + discriminate.
    + intros _ gs [K|[]]. discriminate K.
    + intros gs [K|[]]. discriminate K.
Qed.

Lemma cancelGoalSet_updates_canceled (ctx : CancelContext) (goalSetId : string)
    (g : SdmGoalEvent) (p : UpdateSdmGoalParams) :
  In (UpdateGoal g p) (trace (cancelGoalSet ctx goalSetId)) ->
  u_state p = canceled.
Proof.
  destruct (cancelGoalSet_cases ctx goalSetId)
    as [[_ H]|[gs [others [rest [_ [H [Hrest _]]]]]]]; rewrite H; cbn [trace fst].
  - intros [].
  - intros Hin. apply in_app_or in Hin. destruct Hin as [Hin|Hin].
    + apply in_map_iff in Hin. destruct Hin as [g' [K _]].
      unfold canceledUpdate in K. injection K as _ <-. reflexivity.
    + contradiction (Hrest g p Hin).
Qed.

(** Cancelling re-emits the goal set as canceled whatever its goals: when the
    query finds exactly one record, that record is sent with its state
    replaced by canceled and its other fields as they were, even if every
    goal is terminal already and none is written, and no other record is sent;
    when the query finds several records, no goal set is sent. *)
Theorem cancelGoalSet_emits_set
    (ctx : CancelContext) (goalSetId : string) (goalSet : SdmGoalSet)
    (others : list SdmGoalSet) :
  query_SdmGoalSetForId ctx goalSetId = goalSet :: others ->
  (others = [] ->
   In (SendGoalSet
         {| gs_goalSet := gs_goalSet goalSet;
            gs_goalSetId := gs_goalSetId goalSet;
            gs_sha := gs_sha goalSet; gs_branch := gs_branch goalSet;
            gs_repo := gs_repo goalSet; gs_state := canceled |})
      (trace (cancelGoalSet ctx goalSetId)) /\
   (forall gs, In (SendGoalSet gs) (trace (cancelGoalSet ctx goalSetId)) ->
               gs_state gs = canceled /\
               gs_goalSetId gs = gs_goalSetId goalSet /\
               gs_goalSet gs = gs_goalSet goalSet /\ gs_sha gs = gs_sha goalSet /\
               gs_branch gs = gs_branch goalSet /\ gs_repo gs = gs_repo goalSet) /\
   ((forall g, In g (fetchGoalsForCommit ctx goalSet goalSetId) ->
               terminal (state g)) ->
    forall g p, ~ In (UpdateGoal g p) (trace (cancelGoalSet ctx goalSetId)))) /\
  (others <> [] ->
   forall gs, ~ In (SendGoalSet gs) (trace (cancelGoalSet ctx goalSetId))).
Proof.
  intros Hq.
  destruct (cancelGoalSet_cases ctx goalSetId)
    as [[K _]|[gs [os [rest [Hq' [H [Hupd [Hone [Hmany Honly]]]]]]]]];
    [rewrite K in Hq; discriminate Hq|].
  rewrite Hq in Hq'. injection Hq' as <- <-. rewrite H. cbn [trace fst].
  split.
  - intros Ho. split; [|split].
    + apply in_or_app. right. exact (Hone Ho).
    + intros gs' Hin. apply in_app_or in Hin. destruct Hin as [Hin|Hin].
      * apply in_map_iff in Hin. destruct Hin as [g' [K _]]. discriminate K.
      * rewrite (Honly gs' Hin). repeat split.
    + intros Hterm g p Hin. apply in_app_or in Hin. destruct Hin as [Hin|Hin].
      * apply in_map_iff in Hin. destruct Hin as [g' [_ Hg']].
        apply filter_In in Hg'. destruct Hg' as [Hg' Hs].
        apply negb_true_iff in Hs.
        rewrite (proj2 (includes_notCanceled _) (Hterm g' Hg')) in Hs.
        discriminate Hs.
      * exact (Hupd g p Hin).
  - intros Ho gs' Hin. apply in_app_or in Hin. destruct Hin as [Hin|Hin].
    + apply in_map_iff in Hin. destruct Hin as [g' [K _]]. discriminate K.
    + exact (Hmany Ho gs' Hin).
Qed.

Lemma cancelGoalSet_emits_set_witness :
  In (SendGoalSet
        {| gs_goalSet := "build"; gs_goalSetId := "set-1"; gs_sha := "9f2c";
           gs_branch := "master"; gs_repo := sampleRepo; gs_state := canceled |})
     (trace (cancelGoalSet finishedCancelContext "set-1")) /\
  forall g p,
    ~ In (UpdateGoal g p) (trace (cancelGoalSet finishedCancelContext "set-1")).
Proof.
  destruct (proj1 (cancelGoalSet_emits_set finishedCancelContext "set-1"
                     sampleSet [] eq_refl) eq_refl) as [Hs [_ Hu]].
  split; [exact Hs|]. apply Hu.
  intros g [<-|[<-|[]]]; unfold terminal; simpl; tauto.
Defined.

Lemma cancelEach_returns (ctxAt : nat -> CancelContext)
    (pgs : list SdmGoalSet) (count : nat) :
  (forall n id, outcome (cancelGoalSet (ctxAt n) id) = Returned tt) ->
  outcome (cancelEach ctxAt count pgs) = Returned (count + List.length pgs) /\
  forall g p, In (UpdateGoal g p) (trace (cancelEach ctxAt count pgs)) ->
              u_state p = canceled.
Proof.
  intros Hret. revert count.
  induction pgs as [|pg pgs IH]; intros count; cbn [cancelEach].
  - split; [simpl; f_equal; lia|intros g p []].
  - rewrite outcome_bind, trace_bind, (Hret count (gs_goalSetId pg)).
    destruct (IH (S count)) as [Ho Hu]. split.
    + rewrite Ho. simpl. f_equal. lia.
    + intros g p Hin. apply in_app_or in Hin. destruct Hin as [Hin|Hin].
      * exact (cancelGoalSet_updates_canceled _ _ _ _ Hin).
      * exact (Hu g p Hin).
Qed.

Lemma cancelWhilePending_terminates (pending : nat -> list SdmGoalSet)
    (ctxAt : nat -> CancelContext) (d : nat) :
  (forall n id, outcome (cancelGoalSet (ctxAt n) id) = Returned tt) ->
  forall round count fuel,
    pending (round + d) = [] ->
    (forall j, j < d -> pending (round + j) <> []) ->
    d < fuel ->
    exists t,
      cancelWhilePending pending ctxAt fuel round count =
        Some (t, Returned (count + listedFrom pending round d)) /\
      forall g p, In (UpdateGoal g p) t -> u_state p = canceled.
Proof.
  intros Hret. induction d as [|d IH]; intros round count fuel Hend Hne Hfuel.
  - destruct fuel as [|fuel]; [lia|]. cbn [cancelWhilePending].
    rewrite Nat.add_0_r in Hend. rewrite Hend.
    exists []. split; [cbn [listedFrom]; rewrite Nat.add_0_r; reflexivity|intros g p []].
  - destruct fuel as [|fuel]; [lia|]. cbn [cancelWhilePending listedFrom].
    assert (H0 : pending round <> []).
    { specialize (Hne 0). rewrite Nat.add_0_r in Hne. apply Hne. lia. }
    destruct (pending round) as [|pg pgs] eqn:Ep; [contradiction H0; reflexivity|].
    destruct (cancelEach_returns ctxAt (pg :: pgs) count Hret) as [Ho Hu].
    destruct (cancelEach ctxAt count (pg :: pgs)) as [t o].
    cbn [outcome trace fst snd] in Ho, Hu. subst o.
    destruct (IH (S round) (count + List.length (pg :: pgs)) fuel)
      as [t' [Hw Hu']].
    + rewrite Nat.add_succ_comm. exact Hend.
    + intros j Hj. rewrite Nat.add_succ_comm. apply Hne. lia.
    + lia.
    + rewrite Hw. exists (t ++ t')%list. split.
      * rewrite Nat.add_assoc. reflexivity.
      * intros g p Hin. apply in_app_or in Hin.
        destruct Hin as [Hin|Hin]; [exact (Hu g p Hin)|exact (Hu' g p Hin)].
Qed.

Lemma cancelWhilePending_diverges (pending : nat -> list SdmGoalSet)
    (ctxAt : nat -> CancelContext) :
  (forall n id, outcome (cancelGoalSet (ctxAt n) id) = Returned tt) ->
  (forall n, pending n <> []) ->
  forall fuel round count,
    cancelWhilePending pending ctxAt fuel round count = None.
Proof.
  intros Hret Hne fuel. induction fuel as [|fuel IH]; intros round count;
    cbn [cancelWhilePending]; [reflexivity|].
  destruct (pending round) as [|pg pgs] eqn:Ep; [contradiction (Hne round)|].
  destruct (cancelEach_returns ctxAt (pg :: pgs) count Hret) as [Ho _].
  destruct (cancelEach ctxAt count (pg :: pgs)) as [t o].
  cbn [outcome snd] in Ho. subst o. rewrite IH. reflexivity.
Qed.

(** Cancelling all pending goal sets, every call of [cancelGoalSet] finding
    its set: if query number [k] is the first to list no pending goal set, the
    command cancels the sets the [k] queries before listed, writes nothing
    but updates to canceled for goals, and answers with their number, in the
    singular up to one; if every query lists a pending set the loop does not
    end, whatever the fuel.  With a non-empty [goalSetId] the command is one
    call of [cancelGoalSet]. *)
Theorem cancelGoalSetsCommand_cancels_all
    (pending : nat -> list SdmGoalSet) (ctxAt : nat -> CancelContext) :
  (forall n id, outcome (cancelGoalSet (ctxAt n) id) = Returned tt) ->
  (forall k fuel,
     pending k = [] -> (forall j, j < k -> pending j <> []) -> k < fuel ->
     forall goalSetId, goalSetId = None \/ goalSetId = Some "" ->
     exists t,
       cancelGoalSetsCommand pending ctxAt goalSetId fuel =
         Some ((t ++ [Respond "Cancel Goal Sets"
                        (canceledMessage (listedFrom pending 0 k))])%list,
               Returned tt) /\
       (forall g p, In (UpdateGoal g p) t -> u_state p = canceled)) /\
  ((forall n, pending n <> []) ->
   forall fuel, cancelGoalSetsCommand pending ctxAt None fuel = None) /\
  (forall c s fuel,
     cancelGoalSetsCommand pending ctxAt (Some (String c s)) fuel =
       Some (cancelGoalSet (ctxAt 0) (String c s))).
Proof.
  intros Hret. split; [|split].
  - intros k fuel Hend Hne Hfuel goalSetId Hid.
    destruct (cancelWhilePending_terminates pending ctxAt k Hret 0 0 fuel
                Hend Hne Hfuel) as [t [Hw Hu]].
    exists t. split; [|exact Hu].
    unfold cancelGoalSetsCommand.
    destruct Hid as [-> | ->]; rewrite Hw; cbn [Nat.add];
      rewrite bind_returned; cbn [trace outcome fst snd emit]; reflexivity.
  - intros Hne fuel. unfold cancelGoalSetsCommand.
    rewrite (cancelWhilePending_diverges pending ctxAt Hret Hne). reflexivity.
  - reflexivity.
Qed.

Lemma cancelGoalSetsCommand_cancels_all_witness :
  exists t,
    cancelGoalSetsCommand samplePending (fun _ => sampleCancelContext) None 3 =
      Some ((t ++ [Respond "Cancel Goal Sets"
                     "Successfully canceled 3 pending goal sets"])%list,
            Returned tt).
Proof.
  assert (Hret : forall (n : nat) id,
             outcome (cancelGoalSet ((fun _ => sampleCancelContext) n) id)
             = Returned tt) by reflexivity.
  destruct (proj1 (cancelGoalSetsCommand_cancels_all samplePending
                     (fun _ => sampleCancelContext) Hret) 2 3 eq_refl)
    with (goalSetId := @None string) as [t [H _]].
  - intros [|[|j]] Hj; [discriminate|discriminate|lia].
  - lia.
  - left. reflexivity.
  - exists t. exact H.
Defined.

(** *** The metadata filter of the isolated worker *)

Lemma names_include_spec (l : list string) (n : string) :
  names_include l n = true <-> In n l.
Proof.
  unfold names_include. rewrite existsb_exists. split.
  - intros [x [Hx E]]. apply String.eqb_eq in E. subst x. exact Hx.
  - intros H. exists n. split; [exact H|apply String.eqb_refl].
Qed.

(** After the filter, an event handler that is still exposed is one of the
    allowed event handlers, and an exposed command handler that is not also an
    event handler is one of the allowed commands; the filter only ever hides
    (name and kind are kept, what was hidden stays hidden, what is allowed is
    left as it is), and filtering twice is filtering once. *)
Theorem FilteringMetadataProcessor_process_hides
    (allowedCommands allowedEvents : list string) (metadata : AutomationMetadata) :
  let result :=
    FilteringMetadataProcessor_process allowedCommands allowedEvents metadata in
  (exposed result -> md_event metadata = true ->
   In (md_name metadata) allowedEvents) /\
  (exposed result -> md_command metadata = true -> md_event metadata = false ->
   In (md_name metadata) allowedCommands) /\
  (result = metadata \/ result = hide metadata) /\
  (exposed result -> exposed metadata /\ result = metadata) /\
  FilteringMetadataProcessor_process allowedCommands allowedEvents result = result.
Proof.
  unfold FilteringMetadataProcessor_process, exposed.
  destruct (md_event metadata) eqn:Ee, (md_command metadata) eqn:Ec;
    destruct (names_include allowedEvents (md_name metadata)) eqn:Ne;
    destruct (names_include allowedCommands (md_name metadata)) eqn:Nc;
    cbn [andb negb hide md_name md_event md_command expose];
    rewrite ?Ee, ?Ec, ?Ne, ?Nc; cbn [andb negb];
    repeat split; intros;
      try (apply names_include_spec; assumption);
      try discriminate; try tauto; try congruence;
      try (left; reflexivity); try (right; reflexivity).
Qed.

Lemma FilteringMetadataProcessor_process_hides_witness :
  In "FulfillGoalOnRequested" ["FulfillGoalOnRequested"].
Proof.
  apply (proj1 (FilteringMetadataProcessor_process_hides
                  [] ["FulfillGoalOnRequested"]
                  {| md_name := "FulfillGoalOnRequested"; md_event := true;
                     md_command := false; expose := None |})).
  - discriminate.
  - reflexivity.
Defined.

(** *** Listing the pending goal sets *)

Lemma listWhilePending_terminates (pending : nat -> list SdmGoalSet)
    (fmt : CancelContext) (id : string) (d : nat) :
  forall round fuel attachments,
    pending (round + d) = [] ->
    (forall j, j < d -> pending (round + j) <> []) ->
    d < fuel ->
    listWhilePending pending fmt id fuel round attachments =
      Some (attachments
              ++ map (pendingAttachment fmt id) (listedSets pending round d))%list.
Proof.
  induction d as [|d IH]; intros round fuel attachments Hend Hne Hfuel.
  - destruct fuel as [|fuel]; [lia|]. cbn [listWhilePending listedSets map].
    rewrite Nat.add_0_r in Hend. rewrite Hend, app_nil_r. reflexivity.
  - destruct fuel as [|fuel]; [lia|]. cbn [listWhilePending listedSets].
    assert (H0 : pending round <> []).
    { specialize (Hne 0). rewrite Nat.add_0_r in Hne. apply Hne. lia. }
    destruct (pending round) as [|pg pgs] eqn:Ep; [contradiction H0; reflexivity|].
    rewrite IH.
    + rewrite map_app, app_assoc. reflexivity.
    + rewrite Nat.add_succ_comm. exact Hend.
    + intros j Hj. rewrite Nat.add_succ_comm. apply Hne. lia.
    + lia.
Qed.

Lemma listWhilePending_diverges (pending : nat -> list SdmGoalSet)
    (fmt : CancelContext) (id : string) :
  (forall n, pending n <> []) ->
  forall fuel round attachments,
    listWhilePending pending fmt id fuel round attachments = None.
Proof.
  intros Hne fuel. induction fuel as [|fuel IH]; intros round attachments;
    cbn [listWhilePending]; [reflexivity|].
  destruct (pending round) as [|pg pgs] eqn:Ep; [contradiction (Hne round)|].
  apply IH.
Qed.

(** Listing the pending goal sets: if query number [k] is the first to list
    none, the command responds with one attachment, carrying a Cancel button
    for its goal set, for every set the [k] queries before listed, in order
    and after the attachments of the info message; the number the first
    attachment announces is one less than the number of sets listed, so that
    with no pending set the message announces -1 sets.  If every query lists a
    pending set the command never responds, whatever the fuel. *)
Theorem listPendingGoalSetsCommand_lists
    (slackInfoMessage : string -> string -> list Attachment)
    (slackFooter : string) (pending : nat -> list SdmGoalSet)
    (fmt : CancelContext) (id : string) :
  (forall k fuel,
     pending k = [] -> (forall j, j < k -> pending j <> []) -> k < fuel ->
     let listed := listedSets pending 0 k in
     listPendingGoalSetsCommand slackInfoMessage slackFooter pending fmt id fuel =
       Some (assemble slackFooter
               (slackInfoMessage "Pending Goal Sets"
                  (pendingHeader (Z.of_nat (List.length listed) - 1)))
               (map (pendingAttachment fmt id) listed)) /\
     map (fun a => map act_goalSetId (att_actions a))
         (map (pendingAttachment fmt id) listed)
       = map (fun pg => [gs_goalSetId pg]) listed) /\
  (forall fuel,
     pending 0 = [] -> 0 < fuel ->
     listPendingGoalSetsCommand slackInfoMessage slackFooter pending fmt id fuel =
       Some (assemble slackFooter
               (slackInfoMessage "Pending Goal Sets"
                  "Following -1 goal sets are pending:") [])) /\
  ((forall n, pending n <> []) ->
   forall fuel,
     listPendingGoalSetsCommand slackInfoMessage slackFooter pending fmt id fuel
     = None).
Proof.
  split; [|split].
  - intros k fuel Hend Hne Hfuel listed. split.
    + unfold listPendingGoalSetsCommand.
      rewrite (listWhilePending_terminates pending fmt id k 0 fuel [] Hend Hne Hfuel).
      cbn [app]. fold listed. rewrite length_map. reflexivity.
    + rewrite map_map. apply map_ext. intros pg. reflexivity.
  - intros fuel H0 Hfuel. unfold listPendingGoalSetsCommand.
    destruct fuel as [|fuel]; [lia|]. cbn [listWhilePending]. rewrite H0.
    reflexivity.
  - intros Hne fuel. unfold listPendingGoalSetsCommand.
    rewrite (listWhilePending_diverges pending fmt id Hne). reflexivity.
Qed.

Lemma listPendingGoalSetsCommand_lists_witness :
  exists a1 a2 a3,
    listPendingGoalSetsCommand sampleInfoMessage "footer" samplePending
      sampleCancelContext "msg-1" 3
    = Some (Returned
              [ {| att_text := "Following 2 goal sets are pending:";
                   att_fallback := "Following 2 goal sets are pending:";
                   att_footer := None; att_actions := [] |};
                a1; a2; with_footer a3 (Some "footer") ])
    /\ map act_goalSetId (att_actions a3) = ["set-1"].
Proof.
  destruct (proj1 (listPendingGoalSetsCommand_lists sampleInfoMessage "footer"
                     samplePending sampleCancelContext "msg-1") 2 3 eq_refl)
    as [H _].
  - intros [|[|j]] Hj; [discriminate|discriminate|lia].
  - lia.
  - exists (pendingAttachment sampleCancelContext "msg-1" sampleSet),
           (pendingAttachment sampleCancelContext "msg-1" sampleSet),
           (pendingAttachment sampleCancelContext "msg-1" sampleSet).
    split; [rewrite H; reflexivity|reflexivity].
Defined.
